(* ===== verification/_CoqProject ===== *)
-Q . S2P
Prelude.v
GoLib.v
Note.v
Bson.v
Collection.v
Repository.v
StoreSpec.v
Ids.v
Mongo.v
Cli.v
CliSpec.v
Tui.v
App.v
