(* ===== verification/Prelude.v ===== *)
(** * A verification development of notes-go

    notes-go (src/) is a personal note-taking command-line tool written in Go.
    It stores notes in the MongoDB collection [go-notes.notes]. Its parts and
    how they call one another:

    - [internal/model/note.go]: the [Note] struct (name, text, tag, author,
      creation time, int32 id). It has no methods. The MongoDB driver decodes
      it with its default struct codec, whose keys are the lowercased field
      names.
    - [internal/repository/mongo.go]: [InitMongoClient] connects to
      [mongodb://localhost:27017/], pings the server and returns the handle of
      the collection.
    - [internal/repository/notes.go]: [NotesRepositoryImpl] holds the
      collection handle and an in-process [counter] (a Go [int]). Its methods
      [Add], [Delete], [ByAuthor], [ByName] and [All] are thin wrappers around
      the driver's [InsertOne], [DeleteOne], [FindOne] and [Find], and they
      wrap the errors.
    - [cmd/main.go]: the process. Package initialisation calls
      [InitMongoClient], drops its error, and builds one repository with
      counter 0. The urfave/cli app dispatches the commands [add], [del],
      [mine] and [name] to the repository. With no command it runs a
      bubbletea list screen ([model], [Update], [View],
      [itemDelegate.Render]), which lists the notes' names and shows the text
      of the chosen one. [View] re-reads the repository on every redraw.
    - [internal/cli/commands.go]: a second, cobra-based command table. It
      calls [AddNote] and [DeleteNote], which the [NotesRepository] interface
      does not declare, so the package does not compile. It is not modelled.

    ** Files, in dependency order

    - [Prelude] (this file): Go's error values ([goerr]), the outcome of a Go
      call ([outcome]: a return, an error, or a panic), a state-and-error
      monad [ST] with its notation in [notes_scope], Go's fixed-width signed
      integers ([wrap_signed], [in_signed]) with their lemmas in a Section
      over the width, and the hint databases [notes] and [notes_rw].
    - [GoLib]: the Go library calls whose results matter, written from Go's
      sources: [strconv.Atoi] (fast path, [ParseInt] slow path, clamping),
      [int32(x)], [strconv.Itoa] for [fmt.Sprintf("%d")], and
      [cli.Args.Get]/[First]. [ParseInt] is its own definition, as in Go,
      and [Atoi] calls it after its unchecked fast path. It proves that the
      fast path is an optimisation of [ParseInt] ([Atoi_ParseInt]), the
      round trip [Atoi (Itoa z) = (z, false)] for every 64-bit [z]
      ([Atoi_Itoa]), and the clamping of printed values outside the range
      ([ParseInt_Itoa_clamp]).
    - [Note]: the [Note] record of note.go, its zero value and field setters.
    - [Bson]: BSON values and [bson.D] documents, the driver's encoding of a
      Go [int] (int32 when it fits, int64 otherwise) and of a [time.Time]
      (milliseconds), the document [Add] writes ([add_doc]), the codec's
      decoding into a [Note] ([decode_note], [decode_all]), and the round
      trip.
    - [Collection]: the interface between the repository and MongoDB. The
      type class [Collection] has [InsertOne]/[DeleteOne]/[FindOne]/[Find] as
      state-passing operations. [CollectionLaws] is what they promise: while
      the server is available they act on the documents in natural order
      (first match, first removal); while it is not, they fail with an error
      other than [ErrNoDocuments] and change nothing. [MemColl] is an
      executable instance that discharges the laws. The driver and server
      are not code of this repository; this part is modelled from the spec
      (its sections 4 and 6).
    - [Repository]: [NotesRepositoryImpl] and its five methods in [ST] over
      the pair (repository, collection state), with [Env] supplying the OS
      user and the clock. The theorems are proved in Sections whose
      [Context] is an arbitrary collection satisfying [CollectionLaws], and
      the witnesses run on [MemColl]. A [call] type and [run_calls] give
      sequences of calls in one process (a panic ends the sequence). The
      [NotesRepository] interface of notes.go is a type class with the
      implementation as its instance; the command actions and the screen
      call the repository through it.
    - [StoreSpec]: the store's contract from the spec (section 4.1) as a
      nondeterministic step relation [spec_step] on a list of notes, with
      the error kinds NotFound/StorageRead/StorageWrite. The relation
      [store_rel] ties it to a collection up to the erased [CreatedAt].
      [run_call_refines] and [run_calls_refine] prove that the repository
      refines it.
    - [Ids]: the id counter over a sequence of [Add] calls in one process.
    - [Mongo]: [InitMongoClient] over the outcomes of connect and ping, and
      main.go's package variables [collection], [notesRepo] and [counter].
    - [Cli]: the four command actions, the dispatch by command name or
      alias, and [main_run], one process from initialisation to exit status
      (ok, [log.Fatal] of an error, or a panic) with the printed lines.
    - [CliSpec]: the command line against the store's contract. Each
      command makes one repository call ([cmd_call]); [main_runs] runs
      processes one after another on one database, and [runs_ops] is the
      list of spec operations they name.
    - [Tui]: the list screen. [Update] is a function on [model].
      [reachable] is the step relation's reachable set from the root model.
      [View] and [root_model] read the repository. [program_run] is
      [tea.Program.Run]: [Init], then the event loop [program_loop] until
      [tea.Quit]. [Render] formats the item rows, and the delegate's
      [Update] returns no command.
    - [App]: the whole program: [root_run] is the root action as a
      process (the model from [All], the program, the last frame), and
      [main_process] is [main()], a command or the screen.

    ** What the theorems show (PROJECT.json lists them as C1 to C40)

    - Repository, every branch of every method: success, the driver's error
      wrapped with the method's context, [ErrNoDocuments] turned into
      "no documents by given filter", a decode error, and the panics of a
      nil collection (C2-C4, C6-C8, C13); the server-down message of
      [ByName] is stated with the command that calls it (C38).
    - Scenarios: create then find (C1), create then delete restores the
      store (C5), two creates in one process store distinct ids (C9),
      two deletes of different ids remove the first document of each id
      and commute (C10), create then find by the OS user as author (C34),
      and a counter past 2^31-1 makes the new note undecodable (C17).
    - Invariant over any sequence of calls: with fewer than 2^31 creates
      every stored document decodes, so [All] returns one note per
      document (C11).
    - Round trip of [add_doc] through the codec (C12): name, text, tag,
      author and id come back; [CreatedAt] does not, because the stored key
      [created_at] is not the codec's [createdat].
    - The process: ids collide across processes (C15), [del <id>] deletes id
      0 whatever the id (C16), [name] on a missing note prints an empty line
      and fails (C18), and a failed connection makes every command panic
      (C19).
    - The screen: the invariant of reachable models (C20), the screen as a
      process never writes and exits 0 exactly when the connection
      succeeded (C21), the text shown for a choice is the first note of that
      name (C22), an empty name shows the list (C23), and exactly one row is
      rendered as selected (C24).
    - Liveness of the screen: from any reachable model every row can be
      chosen, by [home], [i] presses of [down] and [enter], and the program
      then quits with that row's name as the choice ([leads_to], an
      inductive "eventually" over the key steps the user picks) (C14).
    - Refinement: each repository call is matched by a step of the spec's
      store with a corresponding result or error kind (C25), and every
      sequence of calls of one process by the run of exactly the spec
      operations the calls name ([calls_trace]), each result matching
      (C26).
    - Ids on the command line: [notes del x <id>] deletes [int32(id)] for
      every 64-bit id, through the [Atoi]/[Itoa] round trip (C27); [mine]
      prints nothing (C28); with ids duplicated across processes, [del]
      removes the older note (C29).
    - The command line refines the spec: any sequence of processes is
      matched by the run of the spec's store made of the operations the
      commands name, and ends related to it (C30).
    - Missing arguments: [notes add] with no text stores a note with an
      empty text and tag and exits 0, where the spec requires
      [<name> <text>] (C31).
    - Termination: the program stops exactly at the first quit key
      ([ctrl+c], [enter], [q], [esc]) and never reads the messages after it
      (C33); only [ctrl+c] ends on the goodbye line, [q] and [esc] on the
      list (C36).
    - An id outside the [int64] range is clamped by [Atoi] and cut by
      [int32], deleting id -1 or 0 (C35).
    - Dropped lookup errors on the screen: a chosen note no longer stored
      shows an empty text (C32). The server down: the screen starts on an
      empty list and a choice shows an empty text (C37); every command exits through [log.Fatal]
      with its context's message and leaves the database as it was (C38).
    - Ids within a process: [n] successful creates store the ids [k] to
      [k+n-1] in order and advance the counter by [n] (C39).
    - Composition across processes: a note added by [notes add] is shown
      by the next run of the screen after [end] and [enter] (C40).

    ** Bounds and fuel

    - Every function is structurally recursive except [Utoa], which runs on
      fuel [digits_fuel n = log2 |n| + 2]. Since [n < 2^(log2 n + 1)] and
      [2 <= 10], [n < 10^(digits_fuel n)] ([digits_fuel_enough]), and a
      number below [10^f] has at most [f] digits, so the fuel is never
      exhausted. The round trip uses it for every 64-bit value.
    - The counter is a 64-bit [int]: [r.counter++] is
      [wrap_signed 64 (counter + 1)]. The stored id is decodable into the
      [int32] field only below 2^31, and C11 assumes fewer than 2^31 creates
      from a counter at or above 0. [int32(id)] in [del] wraps modulo 2^32.
    - [Atoi]'s fast path takes texts of 1 to 18 bytes: at most 18 digits,
      so every prefix stays below [10^18 < 2^63] and the missing overflow
      check cannot matter ([digits_fast_u64]).

    ** Not modelled

    - The cobra command table (it does not compile), urfave/cli's flags and
      help, the bubbles list's paging, help and filtering (disabled by
      main.go), and lipgloss styling: a view is modelled as the content
      shown. The paging would use [itemDelegate.Height] and [Spacing]
      (main.go, lines 146-147), but the bubbles library's source, which
      computes pages from them, is not part of the repository, so it cannot
      be modelled from code. [item.FilterValue] is unused with filtering
      disabled.
    - The driver's cursors, batches and timeouts, and the server's
      duplicate-key and size limits. The spec's concurrency concern (an
      unsynchronised counter) does not arise in this program: every process
      runs one command on one goroutine, and the model runs its calls in
      sequence.
    - Simplifications of library behaviour, each stated where it is used:
      [app_dispatch] treats every argument as positional (urfave/cli would
      read a leading [-] as a flag, [-h] as help), so the command-line
      theorems are about positional arguments; [list_Update] leaves the
      paging keys (left/h/pgup/b/u, right/l/pgdown/f/d) without effect,
      although on a list of more than one page they move the cursor; and
      [program_loop] takes [tea.Quit] as immediate, while bubbletea runs it
      as a command, so messages already queued behind a quit key may still
      reach [Update] (C33 is about the model's loop).
    - Window-size messages: [Update] stores the width in the list
      ([SetWidth]) and nothing the model keeps reads it; what it changes is
      the layout, which is not modelled.
    - Open questions are recorded as findings in PROJECT.json. *)

From stdpp Require Export base list strings decidable.
From Stdlib Require Export ZArith Lia.

Declare Scope notes_scope.
Delimit Scope notes_scope with notes.

(** ** Go error values *)

(** The error values the repository can see or build. [Wrapf ctx e] is
    [fmt.Errorf("ctx: %w", e)], [Errorf msg] is [fmt.Errorf(msg)] without a
    wrapped error, and [ErrNoDocuments] is the driver's sentinel
    [mongo.ErrNoDocuments]. *)
Inductive goerr :=
| ErrNoDocuments
| ErrServer (msg : string)
| ErrDecode (msg : string)
| Errorf (msg : string)
| Wrapf (ctx : string) (e : goerr).

#[export] Instance goerr_eq_dec : EqDecision goerr.
Proof. solve_decision. Defined.

(** The outcome of a Go call: it returns, it returns a non-nil error, or it
    panics (the process dies). *)
Inductive outcome (A : Type) :=
| Ret (a : A)
| Throw (e : goerr)
| Panic (msg : string).
Arguments Ret {A} a.
Arguments Throw {A} e.
Arguments Panic {A} msg.

(** The Go pair [(T, error)]: the code returns the zero value with every
    error. *)
Definition with_zero {A} (zero : A) (o : outcome A) : A :=
  match o with Ret a => a | _ => zero end.

Definition is_ret {A} (o : outcome A) : bool :=
  match o with Ret _ => true | _ => false end.

(** ** A state-and-error monad *)

Definition ST (S A : Type) : Type := S -> S * outcome A.

Definition st_ret {S A} (a : A) : ST S A := fun s => (s, Ret a).
Definition st_throw {S A} (e : goerr) : ST S A := fun s => (s, Throw e).
Definition st_panic {S A} (msg : string) : ST S A := fun s => (s, Panic msg).
Definition st_get {S} : ST S S := fun s => (s, Ret s).
Definition st_modify {S} (f : S -> S) : ST S unit := fun s => (f s, Ret tt).

Definition st_bind {S A B} (m : ST S A) (k : A -> ST S B) : ST S B :=
  fun s =>
    match m s with
    | (s', Ret a) => k a s'
    | (s', Throw e) => (s', Throw e)
    | (s', Panic p) => (s', Panic p)
    end.

(** [if err != nil { return fmt.Errorf("ctx: %w", err) }] *)
Definition st_wrap {S A} (ctx : string) (m : ST S A) : ST S A :=
  fun s =>
    match m s with
    | (s', Throw e) => (s', Throw (Wrapf ctx e))
    | r => r
    end.

(** A pure Go call inside the monad. *)
Definition st_lift {S A} (o : outcome A) : ST S A := fun s => (s, o).

(** [if err != nil { return handler(err) }]: the handler sees the error. *)
Definition st_catch {S A} (m : ST S A) (h : goerr -> ST S A) : ST S A :=
  fun s =>
    match m s with
    | (s', Throw e) => h e s'
    | r => r
    end.

(** [v, err := f()] with the error kept as a value: only a panic stops. *)
Definition st_attempt {S A} (m : ST S A) : ST S (outcome A) :=
  fun s =>
    match m s with
    | (s', Panic p) => (s', Panic p)
    | (s', o) => (s', Ret o)
    end.

(** A nil pointer: dereferencing [None] panics. *)
Definition st_deref {S A} (p : option A) : ST S A :=
  match p with
  | Some a => st_ret a
  | None => st_panic "runtime error: invalid memory address or nil pointer dereference"
  end.

Notation "x <- m ;; k" := (st_bind m (fun x => k))
  (at level 100, m at next level, right associativity) : notes_scope.
Notation "m ;; k" := (st_bind m (fun _ => k))
  (at level 100, right associativity) : notes_scope.

Open Scope notes_scope.

(** ** Go's fixed-width signed integers *)

Open Scope Z_scope.

(** The value a [w]-bit two's-complement register holds after storing [z]:
    Go's arithmetic on [int32] and [int] wraps this way. *)
Definition wrap_signed (w z : Z) : Z :=
  (z + 2 ^ (w - 1)) mod 2 ^ w - 2 ^ (w - 1).

Definition in_signed (w z : Z) : bool :=
  (- 2 ^ (w - 1) <=? z) && (z <? 2 ^ (w - 1)).

Definition int32_min : Z := - 2 ^ 31.
Definition int32_max : Z := 2 ^ 31 - 1.
Definition int64_min : Z := - 2 ^ 63.
Definition int64_max : Z := 2 ^ 63 - 1.

Section SignedWidth.
Context (w : Z) (Hw : 1 <= w).

Lemma pow_half_pos : 0 < 2 ^ (w - 1).
Proof. apply Z.pow_pos_nonneg; lia. Qed.

Lemma pow_full_eq : 2 ^ w = 2 * 2 ^ (w - 1).
Proof.
  replace w with ((w - 1) + 1) at 1 by lia.
  rewrite Z.pow_add_r by lia. lia.
Qed.

Lemma in_signed_iff z : in_signed w z = true <-> - 2 ^ (w - 1) <= z < 2 ^ (w - 1).
Proof.
  unfold in_signed. rewrite andb_true_iff, Z.leb_le, Z.ltb_lt. tauto.
Qed.

Lemma wrap_signed_small z :
  - 2 ^ (w - 1) <= z < 2 ^ (w - 1) -> wrap_signed w z = z.
Proof.
  intros Hz. unfold wrap_signed. pose proof pow_full_eq.
  rewrite Z.mod_small by lia. lia.
Qed.

Lemma wrap_signed_range z : - 2 ^ (w - 1) <= wrap_signed w z < 2 ^ (w - 1).
Proof.
  unfold wrap_signed. pose proof pow_full_eq. pose proof pow_half_pos.
  pose proof (Z.mod_pos_bound (z + 2 ^ (w - 1)) (2 ^ w)). lia.
Qed.

Lemma wrap_signed_in z : in_signed w (wrap_signed w z) = true.
Proof. apply in_signed_iff, wrap_signed_range. Qed.

Lemma wrap_signed_idem z : wrap_signed w (wrap_signed w z) = wrap_signed w z.
Proof. apply wrap_signed_small, wrap_signed_range. Qed.

(** Wrapping agrees with the residue modulo [2^w]. *)
Lemma wrap_signed_mod z : wrap_signed w z mod 2 ^ w = z mod 2 ^ w.
Proof.
  unfold wrap_signed. pose proof pow_full_eq. pose proof pow_half_pos.
  rewrite Zminus_mod, Zmod_mod, <- Zminus_mod.
  f_equal. lia.
Qed.

(** Adding one never gives back the same register value. *)
Lemma wrap_signed_succ_neq z :
  - 2 ^ (w - 1) <= z < 2 ^ (w - 1) -> wrap_signed w (z + 1) <> z.
Proof.
  intros Hz Heq. pose proof pow_full_eq. pose proof pow_half_pos.
  assert (Hm : (z + 1) mod 2 ^ w = z mod 2 ^ w).
  { rewrite <- wrap_signed_mod, Heq. reflexivity. }
  apply (f_equal (fun x => (x - z) mod 2 ^ w)) in Hm.
  rewrite Zminus_mod_idemp_l in Hm. rewrite Zminus_mod_idemp_l in Hm.
  replace (z + 1 - z) with 1 in Hm by lia. rewrite Z.sub_diag in Hm.
  rewrite Z.mod_small in Hm by lia. rewrite Zmod_0_l in Hm. lia.
Qed.
End SignedWidth.

Close Scope Z_scope.

(** ** Hint database and tactics *)

Create HintDb notes discriminated.
Create Rewrite HintDb notes_rw.

#[export] Hint Resolve wrap_signed_range wrap_signed_in : notes.
#[export] Hint Rewrite wrap_signed_idem using lia : notes_rw.

(** Unfold the monad's plumbing so that [simpl] reaches the branches. *)
Ltac st_unfold :=
  unfold st_bind, st_wrap, st_lift, st_catch, st_attempt, st_ret, st_throw, st_panic, st_get, st_modify,
    st_deref in *.

(** Case on a [match] of the goal whose scrutinee is an application, keeping
    the equation. *)
Ltac st_case :=
  match goal with
  | |- context [match ?x with _ => _ end] =>
      lazymatch x with
      | context [match _ with _ => _ end] => fail
      | _ => destruct x eqn:?
      end
  end.
