(* ===== verification/GoLib.v ===== *)
(** The Go standard-library and urfave/cli calls that main.go relies on
    for values that matter: [strconv.Atoi] (Go 1.x, 64-bit [int]), the
    conversion [int32(x)], decimal printing ([strconv.Itoa], i.e.
    [fmt.Sprintf("%d")]), and [cli.Args.Get]/[First]. These are not code of
    the repository. They are written from the Go sources' documented
    behaviour so that the command-line code can be run on concrete
    arguments. The file ends with the round trip [Atoi (Itoa z) = z]. *)
From S2P Require Import Prelude.
From Stdlib Require Import Ascii.

Open Scope Z_scope.

(** [c.Args().Get(n)]: the [n]-th argument, or [""] past the end. *)
Definition args_get (args : list string) (n : nat) : string :=
  default "" (args !! n).

Definition args_first (args : list string) : string := args_get args 0.

Lemma args_get_nil n : args_get [] n = "".
Proof. reflexivity. Qed.
Lemma args_get_cons_0 a l : args_get (a :: l) 0 = a.
Proof. reflexivity. Qed.
Lemma args_get_cons_S a l n : args_get (a :: l) (S n) = args_get l n.
Proof. reflexivity. Qed.

#[export] Hint Rewrite args_get_nil args_get_cons_0 args_get_cons_S : notes_rw.

(** [int32(x)]: keep the low 32 bits, as a signed value. *)
Definition to_int32 (x : Z) : Z := wrap_signed 32 x.

Definition digit_val (a : ascii) : option Z :=
  let n := nat_of_ascii a in
  if (48 <=? n)%nat && (n <=? 57)%nat then Some (Z.of_nat n - 48) else None.

(** The fast path of [Atoi] (fewer than 19 bytes): no overflow check. *)
Fixpoint digits_fast (s : string) (acc : Z) : option Z :=
  match s with
  | EmptyString => Some acc
  | String a s' =>
      match digit_val a with
      | Some d => digits_fast s' (acc * 10 + d)
      | None => None
      end
  end.

(** [ParseUint(s, 10, 64)]: a bad byte is a syntax error (value 0). A value
    past [2^64 - 1] is a range error (value [2^64 - 1]). The first of the
    two, in byte order, wins. *)
Fixpoint digits_u64 (s : string) (acc : Z) : Z * bool :=
  match s with
  | EmptyString => (acc, false)
  | String a s' =>
      match digit_val a with
      | None => (0, true)
      | Some d =>
          let n := acc * 10 + d in
          if 2 ^ 64 <=? n then (2 ^ 64 - 1, true) else digits_u64 s' n
      end
  end.

Definition is_sign (a : ascii) : bool := bool_decide (a = "-"%char \/ a = "+"%char).

(** The sign of a decimal text: a leading [-] or [+] is removed. *)
Definition split_sign (s : string) : bool * string :=
  match s with
  | String a s' => if is_sign a then (bool_decide (a = "-"%char), s') else (false, s)
  | EmptyString => (false, s)
  end.

(** [strconv.ParseInt(s, 10, 0)] on a 64-bit platform: the value and
    whether an error was returned. A value past the [int64] range is a
    range error with the value clamped to the nearest bound. *)
Definition ParseInt (s : string) : Z * bool :=
  let '(neg, body) := split_sign s in
  if bool_decide (body = EmptyString) then (0, true)
  else
    let '(un, err) := digits_u64 body 0 in
    if err && negb (bool_decide (un = 2 ^ 64 - 1)) then (0, true)
    else if negb neg && (2 ^ 63 <=? un) then (2 ^ 63 - 1, true)
    else if neg && (2 ^ 63 <? un) then (- 2 ^ 63, true)
    else (if neg then - un else un, err).

(** [strconv.Atoi(s)]: a fast path without overflow checks for texts of 1
    to 18 bytes, and [ParseInt] for the others. *)
Definition Atoi (s : string) : Z * bool :=
  let len := String.length s in
  if (0 <? len)%nat && (len <? 19)%nat then
    let '(neg, body) := split_sign s in
    if bool_decide (body = EmptyString) then (0, true)
    else match digits_fast body 0 with
         | Some n => (if neg then - n else n, false)
         | None => (0, true)
         end
  else ParseInt s.

(** ** Decimal printing *)

Definition digit_char (d : Z) : ascii := ascii_of_nat (Z.to_nat (48 + d)).

(** The decimal digits of [n > 0], most significant first. The fuel [f] is
    the digit budget; [digits_fuel] is enough. *)
Fixpoint utoa_fuel (f : nat) (n : Z) (acc : string) : string :=
  match f with
  | O => acc
  | S f' =>
      if n <? 10 then String (digit_char n) acc
      else utoa_fuel f' (n / 10) (String (digit_char (n mod 10)) acc)
  end.

Definition digits_fuel (n : Z) : nat := S (Z.to_nat (Z.log2 (Z.abs n) + 1)).

Definition Utoa (n : Z) : string := utoa_fuel (digits_fuel n) n EmptyString.

(** [strconv.Itoa(z)], which [fmt.Sprintf("%d", z)] prints. *)
Definition Itoa (z : Z) : string :=
  if z <? 0 then String "-"%char (Utoa (- z)) else Utoa z.


(** ** Round trip of decimal printing and parsing *)

(** The number of digits [utoa_fuel] emits. *)
Fixpoint ndig (f : nat) (n : Z) : nat :=
  match f with
  | O => O
  | S f' => if n <? 10 then 1%nat else S (ndig f' (n / 10))
  end.

Lemma digit_char_nat d : 0 <= d < 10 -> nat_of_ascii (digit_char d) = Z.to_nat (48 + d).
Proof. intros Hd. unfold digit_char. apply nat_ascii_embedding. lia. Qed.

Lemma digit_val_char d : 0 <= d < 10 -> digit_val (digit_char d) = Some d.
Proof.
  intros Hd. unfold digit_val. rewrite digit_char_nat by done.
  replace (48 <=? Z.to_nat (48 + d))%nat with true by (symmetry; apply Nat.leb_le; lia).
  replace (Z.to_nat (48 + d) <=? 57)%nat with true by (symmetry; apply Nat.leb_le; lia).
  simpl. f_equal. lia.
Qed.

Lemma is_sign_digit d : 0 <= d < 10 -> is_sign (digit_char d) = false.
Proof.
  intros Hd. unfold is_sign. apply bool_decide_false.
  intros [E|E]; apply (f_equal nat_of_ascii) in E; rewrite digit_char_nat in E by done.
  - change (nat_of_ascii "-") with 45%nat in E. lia.
  - change (nat_of_ascii "+") with 43%nat in E. lia.
Qed.

Lemma utoa_head f n acc :
  (1 <= f)%nat -> 0 <= n ->
  exists d rest, utoa_fuel f n acc = String (digit_char d) rest /\ 0 <= d < 10.
Proof.
  revert n acc. induction f as [|f IH]; intros n acc Hf Hn; [lia|]. simpl.
  destruct (n <? 10) eqn:E.
  - exists n, acc. split; [done|]. apply Z.ltb_lt in E. lia.
  - apply Z.ltb_ge in E. destruct f as [|f]; simpl.
    + exists (n mod 10), acc. split; [done|]. pose proof (Z.mod_pos_bound n 10). lia.
    + apply IH; [lia|]. apply Z.div_pos; lia.
Qed.

Lemma digits_split n (k : nat) a :
  a * 10 ^ Z.of_nat (S k) + n = (a * 10 ^ Z.of_nat k + n / 10) * 10 + n mod 10.
Proof.
  pose proof (Z.div_mod n 10 ltac:(lia)).
  rewrite Nat2Z.inj_succ, Z.pow_succ_r by lia. lia.
Qed.

(** [ParseUint] reads back what [utoa_fuel] printed while the value stays
    below [2^64]: every prefix is smaller than the whole number. *)
Lemma digits_u64_utoa f n acc a :
  0 <= a -> 0 <= n -> n < 10 ^ Z.of_nat f ->
  a * 10 ^ Z.of_nat (ndig f n) + n < 2 ^ 64 ->
  digits_u64 (utoa_fuel f n acc) a = digits_u64 acc (a * 10 ^ Z.of_nat (ndig f n) + n).
Proof.
  revert n acc a. induction f as [|f IH]; intros n acc a Ha Hn Hf Hb.
  { simpl in *. replace n with 0 by lia. f_equal; lia. }
  simpl in *. destruct (n <? 10) eqn:E.
  - apply Z.ltb_lt in E. simpl in *. rewrite digit_val_char by lia.
    assert (Hb' : a * 10 + n < 2 ^ 64) by lia.
    rewrite (proj2 (Z.leb_gt _ _) Hb'). f_equal; lia.
  - apply Z.ltb_ge in E. pose proof (digits_split n (ndig f (n / 10)) a) as Hs.
    pose proof (Z.mod_pos_bound n 10 ltac:(lia)).
    assert (0 <= a * 10 ^ Z.of_nat (ndig f (n / 10))) by (apply Z.mul_nonneg_nonneg; lia).
    rewrite IH; [|done|apply Z.div_pos; lia| |].
    + simpl. rewrite digit_val_char by done. rewrite <- Hs.
      rewrite (proj2 (Z.leb_gt _ _) Hb). done.
    + apply Z.div_lt_upper_bound; [lia|].
      rewrite Nat2Z.inj_succ, Z.pow_succ_r in Hf; lia.
    + rewrite Hs in Hb. lia.
Qed.

(** Past [2^64], [ParseUint] stops at the first prefix that overflows and
    returns the range error with [2^64 - 1]. *)
Lemma digits_u64_utoa_over f n acc a :
  0 <= a < 2 ^ 64 -> 0 <= n -> n < 10 ^ Z.of_nat f ->
  2 ^ 64 <= a * 10 ^ Z.of_nat (ndig f n) + n ->
  digits_u64 (utoa_fuel f n acc) a = (2 ^ 64 - 1, true).
Proof.
  revert n acc a. induction f as [|f IH]; intros n acc a Ha Hn Hf Hb.
  { simpl in *. lia. }
  simpl in *. destruct (n <? 10) eqn:E.
  - apply Z.ltb_lt in E. simpl in *. rewrite digit_val_char by lia.
    rewrite (proj2 (Z.leb_le _ _)) by lia. done.
  - apply Z.ltb_ge in E. pose proof (digits_split n (ndig f (n / 10)) a) as Hs.
    pose proof (Z.mod_pos_bound n 10 ltac:(lia)).
    assert (Hf' : n / 10 < 10 ^ Z.of_nat f).
    { apply Z.div_lt_upper_bound; [lia|]. rewrite Nat2Z.inj_succ, Z.pow_succ_r in Hf; lia. }
    destruct (Z_lt_le_dec (a * 10 ^ Z.of_nat (ndig f (n / 10)) + n / 10) (2 ^ 64)) as [Hlt|Hge].
    + assert (0 <= a * 10 ^ Z.of_nat (ndig f (n / 10))) by (apply Z.mul_nonneg_nonneg; lia).
      rewrite digits_u64_utoa by (try apply Z.div_pos; lia). simpl.
      rewrite digit_val_char by done. rewrite <- Hs.
      rewrite (proj2 (Z.leb_le _ _)) by lia. done.
    + apply IH; [done|apply Z.div_pos; lia|done|done].
Qed.

(** [digits_fuel] is enough fuel: [n < 2^(log2 n + 1) <= 10^(log2 n + 2)]. *)
Lemma digits_fuel_enough n : 0 <= n -> n < 10 ^ Z.of_nat (digits_fuel n).
Proof.
  intros Hn. unfold digits_fuel. rewrite Z.abs_eq by done.
  rewrite Nat2Z.inj_succ, Z2Nat.id by (pose proof (Z.log2_nonneg n); lia).
  destruct (Z.eq_dec n 0) as [->|Hn0]; [simpl; lia|].
  pose proof (Z.log2_spec n ltac:(lia)) as [_ Hlt].
  pose proof (Z.log2_nonneg n).
  apply (Z.lt_le_trans _ (2 ^ Z.succ (Z.log2 n))); [done|].
  apply (Z.le_trans _ (10 ^ Z.succ (Z.log2 n))).
  - apply Z.pow_le_mono_l; lia.
  - apply Z.pow_le_mono_r; lia.
Qed.

Lemma Utoa_u64 n : 0 <= n < 2 ^ 64 -> digits_u64 (Utoa n) 0 = (n, false).
Proof.
  intros [Hn0 Hn1]. unfold Utoa.
  rewrite digits_u64_utoa by (auto using digits_fuel_enough; lia). done.
Qed.

Lemma Utoa_head n : 0 <= n -> exists d rest, Utoa n = String (digit_char d) rest /\ 0 <= d < 10.
Proof. intros Hn. apply utoa_head; [unfold digits_fuel; lia|done]. Qed.

Lemma split_sign_Utoa n :
  0 <= n -> split_sign (Utoa n) = (false, Utoa n) /\ Utoa n <> EmptyString.
Proof.
  intros Hn. destruct (Utoa_head n Hn) as (d & rest & -> & Hd).
  simpl. rewrite is_sign_digit by done. by split.
Qed.

Lemma split_sign_minus r : split_sign (String "-"%char r) = (true, r).
Proof. reflexivity. Qed.

Lemma split_sign_length s : (String.length (split_sign s).2 <= String.length s)%nat.
Proof. destruct s as [|a s]; simpl; [lia|]. destruct (is_sign a); simpl; lia. Qed.

(** [ParseInt] reads back what [Itoa] prints, for every 64-bit [int]. *)
Lemma ParseInt_Itoa z : in_signed 64 z = true -> ParseInt (Itoa z) = (z, false).
Proof.
  intros Hz. apply in_signed_iff in Hz. change (64 - 1) with 63 in Hz.
  unfold Itoa, ParseInt. destruct (z <? 0) eqn:Hneg.
  - apply Z.ltb_lt in Hneg. rewrite split_sign_minus.
    destruct (split_sign_Utoa (- z)) as [_ Hne]; [lia|].
    rewrite bool_decide_false by done. rewrite Utoa_u64 by lia. simpl.
    rewrite (proj2 (Z.ltb_ge _ _)) by lia. f_equal. lia.
  - apply Z.ltb_ge in Hneg. destruct (split_sign_Utoa z) as [-> Hne]; [lia|].
    rewrite bool_decide_false by done. rewrite Utoa_u64 by lia. simpl.
    by rewrite (proj2 (Z.leb_gt _ _)) by lia.
Qed.

Lemma Utoa_u64_over n : 2 ^ 64 <= n -> digits_u64 (Utoa n) 0 = (2 ^ 64 - 1, true).
Proof.
  intros Hn. unfold Utoa. apply digits_u64_utoa_over; auto using digits_fuel_enough with lia.
Qed.

(** [ParseUint] on a printed non-negative number: exact below [2^64], the
    range error above. *)
Lemma Utoa_u64_all n :
  0 <= n -> digits_u64 (Utoa n) 0 = if n <? 2 ^ 64 then (n, false) else (2 ^ 64 - 1, true).
Proof.
  intros Hn. destruct (n <? 2 ^ 64) eqn:E; [apply Utoa_u64; apply Z.ltb_lt in E; lia|].
  apply Utoa_u64_over. apply Z.ltb_ge in E. lia.
Qed.

Lemma in_signed_64_out z : in_signed 64 z = false -> z < - 2 ^ 63 \/ 2 ^ 63 <= z.
Proof.
  intros Hz. destruct (Z_lt_le_dec z (- 2 ^ 63)); [by left|right].
  destruct (Z_lt_le_dec z (2 ^ 63)); [|done].
  rewrite (proj2 (in_signed_iff 64 z)) in Hz; [discriminate|]. simpl. lia.
Qed.

(** [ParseInt] on the decimal text of any integer: the value clamped to
    the [int64] range, with a range error exactly when it was out of it. *)
Lemma ParseInt_Itoa_clamp z :
  ParseInt (Itoa z) = (Z.max (- 2 ^ 63) (Z.min z (2 ^ 63 - 1)), negb (in_signed 64 z)).
Proof.
  destruct (in_signed 64 z) eqn:Hz.
  { rewrite ParseInt_Itoa by done. apply in_signed_iff in Hz. change (64 - 1) with 63 in Hz.
    f_equal. lia. }
  pose proof (in_signed_64_out z Hz) as Hout.
  unfold Itoa, ParseInt. destruct (z <? 0) eqn:Hneg.
  - apply Z.ltb_lt in Hneg. rewrite split_sign_minus.
    destruct (split_sign_Utoa (- z)) as [_ Hne]; [lia|].
    rewrite bool_decide_false by done. rewrite Utoa_u64_all by lia.
    destruct (- z <? 2 ^ 64) eqn:E; simpl;
      try rewrite (proj2 (Z.ltb_lt _ _)) by lia; f_equal; lia.
  - apply Z.ltb_ge in Hneg. destruct (split_sign_Utoa z) as [-> Hne]; [lia|].
    rewrite bool_decide_false by done. rewrite Utoa_u64_all by lia.
    destruct (z <? 2 ^ 64) eqn:E; simpl;
      try rewrite (proj2 (Z.leb_le _ _)) by lia; f_equal; lia.
Qed.

(** ** The fast path of [Atoi] is [ParseInt] *)

Lemma digit_val_range a d : digit_val a = Some d -> 0 <= d < 10.
Proof.
  unfold digit_val. destruct (_ && _) eqn:E; [|discriminate]. intros [= <-].
  apply andb_true_iff in E as [E1 E2]. apply Nat.leb_le in E1, E2. lia.
Qed.

(** On at most 18 digits the unchecked loop and [ParseUint] agree: no
    prefix reaches [2^64], so a value is exact and a bad byte is the only
    error. *)
Lemma digits_fast_u64 s a :
  0 <= a -> (a + 1) * 10 ^ Z.of_nat (String.length s) <= 2 ^ 64 ->
  match digits_fast s a with
  | Some n => digits_u64 s a = (n, false) /\ n < (a + 1) * 10 ^ Z.of_nat (String.length s)
  | None => digits_u64 s a = (0, true)
  end.
Proof.
  revert a. induction s as [|c s IH]; intros a Ha Hb; simpl in *.
  - split; [done|lia].
  - destruct (digit_val c) as [d|] eqn:Ed; [|done].
    pose proof (digit_val_range c d Ed) as Hd.
    rewrite Nat2Z.inj_succ, Z.pow_succ_r in Hb |- * by lia.
    pose proof (Z.pow_pos_nonneg 10 (Z.of_nat (String.length s)) ltac:(lia) ltac:(lia)).
    rewrite (proj2 (Z.leb_gt _ _)) by nia.
    specialize (IH (a * 10 + d) ltac:(lia) ltac:(nia)).
    destruct (digits_fast s (a * 10 + d)); [|done].
    destruct IH as [-> Hn]. split; [done|nia].
Qed.

(** [strconv.Atoi]'s fast path is an optimisation of [ParseInt]: on every
    text, [Atoi] returns what [ParseInt(s, 10, 0)] returns. *)
Lemma Atoi_ParseInt s : Atoi s = ParseInt s.
Proof.
  unfold Atoi. destruct (_ && _) eqn:Hlen; [|done].
  apply andb_true_iff in Hlen as [_ Hlen]. apply Nat.ltb_lt in Hlen.
  pose proof (split_sign_length s) as Hl.
  unfold ParseInt. destruct (split_sign s) as [neg body]. simpl in Hl.
  case_bool_decide; [done|].
  assert (H18 : 10 ^ Z.of_nat (String.length body) <= 10 ^ 18)
    by (apply Z.pow_le_mono_r; lia).
  pose proof (digits_fast_u64 body 0 ltac:(lia) ltac:(lia)) as Hfs.
  destruct (digits_fast body 0) as [n|].
  - destruct Hfs as [-> Hn]. simpl.
    destruct neg; simpl; [rewrite (proj2 (Z.ltb_ge _ _)) by lia
                         |rewrite (proj2 (Z.leb_gt _ _)) by lia]; done.
  - by rewrite Hfs.
Qed.

(** [strconv.Atoi] reads back what [strconv.Itoa] prints: for every
    64-bit [int] [z] (so for every id the program can hold), parsing the
    decimal text of [z] gives [z] with no error. *)
Lemma Atoi_Itoa z : in_signed 64 z = true -> Atoi (Itoa z) = (z, false).
Proof. intros Hz. rewrite Atoi_ParseInt. by apply ParseInt_Itoa. Qed.

(** The most negative [int], -2^63, is printed with 20 bytes and read back
    on the [ParseInt] path. *)
Lemma Atoi_Itoa_witness :
  in_signed 64 (- 2 ^ 63) = true /\ Atoi (Itoa (- 2 ^ 63)) = (- 2 ^ 63, false).
Proof. split; [reflexivity|]. apply Atoi_Itoa. reflexivity. Defined.

Close Scope Z_scope.
