(* ===== verification/Note.v ===== *)
(** The [Note] record of [internal/model/note.go]. It is the only entity of
    the program. Its [CreatedAt] is a [time.Time], modelled as nanoseconds
    since the Unix epoch, and its [ID] is an [int32]. *)
From S2P Require Import Prelude.

Open Scope Z_scope.

(** [time.Time] as nanoseconds since 1970-01-01 UTC (location and monotonic
    reading are not modelled). *)
Definition Time := Z.

(** [time.Time{}]: January 1, year 1, 00:00:00 UTC, whose [Unix()] is
    -62135596800. *)
Definition zero_time : Time := -62135596800 * 10 ^ 9.

Record Note := mkNote {
  Name : string;
  Text : string;
  Tag : string;
  Author : string;
  CreatedAt : Time;
  ID : Z
}.

(** [notemodel.Note{}]: every field at its zero value. *)
Definition zero_note : Note := mkNote "" "" "" "" zero_time 0.

#[export] Instance Note_eq_dec : EqDecision Note.
Proof. solve_decision. Defined.

(** The field setters the decoder uses, one per struct field. *)
Definition set_Name (n : Note) (s : string) : Note :=
  mkNote s (Text n) (Tag n) (Author n) (CreatedAt n) (ID n).
Definition set_Text (n : Note) (s : string) : Note :=
  mkNote (Name n) s (Tag n) (Author n) (CreatedAt n) (ID n).
Definition set_Tag (n : Note) (s : string) : Note :=
  mkNote (Name n) (Text n) s (Author n) (CreatedAt n) (ID n).
Definition set_Author (n : Note) (s : string) : Note :=
  mkNote (Name n) (Text n) (Tag n) s (CreatedAt n) (ID n).
Definition set_CreatedAt (n : Note) (t : Time) : Note :=
  mkNote (Name n) (Text n) (Tag n) (Author n) t (ID n).
Definition set_ID (n : Note) (i : Z) : Note :=
  mkNote (Name n) (Text n) (Tag n) (Author n) (CreatedAt n) i.

Close Scope Z_scope.
