(* ===== verification/Bson.v ===== *)
(** BSON documents as the repository builds and reads them. A document is a
    [bson.D], an ordered list of key/value elements. The file holds the
    driver's encoding of the Go values that [Add] stores ([int] and
    [time.Time]), the document [Add] writes (notes.go, lines 29-36), and the
    default struct codec's decoding of a document into a [Note]. The codec
    matches a document key to the lowercased Go field name, first as written
    and then lowercased. The file ends with the round trip of [add_doc]
    through [decode_note]. *)
From S2P Require Import Prelude Note.
From Stdlib Require Import Ascii.

Open Scope Z_scope.

Inductive bval :=
| BString (s : string)
| BInt32 (z : Z)
| BInt64 (z : Z)
| BDateTime (ms : Z)
| BObjectID (oid : Z)
| BNull.

#[export] Instance bval_eq_dec : EqDecision bval.
Proof. solve_decision. Defined.

Definition elem : Type := string * bval.
Definition doc : Type := list elem.

(** ** Encoding of Go values (driver's default encoders) *)

(** A Go [int] is written as an int32 when it fits, and as an int64
    otherwise. *)
Definition encode_int (z : Z) : bval :=
  if in_signed 32 z then BInt32 z else BInt64 z.

(** A [time.Time] becomes a BSON datetime: milliseconds since the epoch,
    [t.Unix()*1e3 + t.Nanosecond()/1e6], which is the floor of [t / 1e6]. *)
Definition encode_time (t : Time) : bval := BDateTime (t / 10 ^ 6).

(** The document [Add] inserts (notes.go, lines 29-36). *)
Definition add_doc (note : Note) (author : string) (now : Time) (counter : Z) : doc :=
  [("name", BString (Name note));
   ("text", BString (Text note));
   ("tag", BString (Tag note));
   ("author", BString author);
   ("created_at", encode_time now);
   ("id", encode_int counter)].

(** ** Decoding into a [Note] (the default struct codec) *)

Definition lower_ascii (a : ascii) : ascii :=
  let n := nat_of_ascii a in
  if (65 <=? n)%nat && (n <=? 90)%nat then ascii_of_nat (n + 32) else a.

(** [strings.ToLower] on the ASCII letters. *)
Fixpoint to_lower (s : string) : string :=
  match s with
  | EmptyString => EmptyString
  | String a s' => String (lower_ascii a) (to_lower s')
  end.

(** The struct's fields. The key of each is its lowercased Go name, since
    the struct has no [bson] tags. *)
Inductive note_field := FName | FText | FTag | FAuthor | FCreatedAt | FID.

Definition field_key (f : note_field) : string :=
  match f with
  | FName => "name" | FText => "text" | FTag => "tag"
  | FAuthor => "author" | FCreatedAt => "createdat" | FID => "id"
  end.

Definition field_of_exact (k : string) : option note_field :=
  if decide (k = "name") then Some FName
  else if decide (k = "text") then Some FText
  else if decide (k = "tag") then Some FTag
  else if decide (k = "author") then Some FAuthor
  else if decide (k = "createdat") then Some FCreatedAt
  else if decide (k = "id") then Some FID
  else None.

(** The codec looks the key up as written, then lowercased. *)
Definition field_of_key (k : string) : option note_field :=
  match field_of_exact k with
  | Some f => Some f
  | None => field_of_exact (to_lower k)
  end.

Definition decode_string (v : bval) : outcome string :=
  match v with
  | BString s => Ret s
  | BNull => Ret ""
  | _ => Throw (ErrDecode "cannot decode into a string type")
  end.

(** An [int32] field accepts an int64 only when it fits. *)
Definition decode_int32 (v : bval) : outcome Z :=
  match v with
  | BInt32 z => Ret z
  | BInt64 z => if in_signed 32 z then Ret z else Throw (ErrDecode "overflows int32")
  | BNull => Ret 0
  | _ => Throw (ErrDecode "cannot decode into an integer type")
  end.

(** [time.Unix(dt/1000, dt%1000*1000000)], which is [dt * 1e6]
    nanoseconds. *)
Definition decode_time (v : bval) : outcome Time :=
  match v with
  | BDateTime ms => Ret (ms * 10 ^ 6)
  | BNull => Ret zero_time
  | _ => Throw (ErrDecode "cannot decode into a time.Time")
  end.

Definition omap {A B} (f : A -> B) (o : outcome A) : outcome B :=
  match o with
  | Ret a => Ret (f a)
  | Throw e => Throw e
  | Panic p => Panic p
  end.

Definition decode_field (n : Note) (f : note_field) (v : bval) : outcome Note :=
  match f with
  | FName => omap (set_Name n) (decode_string v)
  | FText => omap (set_Text n) (decode_string v)
  | FTag => omap (set_Tag n) (decode_string v)
  | FAuthor => omap (set_Author n) (decode_string v)
  | FCreatedAt => omap (set_CreatedAt n) (decode_time v)
  | FID => omap (set_ID n) (decode_int32 v)
  end.

(** Elements in document order. A key with no field ([_id], [created_at])
    is skipped, and a failing element stops the decoding. *)
Fixpoint decode_elems (n : Note) (d : doc) : outcome Note :=
  match d with
  | [] => Ret n
  | (k, v) :: d' =>
      match field_of_key k with
      | None => decode_elems n d'
      | Some f =>
          match decode_field n f v with
          | Ret n' => decode_elems n' d'
          | Throw e => Throw (Wrapf ("error decoding key " ++ k) e)
          | Panic p => Panic p
          end
      end
  end.

(** [Decode(&note)] with [note := notemodel.Note{}]. *)
Definition decode_note (d : doc) : outcome Note := decode_elems zero_note d.

(** [cursor.All(ctx, &notes)]: every document, in order. *)
Fixpoint decode_all (ds : list doc) : outcome (list Note) :=
  match ds with
  | [] => Ret []
  | d :: ds' =>
      match decode_note d with
      | Ret n =>
          match decode_all ds' with
          | Ret ns => Ret (n :: ns)
          | Throw e => Throw e
          | Panic p => Panic p
          end
      | Throw e => Throw e
      | Panic p => Panic p
      end
  end.

(** [InsertOne] prepends an [_id] when the document has none. *)
Definition has_key (k : string) (d : doc) : bool :=
  existsb (fun e => bool_decide (e.1 = k)) d.

Definition ensure_id (oid : Z) (d : doc) : doc :=
  if has_key "_id" d then d else ("_id", BObjectID oid) :: d.

(** ** Round trip *)

Lemma decode_int32_encode_int z :
  decode_int32 (encode_int z) =
  if in_signed 32 z then Ret z else Throw (ErrDecode "overflows int32").
Proof. unfold encode_int. destruct (in_signed 32 z) eqn:E; simpl; now rewrite ?E. Qed.

(** A datetime keeps the milliseconds: the time comes back truncated. *)
Lemma decode_time_encode_time t :
  decode_time (encode_time t) = Ret (t - t mod 10 ^ 6).
Proof.
  unfold decode_time, encode_time. f_equal.
  pose proof (Z.div_mod t (10 ^ 6)). lia.
Qed.

Lemma ensure_id_add_doc oid note author now counter :
  ensure_id oid (add_doc note author now counter) =
  ("_id", BObjectID oid) :: add_doc note author now counter.
Proof. reflexivity. Qed.

(** The keys [Add] writes, as the codec resolves them. *)
Lemma field_of_key_id_key : field_of_key "_id" = None.
Proof. reflexivity. Qed.
Lemma field_of_key_name : field_of_key "name" = Some FName.
Proof. reflexivity. Qed.
Lemma field_of_key_text : field_of_key "text" = Some FText.
Proof. reflexivity. Qed.
Lemma field_of_key_tag : field_of_key "tag" = Some FTag.
Proof. reflexivity. Qed.
Lemma field_of_key_author : field_of_key "author" = Some FAuthor.
Proof. reflexivity. Qed.
Lemma field_of_key_created_at : field_of_key "created_at" = None.
Proof. reflexivity. Qed.
Lemma field_of_key_idf : field_of_key "id" = Some FID.
Proof. reflexivity. Qed.

#[export] Hint Rewrite field_of_key_id_key field_of_key_name field_of_key_text
  field_of_key_tag field_of_key_author field_of_key_created_at field_of_key_idf
  : notes_rw.

(** Decoding the document [Add] writes. *)
Lemma decode_add_doc note author now counter oid :
  decode_note (ensure_id oid (add_doc note author now counter)) =
  if in_signed 32 counter
  then Ret (mkNote (Name note) (Text note) (Tag note) author zero_time counter)
  else Throw (Wrapf "error decoding key id" (ErrDecode "overflows int32")).
Proof.
  rewrite ensure_id_add_doc. unfold decode_note. simpl decode_elems.
  autorewrite with notes_rw. cbn -[encode_int decode_int32].
  rewrite decode_int32_encode_int. now destruct (in_signed 32 counter).
Qed.

(** (C12) The document [Add] writes, with the [_id] the driver adds, decodes
    to the note's name, text and tag, the OS user as author and the counter
    as id, provided the counter fits an [int32]; otherwise the decoding
    fails on the key [id]. The creation time is not read back: the stored
    key [created_at] is not the codec's key [createdat], so [CreatedAt]
    stays the zero time. *)
Theorem add_doc_roundtrip note author now counter oid :
  decode_note (ensure_id oid (add_doc note author now counter)) =
  if in_signed 32 counter
  then Ret (mkNote (Name note) (Text note) (Tag note) author zero_time counter)
  else Throw (Wrapf "error decoding key id" (ErrDecode "overflows int32")).
Proof. apply decode_add_doc. Qed.

Close Scope Z_scope.
