(* ===== verification/Collection.v ===== *)
(** The MongoDB collection seen from the repository. This is the interface
    between [internal/repository/notes.go] and the database. The type class
    [Collection] gives the four driver calls the repository makes
    ([InsertOne], [DeleteOne], [FindOne], [Find]) as state-passing
    operations. [CollectionLaws] states what they promise. While the server
    is available they act on the list of documents in natural order. While
    it is not, they fail with an error other than [ErrNoDocuments] and change
    nothing. [MemColl] is an executable instance that discharges the laws.
    The repository's theorems are proved against the laws alone. The driver
    and the server are not code of this repository: they are modelled from
    the spec's description of the store (its sections 4 and 6). *)
From S2P Require Import Prelude Note Bson.

Open Scope Z_scope.

(** ** Query semantics *)

(** Numbers compare by value across int32 and int64. Other values compare
    by equality. *)
Definition num_of (v : bval) : option Z :=
  match v with BInt32 z | BInt64 z => Some z | _ => None end.

Definition bval_eqv (a b : bval) : bool :=
  match num_of a, num_of b with
  | Some x, Some y => Z.eqb x y
  | _, _ => bool_decide (a = b)
  end.

Fixpoint doc_lookup (d : doc) (k : string) : option bval :=
  match d with
  | [] => None
  | (k', v) :: d' => if decide (k' = k) then Some v else doc_lookup d' k
  end.

(** A filter [{k1: v1, ...}] matches a document when every key holds an
    equal value. A missing key matches only [null]. *)
Definition matches (f : doc) (d : doc) : bool :=
  forallb (fun '(k, q) =>
             match doc_lookup d k with
             | Some v => bval_eqv v q
             | None => bool_decide (q = BNull)
             end) f.

Fixpoint find_first (f : doc) (ds : list doc) : option doc :=
  match ds with
  | [] => None
  | d :: ds' => if matches f d then Some d else find_first f ds'
  end.

(** [DeleteResult.DeletedCount] of a [DeleteOne]. *)
Definition deleted_count (f : doc) (ds : list doc) : nat :=
  match find_first f ds with Some _ => 1 | None => 0 end.

Fixpoint delete_first (f : doc) (ds : list doc) : list doc :=
  match ds with
  | [] => []
  | d :: ds' => if matches f d then ds' else d :: delete_first f ds'
  end.

(** ** The interface *)

(** The handle [InitMongoClient] returns: [client.Database(db).Collection(c)]. *)
Record Handle := mkHandle { h_uri : string; h_database : string; h_collection : string }.

Class Collection (C : Type) := {
  InsertOne : doc -> ST C unit;
  DeleteOne : doc -> ST C nat;
  FindOne : doc -> ST C doc;
  Find : doc -> ST C (list doc)
}.

Class CollectionLaws (C : Type) `{!Collection C} := {
  contents : C -> list doc;
  available : C -> bool;
  insert_one_up c d :
    available c = true ->
    exists c' oid, InsertOne d c = (c', Ret tt) /\ available c' = true /\
      contents c' = contents c ++ [ensure_id oid d];
  delete_one_up c f :
    available c = true ->
    exists c', DeleteOne f c = (c', Ret (deleted_count f (contents c))) /\
      available c' = true /\ contents c' = delete_first f (contents c);
  find_one_up c f :
    available c = true ->
    FindOne f c = (c, match find_first f (contents c) with
                      | Some d => Ret d
                      | None => Throw ErrNoDocuments
                      end);
  find_up c f :
    available c = true -> Find f c = (c, Ret (List.filter (matches f) (contents c)));
  insert_one_down c d :
    available c = false -> exists e, InsertOne d c = (c, Throw e) /\ e <> ErrNoDocuments;
  delete_one_down c f :
    available c = false -> exists e, DeleteOne f c = (c, Throw e) /\ e <> ErrNoDocuments;
  find_one_down c f :
    available c = false -> exists e, FindOne f c = (c, Throw e) /\ e <> ErrNoDocuments;
  find_down c f :
    available c = false -> exists e, Find f c = (c, Throw e) /\ e <> ErrNoDocuments
}.

(** ** Lemmas on the query semantics *)

Lemma find_first_app_single f ds d :
  find_first f (ds ++ [d]) =
  match find_first f ds with
  | Some x => Some x
  | None => if matches f d then Some d else None
  end.
Proof. induction ds as [|x ds IH]; simpl; [done|]. destruct (matches f x); auto. Qed.

Lemma delete_first_no_match f ds : find_first f ds = None -> delete_first f ds = ds.
Proof.
  induction ds as [|x ds IH]; simpl; [done|].
  destruct (matches f x); [discriminate|]. intros H. by rewrite IH.
Qed.

Lemma delete_first_app f ds l :
  find_first f ds = None -> delete_first f (ds ++ l) = ds ++ delete_first f l.
Proof.
  induction ds as [|x ds IH]; simpl; [done|].
  destruct (matches f x); [discriminate|]. intros H. by rewrite IH.
Qed.

Lemma delete_first_app_single f ds d :
  find_first f ds = None -> matches f d = true -> delete_first f (ds ++ [d]) = ds.
Proof.
  induction ds as [|x ds IH]; simpl; intros Hn Hm; [by rewrite Hm|].
  destruct (matches f x); [discriminate|]. by rewrite IH.
Qed.

Lemma deleted_count_no_match f ds : find_first f ds = None -> deleted_count f ds = 0%nat.
Proof. unfold deleted_count. by intros ->. Qed.

Lemma find_first_in f ds d : find_first f ds = Some d -> d ∈ ds /\ matches f d = true.
Proof.
  induction ds as [|x ds IH]; simpl; [discriminate|].
  destruct (matches f x) eqn:E; intros H.
  - injection H as <-. split; [left|]; done.
  - destruct (IH H). split; [right|]; done.
Qed.

Lemma delete_first_sublist f ds : forall d, d ∈ delete_first f ds -> d ∈ ds.
Proof.
  induction ds as [|x ds IH]; simpl; intros d; [done|].
  destruct (matches f x); intros Hd; [by right|].
  apply elem_of_cons in Hd as [->|Hd]; [by left|right; auto].
Qed.

Lemma Forall_delete_first (P : doc -> Prop) f ds : Forall P ds -> Forall P (delete_first f ds).
Proof.
  rewrite !Forall_forall. intros H d Hd.
  apply H, list_elem_of_In, (delete_first_sublist f), list_elem_of_In, Hd.
Qed.

(** Two removals commute when no document matches both filters. *)
Lemma delete_first_comm f g ds :
  (forall d, d ∈ ds -> matches f d = false \/ matches g d = false) ->
  delete_first f (delete_first g ds) = delete_first g (delete_first f ds).
Proof.
  induction ds as [|d ds IH]; intros Hx; simpl; [done|].
  assert (IH' : delete_first f (delete_first g ds) = delete_first g (delete_first f ds))
    by (apply IH; intros; apply Hx; by right).
  destruct (Hx d ltac:(by left)) as [Hf|Hg];
    destruct (matches g d) eqn:Eg, (matches f d) eqn:Ef; simpl; rewrite ?Ef, ?Eg;
    congruence.
Qed.

#[export] Hint Resolve delete_first_no_match deleted_count_no_match : notes.

(** ** An in-memory collection *)

Record MemColl := mkMemColl {
  mc_docs : list doc;
  mc_next_oid : Z;
  mc_up : bool
}.

Definition mc_down_err : goerr := ErrServer "server selection error: server is down".

Definition mc_insert_one (d : doc) : ST MemColl unit := fun c =>
  if mc_up c
  then (mkMemColl (mc_docs c ++ [ensure_id (mc_next_oid c) d]) (mc_next_oid c + 1) true,
        Ret tt)
  else (c, Throw mc_down_err).

Definition mc_delete_one (f : doc) : ST MemColl nat := fun c =>
  if mc_up c
  then (mkMemColl (delete_first f (mc_docs c)) (mc_next_oid c) true,
        Ret (deleted_count f (mc_docs c)))
  else (c, Throw mc_down_err).

Definition mc_find_one (f : doc) : ST MemColl doc := fun c =>
  if mc_up c
  then (c, match find_first f (mc_docs c) with
           | Some d => Ret d
           | None => Throw ErrNoDocuments
           end)
  else (c, Throw mc_down_err).

Definition mc_find (f : doc) : ST MemColl (list doc) := fun c =>
  if mc_up c then (c, Ret (List.filter (matches f) (mc_docs c))) else (c, Throw mc_down_err).

#[export] Instance MemColl_collection : Collection MemColl := {
  InsertOne := mc_insert_one;
  DeleteOne := mc_delete_one;
  FindOne := mc_find_one;
  Find := mc_find
}.

Lemma mc_down_err_ne : mc_down_err <> ErrNoDocuments.
Proof. discriminate. Qed.

#[export] Hint Resolve mc_down_err_ne : notes.

#[export] Program Instance MemColl_laws : CollectionLaws MemColl := {
  contents := mc_docs;
  available := mc_up
}.
Solve All Obligations with
  intros [ds n []]; simpl; intros; try discriminate;
  eauto 6 with notes.

(** An empty, available collection. *)
Definition mc_empty : MemColl := mkMemColl [] 0 true.

Close Scope Z_scope.
