(* ===== verification/Repository.v ===== *)
(** [internal/repository/notes.go]: the repository and its five methods.
    The Go receiver [r *NotesRepositoryImpl] and the database the handle
    points to form the state [RS], which is threaded through the [ST]
    monad. The OS user ([user.Current()]) and the clock ([time.Now()]) come
    from an [Env]. The definitions need only the operations of
    [Collection]. The theorems assume [CollectionLaws], so they hold for
    every collection that keeps the laws, and the witnesses run on
    [MemColl]. *)
From S2P Require Import Prelude Note Bson Collection.

(** What the process reads from its environment during a call:
    [user.Current()] (its error is ignored, so a failure leaves a nil
    [*user.User]) and [time.Now()]. *)
Record Env := mkEnv { env_user : option string; env_now : Time }.

(** [NotesRepositoryImpl]: the collection handle, nil when [InitMongoClient]
    failed, and the id counter, a Go [int] (64 bits). *)
Record NotesRepositoryImpl := mkRepo {
  collection : option Handle;
  counter : Z
}.

Definition NewNotesRepository (collection : option Handle) (counter : Z) : NotesRepositoryImpl :=
  mkRepo collection counter.

(** [r.counter++] on a 64-bit [int]. *)
Definition incr_counter (r : NotesRepositoryImpl) : NotesRepositoryImpl :=
  mkRepo (collection r) (wrap_signed 64 (counter r + 1)).

(** [bson.D{primitive.E{Key: "id", Value: id}}] with [id] an [int32]. *)
Definition id_filter (id : Z) : doc := [("id", BInt32 id)].

Section Repository.
Context {C : Type} `{!Collection C}.

Definition RS : Type := NotesRepositoryImpl * C.

(** A driver call on the database, the receiver left as it is. *)
Definition on_db {A} (m : ST C A) : ST RS A :=
  fun s => let (c', o) := m s.2 in ((s.1, c'), o).

Definition Add (env : Env) (note : Note) : ST RS unit :=
  author <- st_deref (env_user env) ;;
  s <- st_get ;;
  _ <- st_deref (collection s.1) ;;
  st_wrap "add note"
    (on_db (InsertOne (add_doc note author (env_now env) (counter s.1)))) ;;
  st_modify (fun s => (incr_counter s.1, s.2)).

Definition Delete (id : Z) : ST RS unit :=
  s <- st_get ;;
  _ <- st_deref (collection s.1) ;;
  _ <- st_wrap "delete note" (on_db (DeleteOne (id_filter id))) ;;
  st_ret tt.

Definition ByAuthor (author : string) : ST RS Note :=
  s <- st_get ;;
  _ <- st_deref (collection s.1) ;;
  st_catch
    (on_db (d <- FindOne [("author", BString author)] ;; st_lift (decode_note d)))
    (fun err =>
       if decide (err = ErrNoDocuments)
       then st_throw (Errorf "no documents by given filter")
       else st_throw (Wrapf "show note by author" err)).

Definition ByName (name : string) : ST RS Note :=
  s <- st_get ;;
  _ <- st_deref (collection s.1) ;;
  st_catch
    (on_db (d <- FindOne [("name", BString name)] ;; st_lift (decode_note d)))
    (fun err =>
       if decide (err = ErrNoDocuments)
       then st_throw (Errorf "no documents by given filter")
       else st_throw (Wrapf "show note by author" err)).

(** The error of [cursor.All] is passed to [fmt.Errorf] and dropped:
    [notes] is still nil and [All] returns it with a nil error. *)
Definition All : ST RS (list Note) :=
  s <- st_get ;;
  _ <- st_deref (collection s.1) ;;
  cursor <- st_wrap "get all notes" (on_db (Find [])) ;;
  match decode_all cursor with
  | Ret notes => st_ret notes
  | Throw _ => st_ret []
  | Panic p => st_panic p
  end.
End Repository.

(** The [NotesRepository] interface (notes.go, lines 106-112), which
    [NewNotesRepository] returns and main.go's [notesRepo] holds. The
    context argument is dropped: the model has no cancellation. *)
Class NotesRepository (R : Type) := {
  repo_Add : Env -> Note -> ST R unit;
  repo_Delete : Z -> ST R unit;
  repo_ByAuthor : string -> ST R Note;
  repo_ByName : string -> ST R Note;
  repo_All : ST R (list Note)
}.

(** [*NotesRepositoryImpl] implements it. *)
#[export] Instance NotesRepositoryImpl_NotesRepository {C} `{!Collection C} :
  NotesRepository (@RS C) := {|
  repo_Add := Add;
  repo_Delete := Delete;
  repo_ByAuthor := ByAuthor;
  repo_ByName := ByName;
  repo_All := All
|}.

(** A client's call through the interface is the implementation's method. *)
Ltac repo_iface :=
  cbn [repo_Add repo_Delete repo_ByAuthor repo_ByName repo_All
       NotesRepositoryImpl_NotesRepository] in *.

(** The message of the panic on a nil pointer. *)
Definition nil_deref : string :=
  "runtime error: invalid memory address or nil pointer dereference".

Definition name_filter (name : string) : doc := [("name", BString name)].
Definition author_filter (author : string) : doc := [("author", BString author)].

(** What [ByName] and [ByAuthor] return for the first match of their
    filter: the decoded note, a plain error when nothing matches, or the
    decode error wrapped with the message the code uses. *)
Definition lookup_result (o : option doc) : outcome Note :=
  match o with
  | None => Throw (Errorf "no documents by given filter")
  | Some d =>
      match decode_note d with
      | Throw e => Throw (Wrapf "show note by author" e)
      | r => r
      end
  end.

Ltac run_repo :=
  unfold Add, Delete, ByAuthor, ByName, All, on_db in *; st_unfold; simpl.

(** ** The document [Add] writes, as the query engine sees it *)

Lemma lookup_add_doc_name oid note a t k :
  doc_lookup (ensure_id oid (add_doc note a t k)) "name" = Some (BString (Name note)).
Proof. reflexivity. Qed.

Lemma lookup_add_doc_author oid note a t k :
  doc_lookup (ensure_id oid (add_doc note a t k)) "author" = Some (BString a).
Proof. reflexivity. Qed.

Lemma lookup_add_doc_id oid note a t k :
  doc_lookup (ensure_id oid (add_doc note a t k)) "id" = Some (encode_int k).
Proof. reflexivity. Qed.

Lemma bval_eqv_string s : bval_eqv (BString s) (BString s) = true.
Proof. unfold bval_eqv. simpl. by apply bool_decide_eq_true_2. Qed.

Lemma matches_name_add_doc oid note a t k :
  matches (name_filter (Name note)) (ensure_id oid (add_doc note a t k)) = true.
Proof.
  unfold matches, name_filter. cbn [forallb].
  rewrite lookup_add_doc_name, bval_eqv_string. reflexivity.
Qed.

Lemma matches_author_add_doc oid note a t k :
  matches (author_filter a) (ensure_id oid (add_doc note a t k)) = true.
Proof.
  unfold matches, author_filter. cbn [forallb].
  rewrite lookup_add_doc_author, bval_eqv_string. reflexivity.
Qed.


Lemma matches_id_add_doc oid note a t k i :
  matches (id_filter i) (ensure_id oid (add_doc note a t k)) = Z.eqb k i.
Proof.
  unfold matches, id_filter. cbn [forallb]. rewrite lookup_add_doc_id.
  unfold encode_int. destruct (in_signed 32 k); simpl; apply andb_true_r.
Qed.

#[export] Hint Rewrite lookup_add_doc_name lookup_add_doc_author lookup_add_doc_id
  bval_eqv_string matches_name_add_doc matches_id_add_doc : notes_rw.

Lemma matches_nil d : matches [] d = true.
Proof. reflexivity. Qed.

Lemma filter_matches_nil ds : List.filter (matches []) ds = ds.
Proof. induction ds as [|d ds IH]; simpl; [done|]. by rewrite IH. Qed.

Lemma decode_elems_not_nodocs n d : decode_elems n d <> Throw ErrNoDocuments.
Proof.
  revert n. induction d as [|[k v] d IH]; intros n; simpl; [discriminate|].
  destruct (field_of_key k); [|apply IH].
  destruct (decode_field n n0 v); [apply IH|discriminate|discriminate].
Qed.

Lemma decode_field_not_panic n f v msg : decode_field n f v <> Panic msg.
Proof. destruct f, v; simpl; repeat case_match; discriminate. Qed.

Lemma decode_note_not_panic d msg : decode_note d <> Panic msg.
Proof.
  unfold decode_note. generalize zero_note.
  induction d as [|[k v] d IH]; intros n; simpl; [discriminate|].
  destruct (field_of_key k) as [f|]; [|apply IH].
  destruct (decode_field n f v) eqn:E; [apply IH|discriminate|].
  by apply decode_field_not_panic in E.
Qed.

Section RepositoryProofs.
Context {C : Type} `{!Collection C} `{!CollectionLaws C}.
Context (r : NotesRepositoryImpl) (h : Handle) (Hcoll : collection r = Some h).

(** *** Add *)

(** [Add] with the server up: the document is appended and the counter advances. *)
Lemma Add_up env note c u :
  env_user env = Some u -> available c = true ->
  exists c' oid, Add env note (r, c) = ((incr_counter r, c'), Ret tt) /\
    available c' = true /\
    contents c' = contents c ++ [ensure_id oid (add_doc note u (env_now env) (counter r))].
Proof.
  intros Hu Hup.
  destruct (insert_one_up c (add_doc note u (env_now env) (counter r)) Hup)
    as (c' & oid & Heq & Hav & Hc).
  exists c', oid. run_repo. rewrite Hu. simpl. rewrite Hcoll. simpl. by rewrite Heq.
Qed.

(** (C3) With a collection handle, an OS user and an available server,
    [Add] appends the document [add_doc] (with the [_id] the driver adds)
    to the collection and advances the counter by one, wrapping as a
    64-bit [int]. *)
Theorem Add_ok env note c u :
  env_user env = Some u -> available c = true ->
  exists c' oid, Add env note (r, c) = ((incr_counter r, c'), Ret tt) /\
    available c' = true /\
    contents c' = contents c ++ [ensure_id oid (add_doc note u (env_now env) (counter r))].
Proof. apply Add_up. Qed.

(** [Add] with the server down: the error is wrapped and the counter stays. *)
Lemma Add_down env note c u :
  env_user env = Some u -> available c = false ->
  exists e, Add env note (r, c) = ((r, c), Throw (Wrapf "add note" e)) /\
    e <> ErrNoDocuments.
Proof.
  intros Hu Hdown.
  destruct (insert_one_down c (add_doc note u (env_now env) (counter r)) Hdown)
    as (e & Heq & Hne).
  exists e. run_repo. rewrite Hu. simpl. rewrite Hcoll. simpl. by rewrite Heq.
Qed.

(** (C2) When the insert fails, [Add] returns the driver's error wrapped
    as ["add note: %w"], and neither the counter nor the collection
    changes. The spec says the counter advances even on failure; the code
    increments it only after a successful insert. *)
Theorem Add_fail_keeps_counter env note c u :
  env_user env = Some u -> available c = false ->
  exists e, Add env note (r, c) = ((r, c), Throw (Wrapf "add note" e)) /\
    e <> ErrNoDocuments.
Proof. apply Add_down. Qed.

(** *** Delete *)

Lemma Delete_ok id c :
  available c = true ->
  exists c', Delete id (r, c) = ((r, c'), Ret tt) /\ available c' = true /\
    contents c' = delete_first (id_filter id) (contents c).
Proof.
  intros Hup. destruct (delete_one_up c (id_filter id) Hup) as (c' & Heq & Hav & Hc).
  exists c'. run_repo. rewrite Hcoll. simpl. by rewrite Heq.
Qed.

(** (C4) Deleting an id that no document holds succeeds with no error and
    leaves the documents as they were. *)
Theorem Delete_absent_ok id c :
  available c = true -> find_first (id_filter id) (contents c) = None ->
  exists c', Delete id (r, c) = ((r, c'), Ret tt) /\ contents c' = contents c.
Proof.
  intros Hup Hnone. destruct (Delete_ok id c Hup) as (c' & Heq & _ & Hc).
  exists c'. split; [done|]. rewrite Hc. auto with notes.
Qed.


Lemma Delete_fail id c :
  available c = false ->
  exists e, Delete id (r, c) = ((r, c), Throw (Wrapf "delete note" e)) /\ e <> ErrNoDocuments.
Proof.
  intros Hdown. destruct (delete_one_down c (id_filter id) Hdown) as (e & Heq & Hne).
  exists e. split; [|done]. run_repo. rewrite Hcoll. simpl. by rewrite Heq.
Qed.

(** *** ByName and ByAuthor *)

Lemma catch_lookup (o : option doc) :
  match match o with
        | Some d => decode_note d
        | None => Throw ErrNoDocuments
        end with
  | Throw e =>
      if decide (e = ErrNoDocuments) then Throw (Errorf "no documents by given filter")
      else Throw (Wrapf "show note by author" e)
  | res => res
  end = lookup_result o.
Proof.
  destruct o as [d|]; simpl; [|done].
  destruct (decode_note d) eqn:E; try done.
  rewrite decide_False; [done|]. intros ->. by apply (decode_elems_not_nodocs zero_note d).
Qed.

Lemma ByName_spec name c :
  available c = true ->
  ByName name (r, c) = ((r, c), lookup_result (find_first (name_filter name) (contents c))).
Proof.
  intros Hup. run_repo. rewrite Hcoll. simpl.
  rewrite (find_one_up c _ Hup). rewrite <- catch_lookup. unfold name_filter.
  destruct (find_first _ _) as [d|]; simpl; [|done].
  destruct (decode_note d); simpl; try done. by destruct (decide _).
Qed.

Lemma ByAuthor_spec author c :
  available c = true ->
  ByAuthor author (r, c) = ((r, c), lookup_result (find_first (author_filter author) (contents c))).
Proof.
  intros Hup. run_repo. rewrite Hcoll. simpl.
  rewrite (find_one_up c _ Hup). rewrite <- catch_lookup. unfold author_filter.
  destruct (find_first _ _) as [d|]; simpl; [|done].
  destruct (decode_note d); simpl; try done. by destruct (decide _).
Qed.

(** [ByName] on a store with no note of that name. *)
Lemma ByName_missing name c :
  available c = true -> find_first (name_filter name) (contents c) = None ->
  ByName name (r, c) = ((r, c), Throw (Errorf "no documents by given filter")).
Proof. intros Hup Hn. by rewrite (ByName_spec name c Hup), Hn. Qed.

(** (C6) On a store with no note of that name, [ByName] fails with the
    plain error "no documents by given filter", which the spec calls
    NotFoundError. *)
Theorem ByName_not_found name c :
  available c = true -> find_first (name_filter name) (contents c) = None ->
  ByName name (r, c) = ((r, c), Throw (Errorf "no documents by given filter")).
Proof. apply ByName_missing. Qed.

(** [ByName] with the server down. *)
Lemma ByName_down name c :
  available c = false ->
  exists e, ByName name (r, c) = ((r, c), Throw (Wrapf "show note by author" e)) /\
    e <> ErrNoDocuments.
Proof.
  intros Hdown. destruct (find_one_down c (name_filter name) Hdown) as (e & Heq & Hne).
  exists e. split; [|done]. run_repo. rewrite Hcoll. simpl.
  unfold name_filter in Heq. rewrite Heq. simpl. by rewrite decide_False.
Qed.

(** [ByAuthor] with the server down. *)
Lemma ByAuthor_down a c :
  available c = false ->
  exists e, ByAuthor a (r, c) = ((r, c), Throw (Wrapf "show note by author" e)) /\
    e <> ErrNoDocuments.
Proof.
  intros Hdown. destruct (find_one_down c (author_filter a) Hdown) as (e & Heq & Hne).
  exists e. split; [|done]. run_repo. rewrite Hcoll. simpl. unfold author_filter in Heq. rewrite Heq. simpl.
  by rewrite decide_False.
Qed.

(** *** All *)

Lemma All_spec c :
  available c = true ->
  All (r, c) = ((r, c), match decode_all (contents c) with
                        | Ret ns => Ret ns
                        | Throw _ => Ret []
                        | Panic p => Panic p
                        end).
Proof.
  intros Hup. run_repo. rewrite Hcoll. simpl.
  rewrite (find_up c [] Hup), filter_matches_nil. simpl.
  by destruct (decode_all (contents c)).
Qed.

(** [All] with the server up on decodable documents. *)
Lemma All_up c ns :
  available c = true -> decode_all (contents c) = Ret ns ->
  All (r, c) = ((r, c), Ret ns).
Proof. intros Hup Hd. by rewrite (All_spec c Hup), Hd. Qed.

(** (C7) [All] returns every stored note in the collection's order when
    every document decodes. On an empty store it returns the empty list,
    not an error. *)
Theorem All_ok c ns :
  available c = true -> decode_all (contents c) = Ret ns ->
  All (r, c) = ((r, c), Ret ns).
Proof. apply All_up. Qed.

(** (C8) When a document fails to decode, [All] drops the error: it
    returns an empty list and no error. *)
Theorem All_swallows_decode_error c e :
  available c = true -> decode_all (contents c) = Throw e ->
  All (r, c) = ((r, c), Ret []).
Proof. intros Hup Hd. by rewrite (All_spec c Hup), Hd. Qed.

(** [All] with the server down: the error of [Find] is wrapped. *)
Lemma All_down c :
  available c = false -> exists e, All (r, c) = ((r, c), Throw (Wrapf "get all notes" e)).
Proof.
  intros Hdown. destruct (find_down c [] Hdown) as (e & Heq & _).
  exists e. run_repo. rewrite Hcoll. simpl. by rewrite Heq.
Qed.
End RepositoryProofs.

Section Scenarios.
Context {C : Type} `{!Collection C} `{!CollectionLaws C}.

(** A lookup whose filter matches the document [Add] appended, and no
    earlier one, returns the added note. *)
Lemma lookup_after_add f r note u t c oid :
  find_first f (contents c) = None ->
  matches f (ensure_id oid (add_doc note u t (counter r))) = true ->
  in_signed 32 (counter r) = true ->
  lookup_result (find_first f (contents c ++ [ensure_id oid (add_doc note u t (counter r))])) =
  Ret (mkNote (Name note) (Text note) (Tag note) u zero_time (counter r)).
Proof.
  intros Hn Hm Hk. rewrite find_first_app_single, Hn, Hm. simpl.
  by rewrite decode_add_doc, Hk.
Qed.

Lemma ByName_after_add r note u t c oid :
  available c = true -> find_first (name_filter (Name note)) (contents c) = None ->
  in_signed 32 (counter r) = true ->
  lookup_result (find_first (name_filter (Name note))
                   (contents c ++ [ensure_id oid (add_doc note u t (counter r))])) =
  Ret (mkNote (Name note) (Text note) (Tag note) u zero_time (counter r)).
Proof.
  intros Hup Hn Hk. apply lookup_after_add; [done|apply matches_name_add_doc|done].
Qed.

(** (C1) Create then find: after a successful [Add] of a note whose name
    no stored note has, [ByName] on that name returns the note's name,
    text and tag, the OS user as author and the counter as id, as long as
    the counter fits an [int32]. [CreatedAt] comes back as the zero time,
    because the stored key [created_at] is not the codec's [createdat]. *)
Theorem Add_then_ByName r h env note c u :
  collection r = Some h ->
  env_user env = Some u -> available c = true -> in_signed 32 (counter r) = true ->
  find_first (name_filter (Name note)) (contents c) = None ->
  exists c', Add env note (r, c) = ((incr_counter r, c'), Ret tt) /\
    ByName (Name note) (incr_counter r, c') =
      ((incr_counter r, c'),
       Ret (mkNote (Name note) (Text note) (Tag note) u zero_time (counter r))).
Proof.
  intros Hcoll Hu Hup Hk Hn. destruct (Add_up r h Hcoll env note c u Hu Hup) as (c' & oid & Hadd & Hav & Hc).
  exists c'. split; [done|].
  rewrite (ByName_spec (incr_counter r) h Hcoll (Name note) c' Hav), Hc.
  by rewrite (ByName_after_add r note u (env_now env) c oid Hup Hn Hk).
Qed.

(** (C34) Create then find by author, the lookup of [notes mine]: after
    a successful [Add] by an OS user who has no stored note yet, [ByAuthor]
    on that user's name returns the note, with the OS user as author (not
    the note's own [Author] field) and the counter as id, as long as the
    counter fits an [int32]. *)
Theorem Add_then_ByAuthor r h env note c u :
  collection r = Some h ->
  env_user env = Some u -> available c = true -> in_signed 32 (counter r) = true ->
  find_first (author_filter u) (contents c) = None ->
  exists c', Add env note (r, c) = ((incr_counter r, c'), Ret tt) /\
    ByAuthor u (incr_counter r, c') =
      ((incr_counter r, c'),
       Ret (mkNote (Name note) (Text note) (Tag note) u zero_time (counter r))).
Proof.
  intros Hcoll Hu Hup Hk Hn.
  destruct (Add_up r h Hcoll env note c u Hu Hup) as (c' & oid & Hadd & Hav & Hc).
  exists c'. split; [done|].
  rewrite (ByAuthor_spec (incr_counter r) h Hcoll u c' Hav), Hc.
  by rewrite (lookup_after_add _ r note u (env_now env) c oid Hn (matches_author_add_doc _ _ _ _ _) Hk).
Qed.

(** (C5) Create then delete by the new note's id: when no stored note
    holds that id, [Delete] removes exactly the document [Add] wrote, and
    the collection holds what it held before. *)
Theorem Add_then_Delete r h env note c u :
  collection r = Some h ->
  env_user env = Some u -> available c = true ->
  find_first (id_filter (counter r)) (contents c) = None ->
  exists c' c'', Add env note (r, c) = ((incr_counter r, c'), Ret tt) /\
    Delete (counter r) (incr_counter r, c') = ((incr_counter r, c''), Ret tt) /\
    contents c'' = contents c.
Proof.
  intros Hcoll Hu Hup Hn. destruct (Add_up r h Hcoll env note c u Hu Hup) as (c' & oid & Hadd & Hav & Hc).
  destruct (Delete_ok (incr_counter r) h Hcoll (counter r) c' Hav) as (c'' & Hdel & _ & Hc'').
  exists c', c''. split; [done|]. split; [done|].
  rewrite Hc'', Hc. apply delete_first_app_single; [done|].
  rewrite matches_id_add_doc. apply Z.eqb_refl.
Qed.

(** (C17) Bounds: once the counter no longer fits an [int32], the note
    [Add] writes is stored with an int64 id, and [ByName] cannot decode it.
    It fails with the decode error of the key [id]. *)
Theorem Add_overflow_undecodable r h env note c u :
  collection r = Some h ->
  env_user env = Some u -> available c = true -> in_signed 32 (counter r) = false ->
  find_first (name_filter (Name note)) (contents c) = None ->
  exists c', Add env note (r, c) = ((incr_counter r, c'), Ret tt) /\
    ByName (Name note) (incr_counter r, c') =
      ((incr_counter r, c'),
       Throw (Wrapf "show note by author"
                (Wrapf "error decoding key id" (ErrDecode "overflows int32")))).
Proof.
  intros Hcoll Hu Hup Hk Hn. destruct (Add_up r h Hcoll env note c u Hu Hup) as (c' & oid & Hadd & Hav & Hc).
  exists c'. split; [done|].
  rewrite (ByName_spec (incr_counter r) h Hcoll (Name note) c' Hav), Hc.
  rewrite find_first_app_single, Hn, matches_name_add_doc. simpl.
  by rewrite decode_add_doc, Hk.
Qed.
End Scenarios.

(** ** Panics *)

(** Every method panics on a nil collection. *)
Lemma nil_handle_panics {C} `{!Collection C} r (c : C) env note id nm au :
  collection r = None ->
  Add env note (r, c) = ((r, c), Panic nil_deref) /\
  Delete id (r, c) = ((r, c), Panic nil_deref) /\
  ByName nm (r, c) = ((r, c), Panic nil_deref) /\
  ByAuthor au (r, c) = ((r, c), Panic nil_deref) /\
  All (r, c) = ((r, c), Panic nil_deref).
Proof.
  intros Hn. run_repo. rewrite Hn. simpl.
  repeat split; try done. destruct (env_user env); simpl; by rewrite ?Hn.
Qed.

(** (C13) When [InitMongoClient] failed, main.go keeps the nil collection it
    returned. Every repository method then panics on the nil pointer, and
    nothing changes. The spec says a connection failure is reported at
    startup. *)
Theorem nil_collection_panics {C} `{!Collection C} r (c : C) env note id nm au :
  collection r = None ->
  Add env note (r, c) = ((r, c), Panic nil_deref) /\
  Delete id (r, c) = ((r, c), Panic nil_deref) /\
  ByName nm (r, c) = ((r, c), Panic nil_deref) /\
  ByAuthor au (r, c) = ((r, c), Panic nil_deref) /\
  All (r, c) = ((r, c), Panic nil_deref).
Proof. apply nil_handle_panics. Qed.

(** ** Ids within one process *)

Lemma encode_int_inj a b : encode_int a = encode_int b -> a = b.
Proof. unfold encode_int. intros E. repeat case_match; by inversion E. Qed.

Lemma incr_counter_neq r :
  in_signed 64 (counter r) = true -> counter (incr_counter r) <> counter r.
Proof.
  intros Hr. simpl. apply wrap_signed_succ_neq; [lia|]. by apply in_signed_iff.
Qed.

Lemma incr_counter_wf r : in_signed 64 (counter (incr_counter r)) = true.
Proof. apply wrap_signed_in. lia. Qed.

#[export] Hint Resolve incr_counter_wf : notes.

Section Distinct.
Context {C : Type} `{!Collection C} `{!CollectionLaws C}.

(** (C9) Two successful [Add] calls in one process store two different
    ids: the second note gets the counter after the increment, and a
    64-bit increment never gives back the same value. *)
Theorem Add_Add_distinct_ids r h env1 env2 n1 n2 c u1 u2 :
  collection r = Some h -> env_user env1 = Some u1 -> env_user env2 = Some u2 ->
  available c = true -> in_signed 64 (counter r) = true ->
  exists c2 d1 d2,
    (Add env1 n1 ;; Add env2 n2) (r, c) = ((incr_counter (incr_counter r), c2), Ret tt) /\
    contents c2 = contents c ++ [d1; d2] /\
    doc_lookup d1 "id" <> doc_lookup d2 "id".
Proof.
  intros Hcoll Hu1 Hu2 Hup Hwf.
  destruct (Add_up r h Hcoll env1 n1 c u1 Hu1 Hup) as (c1 & oid1 & Ha1 & Hav1 & Hc1).
  destruct (Add_up (incr_counter r) h Hcoll env2 n2 c1 u2 Hu2 Hav1)
    as (c2 & oid2 & Ha2 & _ & Hc2).
  eexists c2, _, _. split; [|split].
  - unfold st_bind at 1. rewrite Ha1. exact Ha2.
  - rewrite Hc2, Hc1, <- app_assoc. reflexivity.
  - rewrite !lookup_add_doc_id. intros [= Heq%encode_int_inj].
    by apply (incr_counter_neq r Hwf).
Qed.
End Distinct.

(** ** Sequences of calls in one process *)

(** One call of a repository method, with its arguments. *)
Inductive call :=
| CAdd (env : Env) (note : Note)
| CDelete (id : Z)
| CByAuthor (author : string)
| CByName (name : string)
| CAll.

Definition forget {A} (o : outcome A) : outcome unit :=
  match o with Ret _ => Ret tt | Throw e => Throw e | Panic p => Panic p end.

Fixpoint adds (ks : list call) : nat :=
  match ks with
  | [] => 0
  | CAdd _ _ :: ks' => S (adds ks')
  | _ :: ks' => adds ks'
  end.

Section Calls.
Context {C : Type} `{!Collection C}.

Definition run_call (k : call) (s : RS) : RS * outcome unit :=
  match k with
  | CAdd env n => Add env n s
  | CDelete id => Delete id s
  | CByAuthor a => let (s', o) := ByAuthor a s in (s', forget o)
  | CByName n => let (s', o) := ByName n s in (s', forget o)
  | CAll => let (s', o) := All s in (s', forget o)
  end.

(** Calls run one after another. A panic ends the process, so the calls
    after it do not run. An error is returned to the caller, and the
    process goes on. *)
Fixpoint run_calls (ks : list call) (s : RS) : RS :=
  match ks with
  | [] => s
  | k :: ks' =>
      match run_call k s with
      | (s', Panic _) => s'
      | (s', _) => run_calls ks' s'
      end
  end.
End Calls.

Section CallEffects.
Context {C : Type} `{!Collection C} `{!CollectionLaws C}.

Lemma FindOne_state f c : (FindOne f c).1 = c.
Proof.
  destruct (available c) eqn:Ha.
  - by rewrite (find_one_up c f Ha).
  - destruct (find_one_down c f Ha) as (e & -> & _). done.
Qed.

Lemma Find_state f c : (Find f c).1 = c.
Proof.
  destruct (available c) eqn:Ha.
  - by rewrite (find_up c f Ha).
  - destruct (find_down c f Ha) as (e & -> & _). done.
Qed.

Lemma find_note_state f (s : RS) :
  (on_db (d <- FindOne f ;; st_lift (decode_note d)) s).1 = s.
Proof.
  destruct s as [r c]. unfold on_db. st_unfold. simpl.
  pose proof (FindOne_state f c) as Hc.
  destruct (FindOne f c) as [c' o]. simpl in Hc. subst c'. by destruct o.
Qed.

Lemma ByName_state nm s : (ByName nm s).1 = s.
Proof.
  destruct s as [r c]. unfold ByName. st_unfold. simpl.
  destruct (collection r); [|done]. simpl.
  pose proof (find_note_state (name_filter nm) (r, c)) as Hs. unfold name_filter in Hs.
  destruct (on_db _ _) as [s' o]. simpl in Hs. subst s'.
  destruct o; simpl; try done. by destruct (decide _).
Qed.

Lemma ByAuthor_state au s : (ByAuthor au s).1 = s.
Proof.
  destruct s as [r c]. unfold ByAuthor. st_unfold. simpl.
  destruct (collection r); [|done]. simpl.
  pose proof (find_note_state (author_filter au) (r, c)) as Hs. unfold author_filter in Hs.
  destruct (on_db _ _) as [s' o]. simpl in Hs. subst s'.
  destruct o; simpl; try done. by destruct (decide _).
Qed.

Lemma All_state s : (All s).1 = s.
Proof.
  destruct s as [r c]. unfold All, on_db. st_unfold. simpl.
  destruct (collection r); [|done]. simpl.
  pose proof (Find_state [] c) as Hc.
  destruct (Find [] c) as [c' o]. simpl in Hc. subst c'.
  destruct o as [ds| |]; simpl; try done. by destruct (decode_all ds).
Qed.

Lemma Add_state env n s :
  (Add env n s).1 = s \/
  exists u oid, (Add env n s).1 =
    (incr_counter s.1, (Add env n s).1.2) /\
    contents (Add env n s).1.2 =
      contents s.2 ++ [ensure_id oid (add_doc n u (env_now env) (counter s.1))].
Proof.
  destruct s as [r c]. simpl.
  destruct (collection r) as [h|] eqn:Hc;
    [|left; by destruct (nil_handle_panics r c env n 0 "" "" Hc) as [-> _]].
  destruct (env_user env) as [u|] eqn:Hu; [|left; run_repo; by rewrite Hu].
  destruct (available c) eqn:Ha.
  - right. destruct (Add_up r h Hc env n c u Hu Ha) as (c' & oid & -> & _ & Hcs).
    exists u, oid. by split.
  - left. by destruct (Add_down r h Hc env n c u Hu Ha) as (e & -> & _).
Qed.

Lemma Delete_state id s :
  (Delete id s).1.1 = s.1 /\
  (contents (Delete id s).1.2 = contents s.2 \/
   contents (Delete id s).1.2 = delete_first (id_filter id) (contents s.2)).
Proof.
  destruct s as [r c]. cbn [fst snd].
  destruct (collection r) as [h|] eqn:Hc;
    [|destruct (nil_handle_panics r c (mkEnv None 0%Z) zero_note id "" "" Hc)
         as (_ & -> & _); simpl; auto].
  destruct (available c) eqn:Ha.
  - destruct (Delete_ok r h Hc id c Ha) as (c' & -> & _ & Hcs). simpl. by split; [|right].
  - destruct (Delete_fail r h Hc id c Ha) as (e & -> & _). simpl. by split; [|left].
Qed.
End CallEffects.

(** ** Invariants over a process's calls *)

(** Every stored document decodes into a [Note]. *)
Definition decodable (ds : list doc) : Prop :=
  Forall (fun d => is_ret (decode_note d) = true) ds.

Lemma decodable_app ds d :
  decodable ds -> is_ret (decode_note d) = true -> decodable (ds ++ [d]).
Proof. intros Hds Hd. apply Forall_app. by split; [|constructor]. Qed.

Lemma decodable_delete_first f ds : decodable ds -> decodable (delete_first f ds).
Proof. apply Forall_delete_first. Qed.

Lemma decodable_decode_all ds :
  decodable ds -> exists ns, decode_all ds = Ret ns /\ length ns = length ds.
Proof.
  unfold decodable. induction 1 as [|d ds Hd _ (ns & Hns & Hlen)]; [by exists []|].
  simpl. destruct (decode_note d) as [n| |]; try discriminate.
  rewrite Hns. exists (n :: ns). simpl. by rewrite Hlen.
Qed.

#[export] Hint Resolve decodable_app decodable_delete_first : notes.

Lemma add_doc_decodes note u t k oid :
  (0 <= k < 2 ^ 31)%Z -> is_ret (decode_note (ensure_id oid (add_doc note u t k))) = true.
Proof.
  intros Hk. rewrite decode_add_doc.
  rewrite (proj2 (in_signed_iff 32 k)); [done|]. simpl. lia.
Qed.

(** The invariant with a budget [b] of further [Add] calls. *)
Definition call_inv {C} `{!Collection C} `{!CollectionLaws C} (s : RS) (b : nat) : Prop :=
  decodable (contents s.2) /\ (0 <= counter s.1)%Z /\ (counter s.1 + Z.of_nat b <= 2 ^ 31)%Z.

Section Invariants.
Context {C : Type} `{!Collection C} `{!CollectionLaws C}.

Lemma run_call_repo k (s : RS) :
  (run_call k s).1.1 = s.1 \/ (run_call k s).1.1 = incr_counter s.1.
Proof.
  destruct k; simpl.
  - destruct (Add_state env note s) as [-> | (u & oid & -> & _)]; auto.
  - left. apply Delete_state.
  - pose proof (ByAuthor_state author s). destruct (ByAuthor _ _). simpl in *. subst. auto.
  - pose proof (ByName_state name s). destruct (ByName _ _). simpl in *. subst. auto.
  - pose proof (All_state s). destruct (All _). simpl in *. subst. auto.
Qed.

Lemma run_call_inv k s b : call_inv s (adds [k] + b) -> call_inv (run_call k s).1 b.
Proof.
  unfold call_inv. intros (Hd & Hpos & Hb). destruct k; simpl in *.
  - destruct (Add_state env note s) as [-> | (u & oid & Hs & Hc)].
    { repeat split; auto; lia. }
    destruct (Add env note s) as [[r' c'] o]. simpl in *. injection Hs as ->.
    unfold call_inv. simpl. rewrite Hc.
    assert (Hsmall : wrap_signed 64 (counter s.1 + 1) = (counter s.1 + 1)%Z).
    { apply wrap_signed_small; simpl; lia. }
    repeat split; [apply decodable_app; [done|apply add_doc_decodes; lia]| |];
      rewrite Hsmall; lia.
  - destruct (Delete_state id s) as (Hr & [Hc | Hc]); rewrite Hr, Hc;
      repeat split; auto with notes.
  - pose proof (ByAuthor_state author s). destruct (ByAuthor _ _). simpl in *. subst.
    by repeat split.
  - pose proof (ByName_state name s). destruct (ByName _ _). simpl in *. subst.
    by repeat split.
  - pose proof (All_state s). destruct (All _). simpl in *. subst. by repeat split.
Qed.

Lemma run_calls_inv ks s : call_inv s (adds ks) -> call_inv (run_calls ks s) 0.
Proof.
  revert s. induction ks as [|k ks IH]; intros s Hinv; simpl; [done|].
  assert (Hk : call_inv (run_call k s).1 (adds ks)).
  { apply run_call_inv. by destruct k. }
  destruct (run_call k s) as [s' o] eqn:E. simpl in Hk.
  destruct o; [by apply IH|by apply IH|].
  destruct Hk as (? & ? & ?). repeat split; auto; lia.
Qed.

Lemma run_calls_collection ks s : collection (run_calls ks s).1 = collection s.1.
Proof.
  revert s. induction ks as [|k ks IH]; intros s; simpl; [done|].
  pose proof (run_call_repo k s) as Hr.
  destruct (run_call k s) as [s' o]. simpl in Hr.
  assert (Hc : collection s'.1 = collection s.1) by (by destruct Hr as [-> | ->]).
  destruct o; [rewrite IH|rewrite IH|]; done.
Qed.

(** (C11) Store invariant: start from a store whose documents all decode,
    with a collection handle and a counter at or above 0, and make fewer
    than 2^31 [Add] calls. Then every stored document still decodes. So
    [All], with the server up, returns one note per stored document, and
    the decode error it would drop never arises. *)
Theorem run_calls_All_complete ks s h :
  collection s.1 = Some h ->
  decodable (contents s.2) -> (0 <= counter s.1)%Z ->
  (counter s.1 + Z.of_nat (adds ks) <= 2 ^ 31)%Z ->
  available (run_calls ks s).2 = true ->
  exists ns, All (run_calls ks s) = (run_calls ks s, Ret ns) /\
    length ns = length (contents (run_calls ks s).2).
Proof.
  intros Hc Hd Hpos Hb Hup.
  destruct (run_calls_inv ks s (conj Hd (conj Hpos Hb))) as (Hd' & _).
  destruct (decodable_decode_all _ Hd') as (ns & Hns & Hlen).
  exists ns. split; [|done].
  pose proof (run_calls_collection ks s) as Hc'. rewrite Hc in Hc'.
  destruct (run_calls ks s) as [r c]. simpl in *.
  by rewrite (All_up r h Hc' c ns Hup Hns).
Qed.
End Invariants.

(** ** Witnesses on the in-memory collection *)

Local Open Scope Z_scope.

Definition w_handle : Handle := mkHandle "mongodb://localhost:27017/" "go-notes" "notes".
Definition w_repo : NotesRepositoryImpl := NewNotesRepository (Some w_handle) 0.
Definition w_env : Env := mkEnv (Some "alice") 1700000000123456789%Z.
Definition w_note : Note := mkNote "shopping" "milk, eggs" "errands" "" 0 0.
Definition w_down : MemColl := mkMemColl [] 0 false.
(** A document whose [name] is not a string. *)
Definition w_bad : MemColl := mkMemColl [[("name", BInt32 7)]] 1 true.

Lemma Add_then_ByName_witness :
  exists c', Add w_env w_note (w_repo, mc_empty) = ((incr_counter w_repo, c'), Ret tt) /\
    ByName "shopping" (incr_counter w_repo, c') =
      ((incr_counter w_repo, c'),
       Ret (mkNote "shopping" "milk, eggs" "errands" "alice" zero_time 0)).
Proof. apply (Add_then_ByName w_repo w_handle w_env w_note mc_empty "alice"); reflexivity. Defined.

(** A store that already holds a note by another user. *)
Definition w_bob_db : MemColl :=
  mkMemColl [ensure_id 0 (add_doc w_note "bob" (env_now w_env) 0)] 1 true.

Lemma Add_then_ByAuthor_witness :
  exists c', Add w_env w_note (w_repo, w_bob_db) = ((incr_counter w_repo, c'), Ret tt) /\
    ByAuthor "alice" (incr_counter w_repo, c') =
      ((incr_counter w_repo, c'),
       Ret (mkNote "shopping" "milk, eggs" "errands" "alice" zero_time 0)).
Proof. apply (Add_then_ByAuthor w_repo w_handle w_env w_note w_bob_db "alice"); reflexivity. Defined.

Lemma Add_fail_keeps_counter_witness :
  exists e, Add w_env w_note (w_repo, w_down) = ((w_repo, w_down), Throw (Wrapf "add note" e)) /\
    e <> ErrNoDocuments.
Proof. eapply (Add_fail_keeps_counter w_repo w_handle); reflexivity. Defined.

Lemma Add_ok_witness :
  exists c' oid, Add w_env w_note (w_repo, mc_empty) = ((incr_counter w_repo, c'), Ret tt) /\
    available c' = true /\
    contents c' = contents mc_empty ++
      [ensure_id oid (add_doc w_note "alice" (env_now w_env) (counter w_repo))].
Proof. apply (Add_ok w_repo w_handle); reflexivity. Defined.

Lemma Delete_absent_ok_witness :
  exists c', Delete 5 (w_repo, mc_empty) = ((w_repo, c'), Ret tt) /\ contents c' = contents mc_empty.
Proof. eapply (Delete_absent_ok w_repo w_handle); reflexivity. Defined.



Lemma Add_then_Delete_witness :
  exists c' c'', Add w_env w_note (w_repo, mc_empty) = ((incr_counter w_repo, c'), Ret tt) /\
    Delete (counter w_repo) (incr_counter w_repo, c') = ((incr_counter w_repo, c''), Ret tt) /\
    contents c'' = contents mc_empty.
Proof. apply (Add_then_Delete w_repo w_handle w_env w_note mc_empty "alice"); reflexivity. Defined.

Lemma ByName_not_found_witness :
  ByName "shopping" (w_repo, mc_empty) =
    ((w_repo, mc_empty), Throw (Errorf "no documents by given filter")).
Proof. apply (ByName_not_found w_repo w_handle); reflexivity. Defined.

Lemma All_ok_witness : All (w_repo, mc_empty) = ((w_repo, mc_empty), Ret []).
Proof. apply (All_ok w_repo w_handle); reflexivity. Defined.

Lemma All_swallows_decode_error_witness :
  decode_all (contents w_bad) =
    Throw (Wrapf "error decoding key name" (ErrDecode "cannot decode into a string type")) /\
  All (w_repo, w_bad) = ((w_repo, w_bad), Ret []).
Proof.
  split; [reflexivity|].
  apply (All_swallows_decode_error w_repo w_handle eq_refl w_bad
           (Wrapf "error decoding key name" (ErrDecode "cannot decode into a string type")));
    reflexivity.
Defined.

Lemma Add_Add_distinct_ids_witness :
  exists c2 d1 d2,
    (Add w_env w_note ;; Add w_env w_note) (w_repo, mc_empty) =
      ((incr_counter (incr_counter w_repo), c2), Ret tt) /\
    contents c2 = contents mc_empty ++ [d1; d2] /\ doc_lookup d1 "id" <> doc_lookup d2 "id".
Proof. eapply (Add_Add_distinct_ids w_repo w_handle); reflexivity. Defined.

Lemma run_calls_All_complete_witness :
  exists ns,
    All (run_calls [CAdd w_env w_note; CByName "shopping"] (w_repo, mc_empty)) =
      (run_calls [CAdd w_env w_note; CByName "shopping"] (w_repo, mc_empty), Ret ns) /\
    length ns = length (contents (run_calls [CAdd w_env w_note; CByName "shopping"]
                                    (w_repo, mc_empty)).2).
Proof.
  apply (run_calls_All_complete _ _ w_handle); [reflexivity|constructor|simpl; lia|simpl; lia|].
  reflexivity.
Defined.

Lemma nil_collection_panics_witness :
  Add w_env w_note (mkRepo None 0, mc_empty) = ((mkRepo None 0, mc_empty), Panic nil_deref) /\
  Delete 1 (mkRepo None 0, mc_empty) = ((mkRepo None 0, mc_empty), Panic nil_deref) /\
  ByName "x" (mkRepo None 0, mc_empty) = ((mkRepo None 0, mc_empty), Panic nil_deref) /\
  ByAuthor "y" (mkRepo None 0, mc_empty) = ((mkRepo None 0, mc_empty), Panic nil_deref) /\
  All (mkRepo None 0, mc_empty) = ((mkRepo None 0, mc_empty), Panic nil_deref).
Proof. apply nil_collection_panics. reflexivity. Defined.

Lemma Add_overflow_undecodable_witness :
  exists c', Add w_env w_note (mkRepo (Some w_handle) (2 ^ 31), mc_empty) =
      ((incr_counter (mkRepo (Some w_handle) (2 ^ 31)), c'), Ret tt) /\
    ByName "shopping" (incr_counter (mkRepo (Some w_handle) (2 ^ 31)), c') =
      ((incr_counter (mkRepo (Some w_handle) (2 ^ 31)), c'),
       Throw (Wrapf "show note by author"
                (Wrapf "error decoding key id" (ErrDecode "overflows int32")))).
Proof.
  apply (Add_overflow_undecodable (mkRepo (Some w_handle) (2 ^ 31)) w_handle w_env w_note
           mc_empty "alice"); reflexivity.
Defined.

(** The spec's scenario: create "shopping", find it by name, delete it by
    its id, and list the notes. *)
Example shopping_scenario :
  let '(s1, o1) := Add w_env w_note (w_repo, mc_empty) in
  let '(s2, o2) := ByName "shopping" s1 in
  let '(s3, o3) := Delete (ID (with_zero zero_note o2)) s2 in
  let '(s4, o4) := All s3 in
  o1 = Ret tt /\ omap Text o2 = Ret "milk, eggs" /\ o3 = Ret tt /\ o4 = Ret [].
Proof. vm_compute. repeat split. Qed.
