(* ===== verification/StoreSpec.v ===== *)
(** The store's contract, from the spec's section 4.1, and the refinement of
    that contract by the repository.

    The abstract store is a list of notes. [spec_step] is its step
    relation. It is nondeterministic where the spec is: any operation may
    fail with a storage error and change nothing. Otherwise Create appends,
    Delete removes the first note with the id (and succeeds when there is
    none), FindByName and FindByAuthor return the first match or
    NotFoundError, and ListAll returns every note.

    The refinement relation [store_rel] ties an abstract store to a
    collection. Every stored document has the shape [Add] writes, with an
    id that fits an [int32]. The decoded documents are the abstract notes
    with their [CreatedAt] erased. The erasure is needed because the
    repository never reads the creation time back (see [Bson.add_doc_roundtrip]).
    [run_call_refines] shows that every repository call, run on related
    states, is matched by a step of the spec. The results correspond and
    the errors fall into the spec's kinds ([classify]). *)
From S2P Require Import Prelude Note Bson Collection Repository.

Local Open Scope Z_scope.

(** ** The abstract store *)

Inductive StoreError := NotFoundError | StorageReadError | StorageWriteError.

Inductive spec_op :=
| SCreate (n : Note)
| SDelete (id : Z)
| SFindByAuthor (author : string)
| SFindByName (name : string)
| SListAll.

Inductive spec_val := VUnit | VNote (n : Note) | VNotes (ns : list Note).

Inductive spec_res := SOk (v : spec_val) | SErr (e : StoreError).

Fixpoint find_by (p : Note -> bool) (σ : list Note) : option Note :=
  match σ with
  | [] => None
  | n :: σ' => if p n then Some n else find_by p σ'
  end.

Fixpoint remove_first (p : Note -> bool) (σ : list Note) : list Note :=
  match σ with
  | [] => []
  | n :: σ' => if p n then σ' else n :: remove_first p σ'
  end.

Definition has_id (id : Z) (n : Note) : bool := Z.eqb (ID n) id.
Definition has_name (nm : string) (n : Note) : bool := bool_decide (Name n = nm).
Definition has_author (a : string) (n : Note) : bool := bool_decide (Author n = a).

Inductive spec_step : spec_op -> list Note -> list Note -> spec_res -> Prop :=
| create_ok n σ : spec_step (SCreate n) σ (σ ++ [n]) (SOk VUnit)
| create_err n σ : spec_step (SCreate n) σ σ (SErr StorageWriteError)
| delete_ok id σ : spec_step (SDelete id) σ (remove_first (has_id id) σ) (SOk VUnit)
| delete_err id σ : spec_step (SDelete id) σ σ (SErr StorageWriteError)
| by_author_found a σ n :
    find_by (has_author a) σ = Some n -> spec_step (SFindByAuthor a) σ σ (SOk (VNote n))
| by_author_missing a σ :
    find_by (has_author a) σ = None -> spec_step (SFindByAuthor a) σ σ (SErr NotFoundError)
| by_author_err a σ : spec_step (SFindByAuthor a) σ σ (SErr StorageReadError)
| by_name_found nm σ n :
    find_by (has_name nm) σ = Some n -> spec_step (SFindByName nm) σ σ (SOk (VNote n))
| by_name_missing nm σ :
    find_by (has_name nm) σ = None -> spec_step (SFindByName nm) σ σ (SErr NotFoundError)
| by_name_err nm σ : spec_step (SFindByName nm) σ σ (SErr StorageReadError)
| list_ok σ : spec_step SListAll σ σ (SOk (VNotes σ))
| list_err σ : spec_step SListAll σ σ (SErr StorageReadError).

(** ** Abstraction *)

(** The note a document reads back as. *)
Definition abs_doc (d : doc) : Note := with_zero zero_note (decode_note d).

Definition erase_time (n : Note) : Note := set_CreatedAt n zero_time.

(** A document as [Add] writes it, with an id that the [int32] field can
    hold. *)
Definition add_shaped (d : doc) : Prop :=
  exists oid note u t k, d = ensure_id oid (add_doc note u t k) /\ 0 <= k < 2 ^ 31.

Definition store_rel (σ : list Note) (ds : list doc) : Prop :=
  Forall add_shaped ds /\ map abs_doc ds = map erase_time σ.

(** The spec's error kind of a repository error. *)
Definition classify (e : goerr) : StoreError :=
  if decide (e = Errorf "no documents by given filter") then NotFoundError
  else match e with
       | Wrapf ctx _ =>
           if decide (ctx = "add note" \/ ctx = "delete note") then StorageWriteError
           else StorageReadError
       | _ => StorageReadError
       end.

Definition erase_val (v : spec_val) : spec_val :=
  match v with
  | VUnit => VUnit
  | VNote n => VNote (erase_time n)
  | VNotes ns => VNotes (map erase_time ns)
  end.

(** A repository outcome matches a spec result: the same value up to
    [CreatedAt], or an error of the same kind. *)
Definition res_match (o : outcome spec_val) (r : spec_res) : Prop :=
  match o, r with
  | Ret v, SOk v' => v = erase_val v'
  | Throw e, SErr k => classify e = k
  | _, _ => False
  end.

(** ** Abstraction lemmas *)

Lemma abs_doc_add_doc oid note u t k :
  0 <= k < 2 ^ 31 ->
  abs_doc (ensure_id oid (add_doc note u t k)) =
  mkNote (Name note) (Text note) (Tag note) u zero_time k.
Proof.
  intros Hk. unfold abs_doc. rewrite decode_add_doc.
  by rewrite (proj2 (in_signed_iff 32 k)) by (simpl; lia).
Qed.

Lemma bval_eqv_strings a b : bval_eqv (BString a) (BString b) = bool_decide (a = b).
Proof. unfold bval_eqv. simpl. apply bool_decide_ext. split; [by intros [=]|by intros ->]. Qed.

Lemma add_shaped_decodes d : add_shaped d -> decode_note d = Ret (abs_doc d).
Proof.
  intros (oid & note & u & t & k & -> & Hk). unfold abs_doc.
  rewrite decode_add_doc. by rewrite (proj2 (in_signed_iff 32 k)) by (simpl; lia).
Qed.

Lemma matches_name_shaped nm d :
  add_shaped d -> matches (name_filter nm) d = has_name nm (abs_doc d).
Proof.
  intros Hd. pose proof Hd as (oid & note & u & t & k & -> & Hk).
  rewrite abs_doc_add_doc by done. unfold matches, name_filter. cbn [forallb].
  rewrite lookup_add_doc_name, bval_eqv_strings. apply andb_true_r.
Qed.

Lemma matches_author_shaped a d :
  add_shaped d -> matches (author_filter a) d = has_author a (abs_doc d).
Proof.
  intros Hd. pose proof Hd as (oid & note & u & t & k & -> & Hk).
  rewrite abs_doc_add_doc by done. unfold matches, author_filter. cbn [forallb].
  rewrite lookup_add_doc_author, bval_eqv_strings. apply andb_true_r.
Qed.

Lemma matches_id_shaped id d :
  add_shaped d -> matches (id_filter id) d = has_id id (abs_doc d).
Proof.
  intros Hd. pose proof Hd as (oid & note & u & t & k & -> & Hk).
  rewrite abs_doc_add_doc by done. apply matches_id_add_doc.
Qed.

Section Transfer.
Context (f : doc) (p : Note -> bool).

(** The filter [f] on a document agrees with [p] on the note it reads as. *)
Definition agrees (ds : list doc) : Prop :=
  Forall (fun d => matches f d = p (abs_doc d)) ds.

Lemma find_first_abs ds :
  agrees ds -> option_map abs_doc (find_first f ds) = find_by p (map abs_doc ds).
Proof. induction 1 as [|d ds Hd _ IH]; simpl; [done|]. rewrite Hd. by destruct (p _). Qed.

Lemma delete_first_abs ds :
  agrees ds -> map abs_doc (delete_first f ds) = remove_first p (map abs_doc ds).
Proof. induction 1 as [|d ds Hd _ IH]; simpl; [done|]. rewrite Hd. by destruct (p _); simpl; f_equal. Qed.

Context (Hp : forall n, p (erase_time n) = p n).

Lemma find_by_erase σ : find_by p (map erase_time σ) = option_map erase_time (find_by p σ).
Proof. induction σ as [|n σ IH]; simpl; [done|]. rewrite Hp. by destruct (p n). Qed.

Lemma remove_first_erase σ :
  remove_first p (map erase_time σ) = map erase_time (remove_first p σ).
Proof. induction σ as [|n σ IH]; simpl; [done|]. rewrite Hp. by destruct (p n); simpl; f_equal. Qed.
End Transfer.

Lemma agrees_name nm ds : Forall add_shaped ds -> agrees (name_filter nm) (has_name nm) ds.
Proof. apply Forall_impl. intros d. apply matches_name_shaped. Qed.
Lemma agrees_author a ds : Forall add_shaped ds -> agrees (author_filter a) (has_author a) ds.
Proof. apply Forall_impl. intros d. apply matches_author_shaped. Qed.
Lemma agrees_id id ds : Forall add_shaped ds -> agrees (id_filter id) (has_id id) ds.
Proof. apply Forall_impl. intros d. apply matches_id_shaped. Qed.

Lemma has_name_erase nm n : has_name nm (erase_time n) = has_name nm n.
Proof. reflexivity. Qed.
Lemma has_author_erase a n : has_author a (erase_time n) = has_author a n.
Proof. reflexivity. Qed.
Lemma has_id_erase id n : has_id id (erase_time n) = has_id id n.
Proof. reflexivity. Qed.

(** The first match of a filter, read back, is the erased first match of
    the spec. *)
Lemma find_first_rel f p σ ds :
  (forall n, p (erase_time n) = p n) -> agrees f p ds -> map abs_doc ds = map erase_time σ ->
  option_map abs_doc (find_first f ds) = option_map erase_time (find_by p σ).
Proof. intros Hp Ha Hm. by rewrite (find_first_abs f p ds Ha), Hm, find_by_erase. Qed.

Lemma decode_all_shaped ds : Forall add_shaped ds -> decode_all ds = Ret (map abs_doc ds).
Proof.
  induction 1 as [|d ds Hd _ IH]; simpl; [done|].
  by rewrite (add_shaped_decodes d Hd), IH.
Qed.

Lemma classify_add e : classify (Wrapf "add note" e) = StorageWriteError.
Proof. reflexivity. Qed.
Lemma classify_delete e : classify (Wrapf "delete note" e) = StorageWriteError.
Proof. reflexivity. Qed.
Lemma classify_by e : classify (Wrapf "show note by author" e) = StorageReadError.
Proof. reflexivity. Qed.
Lemma classify_all e : classify (Wrapf "get all notes" e) = StorageReadError.
Proof. reflexivity. Qed.
Lemma classify_missing : classify (Errorf "no documents by given filter") = NotFoundError.
Proof. reflexivity. Qed.

#[export] Hint Rewrite classify_add classify_delete classify_by classify_all classify_missing
  : notes_rw.

(** ** Refinement *)

(** A repository call with its result as a spec value. *)
Definition call_res {C} `{!Collection C} (k : call) : ST (@RS C) spec_val :=
  match k with
  | CAdd env n => _ <- Add env n ;; st_ret VUnit
  | CDelete id => _ <- Delete id ;; st_ret VUnit
  | CByAuthor a => n <- ByAuthor a ;; st_ret (VNote n)
  | CByName nm => n <- ByName nm ;; st_ret (VNote n)
  | CAll => ns <- All ;; st_ret (VNotes ns)
  end.

(** The spec operation a call performs: Create stamps the OS user, the
    clock and the counter. *)
Definition abs_op (k : call) (r : NotesRepositoryImpl) : spec_op :=
  match k with
  | CAdd env n =>
      SCreate (mkNote (Name n) (Text n) (Tag n) (default "" (env_user env)) (env_now env)
                 (counter r))
  | CDelete id => SDelete id
  | CByAuthor a => SFindByAuthor a
  | CByName nm => SFindByName nm
  | CAll => SListAll
  end.

(** What a call needs beyond a handle: [Add] needs an OS user and an id the
    [int32] field can hold. *)
Definition call_pre (k : call) (r : NotesRepositoryImpl) : Prop :=
  match k with
  | CAdd env _ => env_user env <> None /\ 0 <= counter r < 2 ^ 31
  | _ => True
  end.

Definition refines_at {C} `{!Collection C} `{!CollectionLaws C}
    (k : call) (σ : list Note) (r : NotesRepositoryImpl) (c : C) : Prop :=
  exists σ' sr, spec_step (abs_op k r) σ σ' sr /\
    store_rel σ' (contents (call_res k (r, c)).1.2) /\ res_match (call_res k (r, c)).2 sr.

Section Refinement.
Context {C : Type} `{!Collection C} `{!CollectionLaws C}.
Context (r : NotesRepositoryImpl) (h : Handle) (Hc : collection r = Some h).

Lemma Add_refines env note c σ :
  call_pre (CAdd env note) r -> store_rel σ (contents c) -> refines_at (CAdd env note) σ r c.
Proof.
  intros [Hu Hk] [Hs Hm]. destruct (env_user env) as [u|] eqn:Eu; [|done].
  unfold refines_at, call_res, abs_op. rewrite Eu. simpl default.
  destruct (available c) eqn:Ha.
  - destruct (Add_up r h Hc env note c u Eu Ha) as (c' & oid & Hadd & _ & Hc').
    eexists _, _. split; [apply create_ok|]. st_unfold. rewrite Hadd. simpl.
    split; [|done]. rewrite Hc'. split.
    + apply Forall_app. split; [done|]. constructor; [|constructor].
      by exists oid, note, u, (env_now env), (counter r).
    + rewrite !map_app, Hm. simpl. by rewrite abs_doc_add_doc.
  - destruct (Add_down r h Hc env note c u Eu Ha) as (e & Hadd & _).
    eexists _, _. split; [apply create_err|]. st_unfold. rewrite Hadd. simpl.
    split; [by split|]. apply classify_add.
Qed.

Lemma Delete_refines id c σ : store_rel σ (contents c) -> refines_at (CDelete id) σ r c.
Proof.
  intros [Hs Hm]. unfold refines_at, call_res, abs_op. destruct (available c) eqn:Ha.
  - destruct (Delete_ok r h Hc id c Ha) as (c' & Hdel & _ & Hc').
    eexists _, _. split; [apply delete_ok|]. st_unfold. rewrite Hdel. simpl.
    split; [|done]. rewrite Hc'. split.
    + apply Forall_forall. intros d Hd. rewrite Forall_forall in Hs.
      apply Hs, list_elem_of_In, (delete_first_sublist (id_filter id)), list_elem_of_In, Hd.
    + rewrite (delete_first_abs _ _ _ (agrees_id id _ Hs)), Hm.
      apply remove_first_erase, has_id_erase.
  - destruct (Delete_fail r h Hc id c Ha) as (e & Hdel & _).
    eexists _, _. split; [apply delete_err|]. st_unfold. rewrite Hdel. simpl.
    split; [by split|]. apply classify_delete.
Qed.
Lemma lookup_refines f p σ ds :
  (forall n, p (erase_time n) = p n) -> Forall add_shaped ds -> agrees f p ds ->
  map abs_doc ds = map erase_time σ ->
  (find_by p σ = None /\ lookup_result (find_first f ds) = Throw (Errorf "no documents by given filter")) \/
  (exists n, find_by p σ = Some n /\ lookup_result (find_first f ds) = Ret (erase_time n)).
Proof.
  intros Hp Hs Ha Hm. pose proof (find_first_rel f p σ ds Hp Ha Hm) as Hr.
  destruct (find_first f ds) as [d|] eqn:Ef; destruct (find_by p σ) as [n|] eqn:Eb;
    simpl in Hr; try discriminate.
  - right. exists n. split; [done|]. injection Hr as Hr. simpl.
    apply find_first_in in Ef as [Hd _]. rewrite Forall_forall in Hs.
    rewrite (add_shaped_decodes d (Hs d (proj1 (list_elem_of_In _ _) Hd))). by rewrite Hr.
  - left. by split.
Qed.

Lemma ByName_refines nm c σ : store_rel σ (contents c) -> refines_at (CByName nm) σ r c.
Proof.
  intros [Hs Hm]. unfold refines_at, call_res, abs_op. destruct (available c) eqn:Ha.
  - unfold st_bind. rewrite (ByName_spec r h Hc nm c Ha).
    destruct (lookup_refines _ _ σ _ (has_name_erase nm) Hs (agrees_name nm _ Hs) Hm)
      as [[Hb Hl] | (n & Hb & Hl)]; rewrite Hl.
    + eexists _, _. split; [by apply by_name_missing|]. by split; [split|].
    + eexists _, _. split; [by apply by_name_found|]. by split; [split|].
  - destruct (ByName_down r h Hc nm c Ha) as (e & Hb & _).
    eexists _, _. split; [apply by_name_err|]. st_unfold. rewrite Hb. simpl.
    split; [by split|]. apply classify_by.
Qed.

Lemma ByAuthor_refines a c σ : store_rel σ (contents c) -> refines_at (CByAuthor a) σ r c.
Proof.
  intros [Hs Hm]. unfold refines_at, call_res, abs_op. destruct (available c) eqn:Ha.
  - unfold st_bind. rewrite (ByAuthor_spec r h Hc a c Ha).
    destruct (lookup_refines _ _ σ _ (has_author_erase a) Hs (agrees_author a _ Hs) Hm)
      as [[Hb Hl] | (n & Hb & Hl)]; rewrite Hl.
    + eexists _, _. split; [by apply by_author_missing|]. by split; [split|].
    + eexists _, _. split; [by apply by_author_found|]. by split; [split|].
  - destruct (ByAuthor_down r h Hc a c Ha) as (e & Hb & _).
    eexists _, _. split; [apply by_author_err|]. st_unfold. rewrite Hb. simpl.
    split; [by split|]. apply classify_by.
Qed.

Lemma All_refines c σ : store_rel σ (contents c) -> refines_at CAll σ r c.
Proof.
  intros [Hs Hm]. unfold refines_at, call_res, abs_op. destruct (available c) eqn:Ha.
  - unfold st_bind.
    rewrite (All_up r h Hc c (map abs_doc (contents c)) Ha (decode_all_shaped _ Hs)).
    eexists _, _. split; [apply list_ok|]. st_unfold. simpl.
    split; [by split|]. simpl. by rewrite Hm.
  - destruct (All_down r h Hc c Ha) as (e & Hb).
    eexists _, _. split; [apply list_err|]. st_unfold. rewrite Hb. simpl.
    split; [by split|]. apply classify_all.
Qed.

(** Every call refines a spec step. *)
Lemma call_refines k σ c :
  call_pre k r -> store_rel σ (contents c) -> refines_at k σ r c.
Proof.
  intros Hpre Hrel. destruct k.
  - by apply Add_refines.
  - by apply Delete_refines.
  - by apply ByAuthor_refines.
  - by apply ByName_refines.
  - by apply All_refines.
Qed.

(** (C25) Refinement: every repository call, run on a collection related
    to an abstract store (and, for [Add], with an OS user and an id that
    fits an [int32]), is matched by a step of the spec's store. The
    resulting store is still related to the collection, and the result is
    the spec's result up to [CreatedAt], or an error of the spec's kind
    for it: StorageWriteError for Create and Delete, StorageReadError for a
    failing read, and NotFoundError for a find with no match. *)
Theorem run_call_refines k σ c :
  call_pre k r -> store_rel σ (contents c) -> refines_at k σ r c.
Proof. apply call_refines. Qed.
End Refinement.

(** ** Runs *)

Inductive spec_run : list spec_op -> list Note -> list Note -> Prop :=
| spec_run_nil σ : spec_run [] σ σ
| spec_run_cons op ops σ σ1 σ2 res :
    spec_step op σ σ1 res -> spec_run ops σ1 σ2 -> spec_run (op :: ops) σ σ2.

(** A run of the spec that also produces results: each operation steps
    the store and its result matches the repository outcome it is paired
    with. *)
Inductive spec_trace : list (spec_op * outcome spec_val) -> list Note -> list Note -> Prop :=
| spec_trace_nil σ : spec_trace [] σ σ
| spec_trace_cons op o tr σ σ1 σ2 sr :
    spec_step op σ σ1 sr -> res_match o sr -> spec_trace tr σ1 σ2 ->
    spec_trace ((op, o) :: tr) σ σ2.

(** The trace of a run of calls: each call's spec operation, taken at the
    repository the call starts from, with the call's outcome. A panic ends
    the run (as in [run_calls]) and performs no operation. *)
Fixpoint calls_trace {C} `{!Collection C} (ks : list call) (s : @RS C)
    : list (spec_op * outcome spec_val) :=
  match ks with
  | [] => []
  | k :: ks' =>
      match call_res k s with
      | (_, Panic _) => []
      | (s', o) => (abs_op k s.1, o) :: calls_trace ks' s'
      end
  end.

Lemma run_call_state {C} `{!Collection C} k (s : @RS C) : (run_call k s).1 = (call_res k s).1.
Proof.
  destruct k; unfold run_call, call_res; st_unfold;
    [destruct (Add _ _ s) as [? []]|destruct (Delete _ s) as [? []]
    |destruct (ByAuthor _ s) as [? []]|destruct (ByName _ s) as [? []]|destruct (All s) as [? []]];
    reflexivity.
Qed.

Lemma run_call_call_res {C} `{!Collection C} k (s : @RS C) :
  run_call k s = ((call_res k s).1, forget (call_res k s).2).
Proof.
  destruct k; unfold run_call, call_res; st_unfold;
    [destruct (Add _ _ s) as [? [[]| |]]|destruct (Delete _ s) as [? [[]| |]]
    |destruct (ByAuthor _ s) as [? []]|destruct (ByName _ s) as [? []]|destruct (All s) as [? []]];
    reflexivity.
Qed.

Lemma Add_no_user {C} `{!Collection C} env note (s : @RS C) :
  env_user env = None -> Add env note s = (s, Panic nil_deref).
Proof. intros Hu. run_repo. by rewrite Hu. Qed.

Lemma store_rel_decodable σ ds : store_rel σ ds -> decodable ds.
Proof.
  intros [Hs _]. unfold decodable. revert Hs. apply Forall_impl.
  intros d Hd. by rewrite (add_shaped_decodes d Hd).
Qed.

Section Runs.
Context {C : Type} `{!Collection C} `{!CollectionLaws C}.

(** (C26) Simulation of a process: for any sequence of repository calls
    from a handle, a store related to an abstract one, and fewer than 2^31
    creates from a counter at or above 0, the spec's store runs exactly
    the operations the calls name ([calls_trace]: Create with the note's
    fields, the OS user, the clock and the counter at that call; Delete of
    the given id; the lookups), each result matching the call's outcome
    (up to [CreatedAt], errors by kind), and ends in a store related to
    the final collection. An [Add] without an OS user panics and ends the
    run with no operation. *)
Theorem run_calls_refine ks σ r h c :
  collection r = Some h -> store_rel σ (contents c) -> 0 <= counter r ->
  counter r + Z.of_nat (adds ks) <= 2 ^ 31 ->
  exists σ', spec_trace (calls_trace ks (r, c)) σ σ' /\
    store_rel σ' (contents (run_calls ks (r, c)).2).
Proof.
  revert σ r c. induction ks as [|k ks IH]; intros σ r c Hc Hrel Hpos Hb.
  { exists σ. split; [constructor|done]. }
  assert (Hpre : (exists env note, k = CAdd env note /\ env_user env = None) \/ call_pre k r).
  { destruct k as [env note| | | |]; simpl; auto.
    destruct (env_user env) eqn:Eu; [right|left; eauto]. split; [done|]. simpl in Hb. lia. }
  destruct Hpre as [(env & note & -> & Hu) | Hpre].
  { exists σ. cbn [calls_trace run_calls call_res]. st_unfold.
    rewrite (Add_no_user env note (r, c) Hu). cbn. rewrite (Add_no_user env note (r, c) Hu). split; [constructor|done]. }
  destruct (call_refines r h Hc k σ c Hpre Hrel) as (σ1 & res & Hstep & Hrel1 & Hres).
  assert (Hinv : call_inv (run_call k (r, c)).1 (adds ks)).
  { apply run_call_inv. split; [by apply (store_rel_decodable σ)|]. split; [done|].
    destruct k; simpl in *; lia. }
  pose proof (run_call_repo k (r, c)) as Hr.
  cbn [calls_trace run_calls]. rewrite run_call_call_res in *.
  destruct (call_res k (r, c)) as [[r' c'] o] eqn:E. cbn [fst snd] in *.
  destruct Hinv as (_ & Hpos' & Hb').
  assert (Hc' : collection r' = Some h) by (destruct Hr as [-> | ->]; done).
  destruct o as [v|e|p]; [| |done]; cbn [forget];
    destruct (IH σ1 r' c' Hc' Hrel1 Hpos' Hb') as (σ' & Htr & Hrel');
    exists σ'; (split; [econstructor; eauto|done]).
Qed.
End Runs.

(** ** Witnesses *)

(** The store after adding the "shopping" note, and its abstract view. *)
Definition w_shop_db : MemColl :=
  mkMemColl [ensure_id 0 (add_doc w_note "alice" (env_now w_env) 0)] 1 true.
Definition w_shop_spec : list Note :=
  [mkNote "shopping" "milk, eggs" "errands" "alice" (env_now w_env) 0].

Lemma w_shop_rel : store_rel w_shop_spec (contents w_shop_db).
Proof.
  split; [|reflexivity]. constructor; [|constructor].
  exists 0, w_note, "alice", (env_now w_env), 0. split; [reflexivity|lia].
Qed.

Lemma run_call_refines_witness :
  call_pre (CByName "shopping") w_repo /\ store_rel w_shop_spec (contents w_shop_db) /\
  refines_at (CByName "shopping") w_shop_spec w_repo w_shop_db.
Proof.
  split; [exact I|]. split; [exact w_shop_rel|].
  apply (run_call_refines w_repo w_handle eq_refl); [exact I|exact w_shop_rel].
Defined.

Lemma run_calls_refine_witness :
  exists σ',
    spec_trace (calls_trace [CAdd w_env w_note; CByName "shopping"; CDelete 0; CAll]
                  (w_repo, mc_empty)) [] σ' /\
    store_rel σ' (contents (run_calls [CAdd w_env w_note; CByName "shopping"; CDelete 0; CAll]
                              (w_repo, mc_empty)).2).
Proof.
  apply (run_calls_refine _ [] w_repo w_handle mc_empty); [reflexivity| |simpl; lia|simpl; lia].
  split; [constructor|reflexivity].
Defined.
