(* ===== verification/Ids.v ===== *)
(** The id counter within one process. [NotesRepositoryImpl.counter] is
    the only source of ids: [Add] writes [r.counter] as the document's
    [id] and then increments it. Over a sequence of successful [Add] calls
    the ids are therefore consecutive, in insertion order, which is the
    spec's "monotonic counter", as long as the 64-bit counter does not
    wrap. Across processes the counter restarts at 0 (see [Cli]). *)
From S2P Require Import Prelude Note Bson Collection Repository.

Local Open Scope Z_scope.

Section Ids.
Context {C : Type} `{!Collection C} `{!CollectionLaws C}.

Lemma incr_counter_small r :
  counter r + 1 < 2 ^ 63 -> 0 <= counter r ->
  counter (incr_counter r) = counter r + 1 /\ collection (incr_counter r) = collection r.
Proof. intros Hb Hp. split; [apply wrap_signed_small; simpl; lia|done]. Qed.

(** (C39) Consecutive ids within a process. From a counter [k >= 0], a
    handle, an OS user and an available server, [n] [Add] calls that do
    not reach [2^63 - 1] append [n] documents whose ids are [k], [k+1],
    ..., [k+n-1], in that order, and leave the counter at [k+n]. *)
Theorem adds_consecutive_ids env u notes r h (c : C) :
  collection r = Some h -> env_user env = Some u -> available c = true ->
  0 <= counter r -> counter r + Z.of_nat (length notes) < 2 ^ 63 ->
  exists ds,
    contents (run_calls (map (CAdd env) notes) (r, c)).2 = contents c ++ ds /\
    map (fun d => doc_lookup d "id") ds =
      map (fun i => Some (encode_int (counter r + Z.of_nat i))) (seq 0 (length notes)) /\
    counter (run_calls (map (CAdd env) notes) (r, c)).1 = counter r + Z.of_nat (length notes).
Proof.
  revert r c. induction notes as [|n ns IH]; intros r c Hc Hu Ha Hp Hb.
  { exists []. simpl. rewrite app_nil_r. split; [done|]. split; [done|lia]. }
  cbn [map run_calls run_call].
  destruct (Add_up r h Hc env n c u Hu Ha) as (c1 & oid & -> & Ha1 & Hc1).
  cbn [length] in Hb. rewrite Nat2Z.inj_succ in Hb.
  destruct (incr_counter_small r ltac:(lia) Hp) as [Hk Hcol].
  destruct (IH (incr_counter r) c1 ltac:(congruence) Hu Ha1 ltac:(lia) ltac:(lia))
    as (ds & Hds & Hids & Hcnt).
  exists (ensure_id oid (add_doc n u (env_now env) (counter r)) :: ds).
  split; [by rewrite Hds, Hc1, <- app_assoc|]. split.
  - cbn [map length seq]. rewrite lookup_add_doc_id, Hids, Z.add_0_r. f_equal.
    rewrite <- seq_shift, map_map. apply map_ext. intros i. rewrite Hk. do 2 f_equal. lia.
  - rewrite Hcnt, Hk. cbn [length]. lia.
Qed.
End Ids.

(** ** Witness *)

Lemma adds_consecutive_ids_witness :
  exists ds,
    contents (run_calls (map (CAdd w_env) [w_note; w_note; w_note]) (w_repo, mc_empty)).2 =
      contents mc_empty ++ ds /\
    map (fun d => doc_lookup d "id") ds =
      map (fun i => Some (encode_int (counter w_repo + Z.of_nat i))) (seq 0 (length [w_note; w_note; w_note])) /\
    counter (run_calls (map (CAdd w_env) [w_note; w_note; w_note]) (w_repo, mc_empty)).1 =
      counter w_repo + Z.of_nat (length [w_note; w_note; w_note]).
Proof.
  apply (adds_consecutive_ids w_env "alice" _ w_repo w_handle mc_empty); try reflexivity; simpl; lia.
Defined.
