(* ===== verification/Mongo.v ===== *)
(** [internal/repository/mongo.go]: [InitMongoClient], and the package
    initialisation of [cmd/main.go] (lines 32-38), which ignores its error
    and builds the one repository of the process with counter 0. Whether
    [mongo.Connect] and [client.Ping] fail is an input ([MongoEnv]). *)
From S2P Require Import Prelude Note Bson Collection Repository.

(** The outcome of [mongo.Connect] and [client.Ping] at process start. *)
Record MongoEnv := mkMongoEnv { connect_err : option goerr; ping_err : option goerr }.

Definition mongo_uri : string := "mongodb://localhost:27017/".

(** [InitMongoClient()]: the handle of [go-notes.notes], or the wrapped
    error of the step that failed. *)
Definition InitMongoClient (me : MongoEnv) : outcome Handle :=
  match connect_err me with
  | Some e => Throw (Wrapf "initialize mongo client" e)
  | None =>
      match ping_err me with
      | Some e => Throw (Wrapf "connecting to mongodb server" e)
      | None => Ret (mkHandle mongo_uri "go-notes" "notes")
      end
  end.

(** [var counter = 0] in main.go. *)
Definition main_counter : Z := 0%Z.

(** [collection, _ = repository.InitMongoClient()]: the error is dropped and
    the handle is nil when the call failed. *)
Definition main_collection (me : MongoEnv) : option Handle :=
  match InitMongoClient me with Ret h => Some h | _ => None end.

(** [notesRepo = repository.NewNotesRepository(collection, counter)]. *)
Definition main_notesRepo (me : MongoEnv) : NotesRepositoryImpl :=
  NewNotesRepository (main_collection me) main_counter.

Lemma main_notesRepo_counter me : counter (main_notesRepo me) = 0%Z.
Proof. reflexivity. Qed.

Lemma main_collection_ok me :
  connect_err me = None -> ping_err me = None ->
  main_collection me = Some (mkHandle mongo_uri "go-notes" "notes").
Proof. unfold main_collection, InitMongoClient. by intros -> ->. Qed.

Lemma main_collection_fail me :
  is_ret (InitMongoClient me) = false -> main_collection me = None.
Proof. unfold main_collection. by destruct (InitMongoClient me). Qed.
