(* ===== verification/Cli.v ===== *)
(** The command-line program of [cmd/main.go]. It holds the actions of the
    commands [add], [del], [mine] and [name] (lines 75-134), the
    urfave/cli dispatch on the command name or alias, and one run of the
    process ([main], lines 40-45). A process builds its repository with
    counter 0, runs one command and exits. A command's error goes to
    [log.Fatal] (exit status 1) and a panic ends the process (status 2).
    Standard output is a list of lines in the state. With no command, or
    with an unknown one, the app runs its root action, the list screen,
    which is modelled in its own file. *)
From S2P Require Import Prelude GoLib Note Bson Collection Repository Mongo.

Section Cli.
Context {C : Type} `{!Collection C}.

(** The repository and its database, and the lines printed so far. *)
Definition CS : Type := @RS C * list string.

Definition on_repo {A} (m : ST RS A) : ST CS A :=
  fun s => let (s', o) := m s.1 in ((s', s.2), o).

(** [fmt.Println(line)]. *)
Definition println (line : string) : ST CS unit :=
  fun s => ((s.1, s.2 ++ [line]), Ret tt).

(** [add]: the note from the first three arguments. [Add] ignores the
    [CreatedAt] set here and stamps its own time. *)
Definition add_action (env : Env) (args : list string) : ST CS unit :=
  let note := mkNote (args_get args 0) (args_get args 1) (args_get args 2) ""
                (env_now env) 0 in
  on_repo (repo_Add env note).

(** [del]: the id is parsed from [c.Args().Get(1)], the second argument,
    with the [Atoi] error ignored, then converted with [int32(id)]. *)
Definition del_action (args : list string) : ST CS unit :=
  let id := (Atoi (args_get args 1)).1 in
  on_repo (repo_Delete (to_int32 id)).

(** [mine]: the note found by author is discarded. *)
Definition mine_action (env : Env) : ST CS unit :=
  author <- st_deref (env_user env) ;;
  _ <- on_repo (repo_ByAuthor author) ;;
  st_ret tt.

(** [name]: prints the text, which is empty on error, then returns the
    error. *)
Definition name_action (args : list string) : ST CS unit :=
  res <- st_attempt (on_repo (repo_ByName (args_first args))) ;;
  println (Text (with_zero zero_note res)) ;;
  st_lift (forget res).
End Cli.

Inductive command := CmdAdd | CmdDel | CmdMine | CmdName.

(** The commands' [Name] and [Aliases]. *)
Definition lookup_command (name : string) : option command :=
  if decide (name = "add" \/ name = "a") then Some CmdAdd
  else if decide (name = "del" \/ name = "d") then Some CmdDel
  else if decide (name = "mine" \/ name = "s") then Some CmdMine
  else if decide (name = "name" \/ name = "n") then Some CmdName
  else None.

Inductive app_action :=
| RunCommand (cmd : command) (args : list string)
| RunRoot (args : list string).

(** [app.Run(os.Args)]: [os.Args] starts with the program name. A first
    argument that names a command selects it, and the remaining arguments
    become its [c.Args()]. Otherwise the root action runs. *)
Definition app_dispatch (osargs : list string) : app_action :=
  match osargs with
  | _ :: name :: rest =>
      match lookup_command name with
      | Some cmd => RunCommand cmd rest
      | None => RunRoot (name :: rest)
      end
  | _ => RunRoot []
  end.

Inductive exit_status :=
| ExitOk
| ExitFatal (e : goerr)
| ExitPanic (msg : string)
| ExitRoot.

Section Process.
Context {C : Type} `{!Collection C}.

Definition run_command (env : Env) (cmd : command) (args : list string) : ST CS unit :=
  match cmd with
  | CmdAdd => add_action env args
  | CmdDel => del_action args
  | CmdMine => mine_action env
  | CmdName => name_action args
  end.

Definition exit_of (o : outcome unit) : exit_status :=
  match o with Ret _ => ExitOk | Throw e => ExitFatal e | Panic p => ExitPanic p end.

(** One process: package initialisation, then [main]. The result is the
    database after the run, the printed lines and the exit status. *)
Definition main_run (me : MongoEnv) (env : Env) (osargs : list string) (db : C)
  : C * list string * exit_status :=
  match app_dispatch osargs with
  | RunRoot _ => (db, [], ExitRoot)
  | RunCommand cmd args =>
      let '(((_, db'), out), o) := run_command env cmd args ((main_notesRepo me, db), []) in
      (db', out, exit_of o)
  end.
End Process.

(** ** Theorems *)

Lemma app_dispatch_add p n t : app_dispatch [p; "add"; n; t] = RunCommand CmdAdd [n; t].
Proof. reflexivity. Qed.
Lemma app_dispatch_del p rest : app_dispatch (p :: "del" :: rest) = RunCommand CmdDel rest.
Proof. reflexivity. Qed.
Lemma app_dispatch_name p x : app_dispatch [p; "name"; x] = RunCommand CmdName [x].
Proof. reflexivity. Qed.
Lemma app_dispatch_mine p rest : app_dispatch (p :: "mine" :: rest) = RunCommand CmdMine rest.
Proof. reflexivity. Qed.

Lemma Atoi_zero : Atoi "0" = (0%Z, false).
Proof. reflexivity. Qed.

(** [Atoi("")] is 0 with an error. *)
Lemma Atoi_empty : Atoi "" = (0%Z, true).
Proof. reflexivity. Qed.

Section CliProofs.
Context {C : Type} `{!Collection C} `{!CollectionLaws C}.

(** [notes add ...] (or its alias [a]) with any arguments: the note's
    fields are [c.Args().Get(0)], [Get(1)] and [Get(2)], empty when the
    argument is missing. *)
Lemma main_run_add_args me env k args db u h :
  k = "add" \/ k = "a" ->
  main_collection me = Some h -> env_user env = Some u -> available db = true ->
  exists db' oid, main_run me env ("notes" :: k :: args) db = (db', [], ExitOk) /\
    available db' = true /\
    contents db' =
      contents db ++ [ensure_id oid (add_doc (mkNote (args_get args 0) (args_get args 1)
                                                (args_get args 2) "" (env_now env) 0) u
                                        (env_now env) 0)].
Proof.
  intros Hk Hc Hu Hup.
  assert (Hd : app_dispatch ("notes" :: k :: args) = RunCommand CmdAdd args)
    by (destruct Hk as [-> | ->]; reflexivity).
  unfold main_run. rewrite Hd. simpl.
  unfold add_action, on_repo. autorewrite with notes_rw. simpl.
  destruct (Add_up (main_notesRepo me) h Hc env (mkNote (args_get args 0) (args_get args 1)
              (args_get args 2) "" (env_now env) 0) db u Hu Hup) as (db' & oid & Heq & Hav & Hdb).
  exists db', oid. rewrite Heq. by split.
Qed.

Lemma main_run_add me env n t db u h :
  main_collection me = Some h -> env_user env = Some u -> available db = true ->
  exists db' oid, main_run me env ["notes"; "add"; n; t] db = (db', [], ExitOk) /\
    available db' = true /\
    contents db' =
      contents db ++ [ensure_id oid (add_doc (mkNote n t "" "" (env_now env) 0) u
                                        (env_now env) 0)].
Proof. apply (main_run_add_args me env "add" [n; t]). by left. Qed.

(** [notes del ...]: the id is the second argument, parsed and cut to
    32 bits. *)
Lemma main_run_del me env args db h :
  main_collection me = Some h -> available db = true ->
  exists db', main_run me env ("notes" :: "del" :: args) db = (db', [], ExitOk) /\
    available db' = true /\
    contents db' = delete_first (id_filter (to_int32 (Atoi (args_get args 1)).1)) (contents db).
Proof.
  intros Hc Hup. unfold main_run. rewrite app_dispatch_del. simpl.
  unfold del_action, on_repo. simpl.
  destruct (Delete_ok (main_notesRepo me) h Hc (to_int32 (Atoi (args_get args 1)).1) db Hup)
    as (db' & Heq & Hav & Hdb).
  exists db'. rewrite Heq. by split.
Qed.

(** (C15) Ids collide across processes. Each run of [notes add] is a new
    process whose repository starts with counter 0, so two notes added by
    two runs are both stored with id 0. The spec's "monotonic counter"
    holds only within one process, and a process adds one note. *)
Theorem two_processes_same_id me env1 env2 n1 t1 n2 t2 db u1 u2 h :
  main_collection me = Some h -> env_user env1 = Some u1 -> env_user env2 = Some u2 ->
  available db = true ->
  exists db1 db2 d1 d2,
    main_run me env1 ["notes"; "add"; n1; t1] db = (db1, [], ExitOk) /\
    main_run me env2 ["notes"; "add"; n2; t2] db1 = (db2, [], ExitOk) /\
    contents db2 = contents db ++ [d1; d2] /\
    doc_lookup d1 "id" = Some (BInt32 0) /\ doc_lookup d2 "id" = Some (BInt32 0).
Proof.
  intros Hc Hu1 Hu2 Hup.
  destruct (main_run_add me env1 n1 t1 db u1 h Hc Hu1 Hup) as (db1 & oid1 & Hr1 & Hup1 & Hdb1).
  destruct (main_run_add me env2 n2 t2 db1 u2 h Hc Hu2 Hup1) as (db2 & oid2 & Hr2 & _ & Hdb2).
  eexists db1, db2, _, _. split; [exact Hr1|]. split; [exact Hr2|].
  split; [by rewrite Hdb2, Hdb1, <- app_assoc|].
  by rewrite !lookup_add_doc_id.
Qed.

(** (C16) [notes del <id>] ignores its id. The action reads
    [c.Args().Get(1)], the second argument, which is [""], and [Atoi("")]
    is 0. So the run deletes the first note with id 0, whatever id was
    given. *)
Theorem cli_del_deletes_id_zero me env x db h :
  main_collection me = Some h -> available db = true ->
  exists db', main_run me env ["notes"; "del"; x] db = (db', [], ExitOk) /\
    contents db' = delete_first (id_filter 0) (contents db).
Proof.
  intros Hc Hup. destruct (main_run_del me env [x] db h Hc Hup) as (db' & Hr & _ & Hdb).
  exists db'. split; [exact Hr|]. by rewrite Hdb.
Qed.

(** (C27) [notes del] works when the id is the second argument, the one the
    action reads: for every 64-bit [int] [id], [notes del x <id>] deletes
    the first note whose id is [int32(id)] and exits 0. The printed id is
    read back exactly (the [Atoi]/[Itoa] round trip), then cut to its low
    32 bits. *)
Theorem cli_del_second_arg me env x id db h :
  main_collection me = Some h -> available db = true -> in_signed 64 id = true ->
  exists db', main_run me env ["notes"; "del"; x; Itoa id] db = (db', [], ExitOk) /\
    contents db' = delete_first (id_filter (to_int32 id)) (contents db).
Proof.
  intros Hc Hup Hid. destruct (main_run_del me env [x; Itoa id] db h Hc Hup) as (db' & Hr & _ & Hdb).
  exists db'. split; [exact Hr|]. rewrite Hdb. autorewrite with notes_rw. by rewrite Atoi_Itoa.
Qed.

(** (C28) [notes mine] prints nothing. It looks up the first note of the
    current user and discards it, so the output is empty whatever the
    store holds and the database is unchanged. The run exits 0 when the
    user has a decodable note, and through [log.Fatal] with the lookup's
    error otherwise. The spec says it lists the user's notes. *)
Theorem cli_mine_prints_nothing me env rest db h u :
  main_collection me = Some h -> env_user env = Some u -> available db = true ->
  main_run me env ("notes" :: "mine" :: rest) db =
    (db, [], exit_of (forget (lookup_result (find_first (author_filter u) (contents db))))).
Proof.
  intros Hc Hu Hup. unfold main_run. rewrite app_dispatch_mine. simpl.
  unfold mine_action, on_repo. st_unfold. rewrite Hu. simpl.
  rewrite (ByAuthor_spec (main_notesRepo me) h Hc u db Hup).
  destruct (lookup_result _); done.
Qed.

(** (C29) With duplicate ids, [del] removes the older note. Two notes added
    by two runs of [notes add] both get id 0 (see C15); a later
    [notes del x 0] deletes the first of them in insertion order and keeps
    the newer one. The spec assumes ids are unique. *)
Theorem cli_del_duplicate_removes_older me env1 env2 env3 n1 t1 n2 t2 x db u1 u2 h :
  main_collection me = Some h -> env_user env1 = Some u1 -> env_user env2 = Some u2 ->
  available db = true -> find_first (id_filter 0) (contents db) = None ->
  exists db1 db2 db3 d2,
    main_run me env1 ["notes"; "add"; n1; t1] db = (db1, [], ExitOk) /\
    main_run me env2 ["notes"; "add"; n2; t2] db1 = (db2, [], ExitOk) /\
    main_run me env3 ["notes"; "del"; x; "0"] db2 = (db3, [], ExitOk) /\
    contents db3 = contents db ++ [d2] /\ doc_lookup d2 "name" = Some (BString n2).
Proof.
  intros Hc Hu1 Hu2 Hup Hfree.
  destruct (main_run_add me env1 n1 t1 db u1 h Hc Hu1 Hup) as (db1 & oid1 & Hr1 & Hup1 & Hdb1).
  destruct (main_run_add me env2 n2 t2 db1 u2 h Hc Hu2 Hup1) as (db2 & oid2 & Hr2 & Hup2 & Hdb2).
  destruct (main_run_del me env3 [x; "0"] db2 h Hc Hup2) as (db3 & Hr3 & _ & Hdb3).
  autorewrite with notes_rw in Hdb3. rewrite Atoi_zero in Hdb3.
  eexists db1, db2, db3, _. split; [exact Hr1|]. split; [exact Hr2|]. split; [exact Hr3|].
  split.
  - rewrite Hdb3, Hdb2, Hdb1, <- app_assoc, delete_first_app by done. cbn [app delete_first].
    by rewrite matches_id_add_doc.
  - apply lookup_add_doc_name.
Qed.

(** (C31) [notes add] checks no arguments. The spec's CLI surface is
    [add <name> <text> [tag]], but the action reads [c.Args().Get(0)],
    [Get(1)] and [Get(2)], which are empty when the argument is missing.
    So [notes add] (or [notes a]) with no argument or only a name stores a
    note with an empty text and tag (and an empty name when none is
    given), and exits 0. Arguments are positional (not flags). *)
Theorem cli_add_missing_args me env k args db u h :
  k = "add" \/ k = "a" ->
  main_collection me = Some h -> env_user env = Some u -> available db = true ->
  (length args <= 1)%nat -> Forall (fun a => String.prefix "-" a = false) args ->
  exists db' d, main_run me env ("notes" :: k :: args) db = (db', [], ExitOk) /\
    contents db' = contents db ++ [d] /\
    decode_note d = Ret (mkNote (args_get args 0) "" "" u zero_time 0).
Proof.
  intros Hk Hc Hu Hup Hlen _.
  destruct (main_run_add_args me env k args db u h Hk Hc Hu Hup) as (db' & oid & Hr & _ & Hdb).
  assert (H1 : args_get args 1 = "") by (unfold args_get; by rewrite lookup_ge_None_2 by lia).
  assert (H2 : args_get args 2 = "") by (unfold args_get; by rewrite lookup_ge_None_2 by lia).
  rewrite H1, H2 in Hdb. eexists _, _. split; [exact Hr|]. split; [exact Hdb|].
  by rewrite decode_add_doc.
Qed.

(** (C35) Ids past the 64-bit range. [notes del x <z>] with [z] printed in
    decimal but outside the [int64] range still exits 0: [Atoi] clamps
    the value to the nearest bound and its range error is dropped, and
    [int32(id)] then keeps the low 32 bits. So any [z >= 2^63] deletes the
    first note with id -1, and any [z < -2^63] the first with id 0. *)
Theorem cli_del_out_of_range me env x z db h :
  main_collection me = Some h -> available db = true -> in_signed 64 z = false ->
  exists db', main_run me env ["notes"; "del"; x; Itoa z] db = (db', [], ExitOk) /\
    contents db' = delete_first (id_filter (if (z <? 0)%Z then 0%Z else (-1)%Z)) (contents db).
Proof.
  intros Hc Hup Hz. destruct (main_run_del me env [x; Itoa z] db h Hc Hup) as (db' & Hr & _ & Hdb).
  exists db'. split; [exact Hr|]. rewrite Hdb. autorewrite with notes_rw.
  rewrite Atoi_ParseInt, ParseInt_Itoa_clamp. cbn [fst].
  destruct (in_signed_64_out z Hz) as [Hlo|Hhi].
  - rewrite (proj2 (Z.ltb_lt _ _)) by lia.
    replace (Z.max _ _) with (- 2 ^ 63)%Z by lia. done.
  - rewrite (proj2 (Z.ltb_ge _ _)) by lia.
    replace (Z.max _ _) with (2 ^ 63 - 1)%Z by lia. done.
Qed.

(** (C38) Every command with the server down. The database is unchanged
    and the run exits through [log.Fatal] with the driver's error wrapped
    in the method's context: "add note", "delete note", and "show note by
    author" for both [mine] and [name]. Only [name] prints, an empty line,
    before it checks the error. *)
Theorem cli_server_down me env osargs db h u cmd args :
  main_collection me = Some h -> available db = false -> env_user env = Some u ->
  app_dispatch osargs = RunCommand cmd args ->
  exists e, e <> ErrNoDocuments /\
    main_run me env osargs db =
      (db, (match cmd with CmdName => [""] | _ => [] end),
       ExitFatal (Wrapf (match cmd with
                         | CmdAdd => "add note"
                         | CmdDel => "delete note"
                         | _ => "show note by author"
                         end) e)).
Proof.
  intros Hc Ha Hu Hd. unfold main_run. rewrite Hd.
  destruct cmd; simpl.
  - destruct (Add_down (main_notesRepo me) h Hc env
                (mkNote (args_get args 0) (args_get args 1) (args_get args 2) "" (env_now env) 0)
                db u Hu Ha) as (e & He & Hne).
    exists e. split; [done|]. unfold add_action, on_repo. simpl. by rewrite He.
  - destruct (Delete_fail (main_notesRepo me) h Hc (to_int32 (Atoi (args_get args 1)).1) db Ha)
      as (e & He & Hne).
    exists e. split; [done|]. unfold del_action, on_repo. simpl. by rewrite He.
  - destruct (ByAuthor_down (main_notesRepo me) h Hc u db Ha) as (e & He & Hne).
    exists e. split; [done|]. unfold mine_action, on_repo. st_unfold. rewrite Hu. simpl.
    by rewrite He.
  - destruct (ByName_down (main_notesRepo me) h Hc (args_first args) db Ha) as (e & He & Hne).
    exists e. split; [done|]. unfold name_action, on_repo, println. st_unfold. simpl.
    by rewrite He.
Qed.

(** (C18) [notes name <n>] on a store with no note named [n] prints an
    empty line and exits through [log.Fatal] with "no documents by given
    filter". The line is printed before the error is checked. *)
Theorem cli_name_missing me env nm db h :
  main_collection me = Some h -> available db = true ->
  find_first (name_filter nm) (contents db) = None ->
  main_run me env ["notes"; "name"; nm] db =
    (db, [""], ExitFatal (Errorf "no documents by given filter")).
Proof.
  intros Hc Hup Hn. unfold main_run. rewrite app_dispatch_name. simpl.
  unfold name_action, on_repo. st_unfold. unfold args_first. autorewrite with notes_rw. simpl.
  by rewrite (ByName_missing (main_notesRepo me) h Hc nm db Hup Hn).
Qed.

(** (C19) A failed connection is not reported at startup. [main] keeps a
    nil collection, and every command then panics, with nothing printed
    and the database unchanged. *)
Theorem cli_connection_failure_panics me env osargs db cmd args :
  main_collection me = None -> app_dispatch osargs = RunCommand cmd args ->
  main_run me env osargs db = (db, [], ExitPanic nil_deref).
Proof.
  intros Hc Hd. unfold main_run. rewrite Hd.
  destruct (nil_handle_panics (main_notesRepo me) db env
              (mkNote (args_get args 0) (args_get args 1) (args_get args 2) "" (env_now env) 0)
              (to_int32 (Atoi (args_get args 1)).1) (args_first args)
              (default "" (env_user env)) Hc) as (Ha & Hdel & Hn & Hau & _).
  destruct cmd; simpl.
  - unfold add_action, on_repo. simpl. by rewrite Ha.
  - unfold del_action, on_repo. simpl. by rewrite Hdel.
  - unfold mine_action, on_repo. st_unfold. destruct (env_user env); simpl in *; [|done].
    by rewrite Hau.
  - unfold name_action, on_repo. st_unfold. simpl. by rewrite Hn.
Qed.
End CliProofs.

(** ** Witnesses *)

Local Open Scope Z_scope.

Definition w_me : MongoEnv := mkMongoEnv None None.
Definition w_me_down : MongoEnv :=
  mkMongoEnv (Some (ErrServer "dial tcp 127.0.0.1:27017: connect: connection refused")) None.
Definition w_alice : Env := mkEnv (Some "alice") 1700000000123456789.
Definition w_bob : Env := mkEnv (Some "bob") 1700000000987654321.

Lemma two_processes_same_id_witness :
  exists db1 db2 d1 d2,
    main_run w_me w_alice ["notes"; "add"; "shopping"; "milk, eggs"] mc_empty =
      (db1, [], ExitOk) /\
    main_run w_me w_bob ["notes"; "add"; "todo"; "call mom"] db1 = (db2, [], ExitOk) /\
    contents db2 = contents mc_empty ++ [d1; d2] /\
    doc_lookup d1 "id" = Some (BInt32 0) /\ doc_lookup d2 "id" = Some (BInt32 0).
Proof.
  eapply (two_processes_same_id w_me w_alice w_bob _ _ _ _ mc_empty "alice" "bob"
            (mkHandle mongo_uri "go-notes" "notes")); reflexivity.
Defined.

Lemma cli_del_deletes_id_zero_witness :
  exists db', main_run w_me w_alice ["notes"; "del"; "7"] mc_empty = (db', [], ExitOk) /\
    contents db' = delete_first (id_filter 0) (contents mc_empty).
Proof.
  apply (cli_del_deletes_id_zero w_me w_alice "7" mc_empty (mkHandle mongo_uri "go-notes" "notes"));
    reflexivity.
Defined.

(** The id 4294967296 = 2^32 is cut to 0 by [int32(id)]: [notes del x
    4294967296] deletes the note with id 0. *)
Lemma cli_del_second_arg_witness :
  in_signed 64 4294967296 = true /\ to_int32 4294967296 = 0 /\
  exists db', main_run w_me w_alice ["notes"; "del"; "x"; Itoa 4294967296] mc_empty =
    (db', [], ExitOk) /\
    contents db' = delete_first (id_filter (to_int32 4294967296)) (contents mc_empty).
Proof.
  split; [reflexivity|]. split; [reflexivity|].
  apply (cli_del_second_arg w_me w_alice "x" 4294967296 mc_empty
           (mkHandle mongo_uri "go-notes" "notes")); reflexivity.
Defined.

Lemma cli_mine_prints_nothing_witness :
  main_run w_me w_alice ["notes"; "mine"] mc_empty =
    (mc_empty, [], exit_of (forget (lookup_result
                     (find_first (author_filter "alice") (contents mc_empty))))).
Proof.
  apply (cli_mine_prints_nothing w_me w_alice [] mc_empty (mkHandle mongo_uri "go-notes" "notes"));
    reflexivity.
Defined.

Lemma cli_del_duplicate_removes_older_witness :
  exists db1 db2 db3 d2,
    main_run w_me w_alice ["notes"; "add"; "shopping"; "milk, eggs"] mc_empty = (db1, [], ExitOk) /\
    main_run w_me w_bob ["notes"; "add"; "todo"; "call mom"] db1 = (db2, [], ExitOk) /\
    main_run w_me w_alice ["notes"; "del"; "x"; "0"] db2 = (db3, [], ExitOk) /\
    contents db3 = contents mc_empty ++ [d2] /\ doc_lookup d2 "name" = Some (BString "todo").
Proof.
  apply (cli_del_duplicate_removes_older w_me w_alice w_bob w_alice _ _ _ _ "x" mc_empty
           "alice" "bob" (mkHandle mongo_uri "go-notes" "notes")); reflexivity.
Defined.

Lemma cli_add_missing_args_witness :
  exists db' d, main_run w_me w_alice ["notes"; "a"; "shopping"] mc_empty = (db', [], ExitOk) /\
    contents db' = contents mc_empty ++ [d] /\
    decode_note d = Ret (mkNote "shopping" "" "" "alice" zero_time 0).
Proof.
  apply (cli_add_missing_args w_me w_alice "a" ["shopping"] mc_empty "alice"
           (mkHandle mongo_uri "go-notes" "notes"));
    first [by right | reflexivity | simpl; lia | repeat constructor].
Defined.
(** 2^64 is printed with 20 digits; [del] with it deletes id -1. *)
Lemma cli_del_out_of_range_witness :
  in_signed 64 (2 ^ 64) = false /\
  exists db', main_run w_me w_alice ["notes"; "del"; "x"; Itoa (2 ^ 64)] mc_empty =
    (db', [], ExitOk) /\
    contents db' = delete_first (id_filter (if (2 ^ 64 <? 0)%Z then 0%Z else (-1)%Z))
                     (contents mc_empty).
Proof.
  split; [reflexivity|].
  apply (cli_del_out_of_range w_me w_alice "x" (2 ^ 64) mc_empty
           (mkHandle mongo_uri "go-notes" "notes")); reflexivity.
Defined.

Definition w_db_down : MemColl := mkMemColl [] 0 false.

Lemma cli_server_down_witness :
  exists e, e <> ErrNoDocuments /\
    main_run w_me w_alice ["notes"; "name"; "shopping"] w_db_down =
      (w_db_down, [""], ExitFatal (Wrapf "show note by author" e)).
Proof.
  apply (cli_server_down w_me w_alice ["notes"; "name"; "shopping"] w_db_down
           (mkHandle mongo_uri "go-notes" "notes") "alice" CmdName ["shopping"]); reflexivity.
Defined.

Lemma cli_name_missing_witness :
  main_run w_me w_alice ["notes"; "name"; "shopping"] mc_empty =
    (mc_empty, [""], ExitFatal (Errorf "no documents by given filter")).
Proof.
  apply (cli_name_missing w_me w_alice "shopping" mc_empty (mkHandle mongo_uri "go-notes" "notes"));
    reflexivity.
Defined.

Lemma cli_connection_failure_panics_witness :
  main_collection w_me_down = None /\
  main_run w_me_down w_alice ["notes"; "add"; "shopping"; "milk, eggs"] mc_empty =
    (mc_empty, [], ExitPanic nil_deref).
Proof.
  split; [reflexivity|].
  apply (cli_connection_failure_panics w_me_down w_alice _ mc_empty CmdAdd ["shopping"; "milk, eggs"]);
    reflexivity.
Defined.

(** The spec's scenario through the command line, one process per command.
    [add shopping "milk, eggs" errands] stores the note with id 0, and
    [name shopping] prints its text. [del 1] names an id no note has, but it
    still deletes the note: the id is read from the missing second argument,
    which parses as 0. The later [d x 1] deletes id 1, which matches
    nothing, and succeeds. *)
Example cli_shopping_scenario :
  let '(db1, out1, st1) :=
    main_run w_me w_alice ["notes"; "add"; "shopping"; "milk, eggs"; "errands"] mc_empty in
  let '(db2, out2, st2) := main_run w_me w_alice ["notes"; "name"; "shopping"] db1 in
  let '(db3, _, st3) := main_run w_me w_alice ["notes"; "del"; "1"] db2 in
  let '(db4, _, st4) := main_run w_me w_alice ["notes"; "d"; "x"; "1"] db3 in
  st1 = ExitOk /\ out2 = ["milk, eggs"] /\ st2 = ExitOk /\
  length (mc_docs db2) = 1%nat /\ mc_docs db3 = [] /\ st3 = ExitOk /\
  mc_docs db4 = [] /\ st4 = ExitOk.
Proof. vm_compute. repeat split. Qed.
