(* ===== verification/CliSpec.v ===== *)
(** The command-line program against the store's contract. Each command
    of [cmd/main.go] makes exactly one repository call ([cmd_call]). So a
    process is a one-call run of the repository, and the refinement of
    [StoreSpec] carries over to processes: one run of [notes], and any
    sequence of runs, each a new process with a counter starting at 0, is
    matched by a run of the spec's store. The root action (the list
    screen) only reads. *)
From S2P Require Import Prelude GoLib Note Bson Collection Repository StoreSpec Mongo Cli.

(** ** The repository call of a command *)

Definition cmd_call (env : Env) (cmd : command) (args : list string) : call :=
  match cmd with
  | CmdAdd =>
      CAdd env (mkNote (args_get args 0) (args_get args 1) (args_get args 2) ""
                  (env_now env) 0)
  | CmdDel => CDelete (to_int32 (Atoi (args_get args 1)).1)
  | CmdMine => CByAuthor (default "" (env_user env))
  | CmdName => CByName (args_first args)
  end.

(** The spec operation a process performs: its command's call, from the
    counter 0 of a new process. The root action performs none, and neither
    does [add] without an OS user, which panics before its call. *)
Definition process_ops (me : MongoEnv) (env : Env) (osargs : list string) : list spec_op :=
  match app_dispatch osargs with
  | RunRoot _ => []
  | RunCommand cmd args =>
      match cmd, env_user env with
      | CmdAdd, None => []
      | _, _ => [abs_op (cmd_call env cmd args) (main_notesRepo me)]
      end
  end.

Definition runs_ops (me : MongoEnv) (runs : list (Env * list string)) : list spec_op :=
  flat_map (fun '(env, osargs) => process_ops me env osargs) runs.

(** Processes run one after another on the same database. Each starts
    from package initialisation, so from a repository with counter 0. *)
Fixpoint main_runs {C} `{!Collection C} (me : MongoEnv) (runs : list (Env * list string))
    (db : C) : C :=
  match runs with
  | [] => db
  | (env, osargs) :: rest => main_runs me rest (main_run me env osargs db).1.1
  end.

(** ** Lemmas *)

Section CliCalls.
Context {C : Type} `{!Collection C} `{!CollectionLaws C}.

Lemma run_calls_single k (s : @RS C) : run_calls [k] s = (run_call k s).1.
Proof. simpl. by destruct (run_call k s) as [? []]. Qed.

(** A command changes the repository and the database as its call does. *)
Lemma run_command_state env cmd args (s : @RS C) out :
  (run_command env cmd args (s, out)).1.1 = (run_call (cmd_call env cmd args) s).1.
Proof.
  destruct cmd; simpl.
  - unfold add_action, on_repo. simpl. by destruct (Add _ _ s).
  - unfold del_action, on_repo. simpl. by destruct (Delete _ s).
  - unfold mine_action, on_repo. st_unfold. destruct (env_user env) as [u|]; simpl.
    + destruct (ByAuthor u s) as [s' []]; reflexivity.
    + destruct (ByAuthor "" s) as [s' o] eqn:E. simpl.
      pose proof (ByAuthor_state "" s) as Hs. rewrite E in Hs. by simpl in Hs.
  - unfold name_action, on_repo, println. st_unfold. simpl.
    destruct (ByName (args_first args) s) as [s' o] eqn:E. by destruct o.
Qed.

(** The database after one process. *)
Lemma main_run_db me env osargs db :
  (main_run me env osargs db).1.1 =
    match app_dispatch osargs with
    | RunRoot _ => db
    | RunCommand cmd args =>
        (run_calls [cmd_call env cmd args] (main_notesRepo me, db)).2
    end.
Proof.
  unfold main_run. destruct (app_dispatch osargs) as [cmd args|rargs]; [|done].
  rewrite run_calls_single, <- (run_command_state env cmd args _ []).
  by destruct (run_command env cmd args _) as [[[? ?] ?] ?].
Qed.

Lemma main_notesRepo_collection me : collection (main_notesRepo me) = main_collection me.
Proof. reflexivity. Qed.

Lemma spec_run_app ops1 ops2 σ1 σ2 σ3 :
  spec_run ops1 σ1 σ2 -> spec_run ops2 σ2 σ3 -> spec_run (ops1 ++ ops2) σ1 σ3.
Proof. induction 1; simpl; [done|]. intros Hr. econstructor; eauto. Qed.

(** One call with its precondition refines one step of the spec. *)
Lemma one_call_refines k r h db σ :
  collection r = Some h -> call_pre k r -> store_rel σ (contents db) ->
  exists σ', spec_run [abs_op k r] σ σ' /\ store_rel σ' (contents (run_calls [k] (r, db)).2).
Proof.
  intros Hc Hpre Hrel.
  destruct (call_refines r h Hc k σ db Hpre Hrel) as (σ' & sr & Hstep & Hrel' & _).
  exists σ'. split; [econstructor; [exact Hstep|constructor]|].
  by rewrite run_calls_single, run_call_state.
Qed.

(** One process refines the spec operations it performs. *)
Lemma main_run_refines me env osargs db σ h :
  main_collection me = Some h -> store_rel σ (contents db) ->
  exists σ', spec_run (process_ops me env osargs) σ σ' /\
    store_rel σ' (contents (main_run me env osargs db).1.1).
Proof.
  intros Hc Hrel. rewrite main_run_db. unfold process_ops.
  destruct (app_dispatch osargs) as [cmd args|rargs];
    [|exists σ; split; [constructor|done]].
  assert (Hpre : env_user env <> None \/ cmd <> CmdAdd ->
                 call_pre (cmd_call env cmd args) (main_notesRepo me)).
  { intros Hu. destruct cmd; simpl; try done. unfold main_counter.
    destruct Hu as [Hu|]; [split; [done|lia]|done]. }
  destruct cmd, (env_user env) as [u|] eqn:Eu;
    try (apply (one_call_refines _ _ h); [done|apply Hpre; (left; congruence) || (right; done)|done]).
  exists σ. split; [constructor|]. rewrite run_calls_single. simpl.
  by rewrite Add_no_user.
Qed.

(** (C30) Refinement of the command line: any sequence of runs of
    [notes], each a new process, from a database related to an abstract
    store, is matched by the run of the spec's store made of the
    operations the commands name ([runs_ops]): add creates the note from
    its arguments, the OS user, the clock and id 0; del deletes the id
    read from the second argument; mine and name look up; the root action
    and a panicking add perform none. The final database is related to the
    spec's final store. Ids collide across processes (C15), and the spec's
    Create, which does not check ids, still matches. *)
Theorem cli_runs_refine me runs db σ h :
  main_collection me = Some h -> store_rel σ (contents db) ->
  exists σ', spec_run (runs_ops me runs) σ σ' /\ store_rel σ' (contents (main_runs me runs db)).
Proof.
  intros Hc. revert db σ. induction runs as [|[env osargs] runs IH]; intros db σ Hrel; simpl.
  - exists σ. split; [constructor|done].
  - destruct (main_run_refines me env osargs db σ h Hc Hrel) as (σ1 & Hr1 & Hrel1).
    destruct (IH _ σ1 Hrel1) as (σ2 & Hr2 & Hrel2).
    exists σ2. split; [by eapply spec_run_app|done].
Qed.
End CliCalls.

(** ** Witnesses *)

Local Open Scope Z_scope.

(** Five processes from an empty database: add, show, add, delete, and
    the list screen. *)
Definition w_session : list (Env * list string) :=
  [(w_alice, ["notes"; "add"; "shopping"; "milk, eggs"]);
   (w_alice, ["notes"; "name"; "shopping"]);
   (w_bob, ["notes"; "add"; "todo"; "call mom"]);
   (w_alice, ["notes"; "del"; "x"; "0"]);
   (w_alice, ["notes"])].

Lemma cli_runs_refine_witness :
  main_collection w_me = Some (mkHandle mongo_uri "go-notes" "notes") /\
  store_rel [] (contents mc_empty) /\
  exists σ', spec_run (runs_ops w_me w_session) [] σ' /\
    store_rel σ' (contents (main_runs w_me w_session mc_empty)).
Proof.
  assert (Hrel : store_rel [] (contents mc_empty)) by (split; [constructor|reflexivity]).
  split; [reflexivity|]. split; [exact Hrel|].
  apply (cli_runs_refine w_me _ mc_empty [] (mkHandle mongo_uri "go-notes" "notes"));
    [reflexivity|exact Hrel].
Defined.
