(* ===== verification/Tui.v ===== *)
(** The list screen of [cmd/main.go]: the root action of the app (lines
    49-74), the bubbletea [model] with [Init], [Update] and [View] (lines
    168-221), [tea.NewProgram(m).Run()] ([program_run]), and
    [itemDelegate.Render] and [Update] (lines 140-166). The screen reads
    the repository through the [NotesRepository] interface.

    The bubbles [list.Model] is library code. [ListModel] keeps the parts
    the screen uses: the items, the global cursor index, the size, the
    title and the two settings main.go changes. [list_Update] models the
    browsing keys of the list's default key map with filtering disabled:
    up/k, down/j, home/g and end/G move the cursor, and q/esc quit. Paging
    keys, the help toggle and the layout (pagination, styles) are not
    modelled. A view is the content the screen shows, not its styled
    string. The theorems: the screen invariant over reachable models, the
    liveness of choosing any row ([leads_to]), the program's termination
    at the first quit key, what the last frame shows
    for each way of quitting, what [View] shows for a choice, and the
    rendered rows. *)
From S2P Require Import Prelude GoLib Note Bson Collection Repository.

Local Open Scope Z_scope.
Local Open Scope string_scope.

(** ** The list widget *)

Record ListModel := mkList {
  l_items : list string;
  l_index : nat;
  l_width : Z;
  l_height : Z;
  l_title : string;
  l_show_status_bar : bool;
  l_filtering : bool
}.

(** [list.New(items, delegate, width, height)]. *)
Definition list_New (items : list string) (width height : Z) : ListModel :=
  mkList items 0 width height "List" true true.

Definition set_index (l : ListModel) (i : nat) : ListModel :=
  mkList (l_items l) i (l_width l) (l_height l) (l_title l) (l_show_status_bar l)
    (l_filtering l).

(** [m.list.SetWidth(w)]. *)
Definition SetWidth (l : ListModel) (w : Z) : ListModel :=
  mkList (l_items l) (l_index l) w (l_height l) (l_title l) (l_show_status_bar l)
    (l_filtering l).

(** [m.list.SelectedItem()]: nil when the list is empty. *)
Definition SelectedItem (l : ListModel) : option string := l_items l !! l_index l.

Inductive Msg :=
| WindowSizeMsg (width height : Z)
| KeyMsg (key : string)
| OtherMsg.

Inductive Cmd := NoCmd | QuitCmd.

Definition last_index (l : ListModel) : nat := pred (length (l_items l)).

(** [itemDelegate.Update]: no command. *)
Definition delegate_Update (msg : Msg) (l : ListModel) : Cmd := NoCmd.

(** [list.Model.Update] on the browsing keys, filtering disabled. The quit
    keys return [tea.Quit] at once; otherwise the list moves its cursor and
    returns the delegate's command. *)
Definition list_Update (l : ListModel) (msg : Msg) : ListModel * Cmd :=
  match msg with
  | KeyMsg k =>
      if decide (k = "q" \/ k = "esc") then (l, QuitCmd)
      else
        let l' :=
          if decide (k = "up" \/ k = "k") then set_index l (pred (l_index l))
          else if decide (k = "down" \/ k = "j")
          then set_index l (Nat.min (S (l_index l)) (last_index l))
          else if decide (k = "home" \/ k = "g") then set_index l 0
          else if decide (k = "end" \/ k = "G") then set_index l (last_index l)
          else l in
        (l', delegate_Update msg l')
  | _ => (l, delegate_Update msg l)
  end.

(** ** The screen's model *)

Record model := mkModel { m_list : ListModel; choice : string; quitting : bool }.

Definition listHeight : Z := 14.
Definition defaultWidth : Z := 20.

(** The double quote, byte 34. *)
Definition dq : string := String (Ascii.ascii_of_nat 34) EmptyString.

Definition list_title : string :=
  "What note do you want to read? Execute " ++ dq ++ "add" ++ dq ++ " to add a new note".

(** [l.Title = ...; l.SetShowStatusBar(false); l.SetFilteringEnabled(false)]. *)
Definition configure (l : ListModel) : ListModel :=
  mkList (l_items l) (l_index l) (l_width l) (l_height l) list_title false false.

Definition Update (m : model) (msg : Msg) : model * Cmd :=
  match msg with
  | WindowSizeMsg w _ => (mkModel (SetWidth (m_list m) w) (choice m) (quitting m), NoCmd)
  | KeyMsg k =>
      if decide (k = "ctrl+c") then (mkModel (m_list m) (choice m) true, QuitCmd)
      else if decide (k = "enter") then
        (match SelectedItem (m_list m) with
         | Some i => mkModel (m_list m) i (quitting m)
         | None => m
         end, QuitCmd)
      else let (l', c) := list_Update (m_list m) msg in (mkModel l' (choice m) (quitting m), c)
  | OtherMsg =>
      let (l', c) := list_Update (m_list m) msg in (mkModel l' (choice m) (quitting m), c)
  end.

(** What [View] shows: the chosen note's text, the goodbye line, or the
    list. *)
Inductive view :=
| ViewNote (text : string)
| ViewBye (line : string)
| ViewList (l : ListModel).

Section Screen.
Context {C : Type} `{!Collection C}.

(** [View] re-reads all notes (the names it collects are unused) and, for
    a choice, the note of that name; both errors are ignored. *)
Definition View (m : model) : ST (@RS C) view :=
  notes <- st_attempt repo_All ;;
  let names := map Name (with_zero [] notes) in
  if decide (choice m <> "") then
    note <- st_attempt (repo_ByName (choice m)) ;;
    st_ret (ViewNote (Text (with_zero zero_note note)))
  else if quitting m then st_ret (ViewBye "Not hungry? That’s cool.")
  else st_ret (ViewList (m_list m)).

(** The root action up to [tea.NewProgram(m)]: the names of all notes,
    with the error of [All] ignored, in a configured list. *)
Definition root_model : ST (@RS C) model :=
  notes <- st_attempt repo_All ;;
  let items := map Name (with_zero [] notes) in
  st_ret (mkModel (configure (list_New items defaultWidth listHeight)) "" false).
End Screen.

(** [model.Init]: no initial command. *)
Definition Init (m : model) : Cmd := NoCmd.

(** The bubbletea event loop: messages go to [Update] until one returns
    [tea.Quit]. The flag says whether the program quit. *)
Fixpoint program_loop (m : model) (msgs : list Msg) : model * bool :=
  match msgs with
  | [] => (m, false)
  | msg :: rest =>
      let (m', c) := Update m msg in
      match c with
      | QuitCmd => (m', true)
      | NoCmd => program_loop m' rest
      end
  end.

(** [tea.NewProgram(m).Run()]: the initial command of [Init], then the
    event loop. *)
Definition program_run (m : model) (msgs : list Msg) : model * bool :=
  match Init m with
  | QuitCmd => (m, true)
  | NoCmd => program_loop m msgs
  end.

(** ** Rendering an item *)

Inductive line := ItemLine (s : string) | SelectedLine (s : string).

(** [itemDelegate.Render]: ["%d. %s"] with the 1-based position, and a
    ["> "] prefix on the selected row. *)
Definition Render (l : ListModel) (index : nat) (i : string) : line :=
  let str := Itoa (Z.of_nat index + 1) ++ ". " ++ i in
  if decide (index = l_index l) then SelectedLine ("> " ++ str) else ItemLine str.

(** The rows of the list: each item rendered at its position. *)
Definition list_lines (l : ListModel) : list line := imap (Render l) (l_items l).

(** ** The screen invariant *)

(** The models the program can be in: the root model over [items], and
    every [Update] of a reachable model. *)
Inductive reachable (items : list string) : model -> Prop :=
| reach_root :
    reachable items (mkModel (configure (list_New items defaultWidth listHeight)) "" false)
| reach_update m msg : reachable items m -> reachable items (Update m msg).1.

(** Liveness on the screen: from [m] the user can press keys, none of
    them a quit key, and then a quit key, so that the program ends in a
    model satisfying [P]. The inductive is the "eventually" of a step
    relation whose steps the user chooses; each proof is a finite key
    sequence. *)
Inductive leads_to (P : model -> Prop) : model -> Prop :=
| leads_quit m msg : (Update m msg).2 = QuitCmd -> P (Update m msg).1 -> leads_to P m
| leads_step m msg : (Update m msg).2 = NoCmd -> leads_to P (Update m msg).1 -> leads_to P m.

(** The items never change, the cursor stays on an item (or at 0 on an
    empty list), and the choice is empty or one of the items. *)
Definition screen_inv (items : list string) (m : model) : Prop :=
  l_items (m_list m) = items /\ (l_index (m_list m) <= pred (length items))%nat /\
  (choice m = "" \/ choice m ∈ items).

Lemma list_Update_items l msg : l_items (list_Update l msg).1 = l_items l.
Proof. destruct msg; simpl; repeat case_decide; reflexivity. Qed.

Lemma list_Update_index l msg :
  (l_index l <= last_index l)%nat -> (l_index (list_Update l msg).1 <= last_index l)%nat.
Proof.
  intros H. destruct msg; cbn [list_Update]; repeat case_decide;
    cbn [fst l_index set_index]; unfold last_index in *; lia.
Qed.

Lemma SelectedItem_elem l i : SelectedItem l = Some i -> i ∈ l_items l.
Proof. unfold SelectedItem. apply list_elem_of_lookup_2. Qed.

Lemma Update_inv items m msg : screen_inv items m -> screen_inv items (Update m msg).1.
Proof.
  intros (Hi & Hx & Hc). unfold screen_inv.
  destruct msg as [w ht|k|]; cbn [Update fst].
  - by repeat split.
  - case_decide; [by repeat split|]. case_decide.
    + destruct (SelectedItem (m_list m)) as [i|] eqn:E; simpl; [|by repeat split].
      repeat split; [done|done|]. right. rewrite <- Hi. by apply SelectedItem_elem.
    + pose proof (list_Update_items (m_list m) (KeyMsg k)) as Hli.
      pose proof (list_Update_index (m_list m) (KeyMsg k)) as Hlx.
      unfold last_index in Hlx. rewrite Hi in Hlx.
      destruct (list_Update (m_list m) (KeyMsg k)) as [l' c]. cbn [fst] in *.
      cbn [m_list choice]. repeat split; [congruence|auto|auto].
  - pose proof (list_Update_items (m_list m) OtherMsg) as Hli.
    pose proof (list_Update_index (m_list m) OtherMsg) as Hlx.
    unfold last_index in Hlx. rewrite Hi in Hlx.
    destruct (list_Update (m_list m) OtherMsg) as [l' c]. cbn [fst] in *.
    cbn [m_list choice]. repeat split; [congruence|auto|auto].
Qed.

(** Reachable models keep [screen_inv]. *)
Lemma reachable_screen_inv items m : reachable items m -> screen_inv items m.
Proof.
  induction 1 as [|m msg _ IH].
  - repeat split; simpl; [lia|by left].
  - by apply Update_inv.
Qed.

(** (C20) Every reachable model keeps the screen invariant: the items
    never change, the cursor stays on an item, and the choice is empty or
    one of the listed names. *)
Theorem reachable_inv items m : reachable items m -> screen_inv items m.
Proof. apply reachable_screen_inv. Qed.

(** On a non-empty list the cursor is always on an item. *)
Lemma reachable_selected items m :
  reachable items m -> items <> [] -> exists i, SelectedItem (m_list m) = Some i.
Proof.
  intros Hr Hne. destruct (reachable_screen_inv items m Hr) as (Hi & Hx & _).
  unfold SelectedItem. rewrite Hi. apply lookup_lt_is_Some_2.
  destruct items; [done|simpl in *; lia].
Qed.

(** ** Quitting *)

Lemma Update_enter m :
  Update m (KeyMsg "enter") =
  (match SelectedItem (m_list m) with
   | Some i => mkModel (m_list m) i (quitting m)
   | None => m
   end, QuitCmd).
Proof. reflexivity. Qed.

(** The keys that end the program: [ctrl+c] and [enter] in [Update], [q]
    and [esc] in the list's key map. *)
Definition quit_key (msg : Msg) : bool :=
  match msg with
  | KeyMsg k => bool_decide (k = "ctrl+c" \/ k = "enter" \/ k = "q" \/ k = "esc")
  | _ => false
  end.

Lemma Update_quit m msg : (Update m msg).2 = if quit_key msg then QuitCmd else NoCmd.
Proof.
  destruct msg as [w ht|k|]; cbn [Update quit_key]; [done| |done].
  repeat case_decide; cbn [list_Update snd]; repeat case_decide;
    try (rewrite bool_decide_true by tauto; done);
    rewrite bool_decide_false by tauto; done.
Qed.

Lemma loop_quit m msgs : (program_loop m msgs).2 = existsb quit_key msgs.
Proof.
  revert m. induction msgs as [|msg msgs IH]; intros m; [done|]. cbn [program_loop existsb].
  pose proof (Update_quit m msg) as Hq. destruct (Update m msg) as [m' c]. simpl in Hq.
  destruct (quit_key msg); subst c; simpl; [done|apply IH].
Qed.

Lemma loop_prefix m pre q post :
  forallb (fun x => negb (quit_key x)) pre = true -> quit_key q = true ->
  program_loop m (pre ++ q :: post)%list = program_loop m (pre ++ [q])%list.
Proof.
  revert m. induction pre as [|x pre IH]; intros m Hpre Hq; cbn [app program_loop].
  - pose proof (Update_quit m q) as Hu. rewrite Hq in Hu.
    destruct (Update m q) as [m' c]. simpl in Hu. by subst c.
  - cbn [forallb] in Hpre. apply andb_true_iff in Hpre as [Hx Hpre].
    pose proof (Update_quit m x) as Hu. destruct (quit_key x); [done|].
    destruct (Update m x) as [m' c]. simpl in Hu. subst c. by apply IH.
Qed.

(** (C33) Termination of the program: the event loop that [tea.Program.Run]
    starts after [Init] (which returns no command) ends exactly when a quit
    key arrives. The program stops if and only if one of [ctrl+c],
    [enter], [q] or [esc] is among the messages. It stops at the first of
    them, and the messages after it are never read: the model takes
    [tea.Quit] as immediate, where bubbletea runs it as a command and may
    still deliver messages already queued. *)
Theorem program_run_termination m msgs :
  (program_run m msgs).2 = existsb quit_key msgs /\
  (forall pre q post, msgs = (pre ++ q :: post)%list ->
     forallb (fun x => negb (quit_key x)) pre = true -> quit_key q = true ->
     program_run m msgs = program_run m (pre ++ [q])%list).
Proof.
  unfold program_run, Init. split; [apply loop_quit|].
  intros pre q post ->. apply loop_prefix.
Qed.

(** ** Choosing any row *)

Lemma Update_home m :
  Update m (KeyMsg "home") = (mkModel (set_index (m_list m) 0) (choice m) (quitting m), NoCmd).
Proof. reflexivity. Qed.

Lemma Update_down m :
  Update m (KeyMsg "down") =
  (mkModel (set_index (m_list m) (Nat.min (S (l_index (m_list m))) (last_index (m_list m))))
     (choice m) (quitting m), NoCmd).
Proof. reflexivity. Qed.

Lemma set_index_twice l i j : set_index (set_index l i) j = set_index l j.
Proof. reflexivity. Qed.

(** A finite run that quits in a model satisfying [P] is a proof of
    [leads_to P]. *)
Lemma loop_leads_to (P : model -> Prop) m msgs m' :
  program_loop m msgs = (m', true) -> P m' -> leads_to P m.
Proof.
  revert m. induction msgs as [|msg msgs IH]; intros m Hl HP; [done|].
  cbn [program_loop] in Hl. destruct (Update m msg) as [m1 c] eqn:E. destruct c.
  - apply (leads_step P m msg); rewrite E; [done|]. by apply (IH m1).
  - injection Hl as ->. apply (leads_quit P m msg); by rewrite E.
Qed.

(** [k] presses of [down] from row [j] move the cursor to row [j + k],
    as long as that is a row. *)
Lemma loop_downs l j k c q rest :
  (j + k <= last_index l)%nat ->
  program_loop (mkModel (set_index l j) c q) (repeat (KeyMsg "down") k ++ rest)%list =
  program_loop (mkModel (set_index l (j + k)) c q) rest.
Proof.
  revert j. induction k as [|k IH]; intros j Hk; cbn [repeat app].
  - by rewrite Nat.add_0_r.
  - cbn [program_loop]. rewrite Update_down. cbn [m_list choice quitting].
    unfold last_index at 1. cbn [l_index l_items set_index].
    rewrite set_index_twice, Nat.min_l by (unfold last_index in Hk; lia).
    rewrite IH by lia. by rewrite Nat.add_succ_r.
Qed.

(** [home], [i] times [down] and [enter] on a list with row [i] quit with
    that row's name. *)
Lemma run_home_downs_enter m i x :
  l_items (m_list m) !! i = Some x ->
  program_run m ((KeyMsg "home" :: repeat (KeyMsg "down") i) ++ [KeyMsg "enter"])%list =
  (mkModel (set_index (m_list m) i) x (quitting m), true).
Proof.
  intros Hx. assert (Hi : (i <= last_index (m_list m))%nat).
  { apply lookup_lt_Some in Hx. unfold last_index. lia. }
  unfold program_run, Init. cbn [app program_loop]. rewrite Update_home. cbn [fst snd].
  rewrite (loop_downs _ 0 i) by done. cbn [program_loop Nat.add]. rewrite Update_enter.
  unfold SelectedItem. cbn [m_list l_items l_index set_index]. by rewrite Hx.
Qed.

(** (C14) Liveness of the list screen: every row can be chosen. In any
    model the program can be in over a list of names, for every row [i]
    holding [x], pressing [home], [down] [i] times and [enter] ends the
    program with the cursor on row [i] and the choice [x]; so the user can
    always drive the program to quit with that choice ([leads_to]). The
    cursor starts from row 0 and [down] stops at the last row, so no row
    is out of reach and none is skipped. *)
Theorem every_row_can_be_chosen items m i x :
  reachable items m -> items !! i = Some x ->
  program_run m ((KeyMsg "home" :: repeat (KeyMsg "down") i) ++ [KeyMsg "enter"])%list =
    (mkModel (set_index (m_list m) i) x (quitting m), true) /\
  leads_to (fun m' => choice m' = x /\ SelectedItem (m_list m') = Some x) m.
Proof.
  intros Hr Hx. destruct (reachable_screen_inv items m Hr) as (Hi & _ & _).
  rewrite <- Hi in Hx. pose proof (run_home_downs_enter m i x Hx) as Hrun.
  split; [done|]. unfold program_run, Init in Hrun.
  apply (loop_leads_to _ m _ _ Hrun). by split.
Qed.

(** ** What the screen shows *)

Lemma decode_all_not_panic ds p : decode_all ds <> Panic p.
Proof.
  induction ds as [|d ds IH]; simpl; [discriminate|].
  destruct (decode_note d) eqn:E; [|discriminate|by apply decode_note_not_panic in E].
  destruct (decode_all ds); [discriminate|discriminate|done].
Qed.

Section ScreenProofs.
Context {C : Type} `{!Collection C} `{!CollectionLaws C}.

(** [notes, _ := notesRepo.All(ctx)] returns, and changes nothing, when the
    collection handle is set. *)
Lemma attempt_All r h c :
  collection r = Some h -> exists o, st_attempt All (r, c) = ((r, c), Ret o).
Proof.
  intros Hc. unfold st_attempt. destruct (available c) eqn:Ha.
  - rewrite (All_spec r h Hc c Ha). pose proof (decode_all_not_panic (contents c)) as Hp.
    destruct (decode_all (contents c)) eqn:E; simpl; eauto. by destruct (Hp msg).
  - destruct (All_down r h Hc c Ha) as (e & He).
    exists (Throw (Wrapf "get all notes" e)). by rewrite He.
Qed.

(** [View] with a choice shows the first stored note of that name. *)
Lemma View_first_match r h c m d n :
  collection r = Some h -> available c = true -> choice m <> "" ->
  find_first (name_filter (choice m)) (contents c) = Some d -> decode_note d = Ret n ->
  View m (r, c) = ((r, c), Ret (ViewNote (Text n))).
Proof.
  intros Hc Ha Hch Hf Hd. destruct (attempt_All r h c Hc) as (o & Ho).
  unfold View. repo_iface. st_unfold. rewrite Ho. rewrite decide_True by done.
  rewrite (ByName_spec r h Hc (choice m) c Ha), Hf. simpl. by rewrite Hd.
Qed.

(** (C22) With a choice, [View] shows the text of the first stored note of
    that name. The row the user selected does not matter: with two notes of
    the same name, choosing the second shows the first one's text. *)
Theorem View_shows_first_match r h c m d n :
  collection r = Some h -> available c = true -> choice m <> "" ->
  find_first (name_filter (choice m)) (contents c) = Some d -> decode_note d = Ret n ->
  View m (r, c) = ((r, c), Ret (ViewNote (Text n))).
Proof. apply View_first_match. Qed.

(** (C32) A chosen note that is no longer stored shows an empty text.
    [View] runs after the program quits and reads the store as it is then;
    when no note has the chosen name any more (another process ran
    [notes del] after the list was read), [ByName]'s "no documents by
    given filter" error is dropped ([note, _ :=]) and the screen shows the
    zero note's empty text, where the spec's lookup fails with
    NotFoundError. Nothing is written. *)
Theorem View_missing_choice r h c m :
  collection r = Some h -> available c = true -> choice m <> "" ->
  find_first (name_filter (choice m)) (contents c) = None ->
  View m (r, c) = ((r, c), Ret (ViewNote "")).
Proof.
  intros Hc Ha Hch Hf. destruct (attempt_All r h c Hc) as (o & Ho).
  unfold View. repo_iface. st_unfold. rewrite Ho. rewrite decide_True by done.
  by rewrite (ByName_spec r h Hc (choice m) c Ha), Hf.
Qed.

(** (C23) Choosing a note whose name is empty (a note added with no
    arguments) quits the program and leaves the choice empty. [View] then
    tests [m.choice != ""] and shows the list instead of the note. *)
Theorem empty_name_choice_shows_list r h c m :
  collection r = Some h -> SelectedItem (m_list m) = Some "" -> quitting m = false ->
  (Update m (KeyMsg "enter")).2 = QuitCmd /\
  View (Update m (KeyMsg "enter")).1 (r, c) = ((r, c), Ret (ViewList (m_list m))).
Proof.
  intros Hc Hs Hq. rewrite Update_enter, Hs. split; [done|].
  destruct (attempt_All r h c Hc) as (o & Ho).
  unfold View. repo_iface. st_unfold. cbn [fst choice quitting m_list]. rewrite Ho.
  rewrite decide_False by (intros []; done). by rewrite Hq.
Qed.

(** (C36) How the program's last frame depends on the quit key. From a
    model with no choice, [ctrl+c] quits with the goodbye line, but [q]
    and [esc], handled by the list, quit without setting [quitting], so
    the last view is the list itself. *)
Theorem quit_views r h c m :
  collection r = Some h -> choice m = "" -> quitting m = false ->
  (Update m (KeyMsg "ctrl+c")).2 = QuitCmd /\
  View (Update m (KeyMsg "ctrl+c")).1 (r, c) = ((r, c), Ret (ViewBye "Not hungry? That’s cool.")) /\
  (forall k, k = "q" \/ k = "esc" ->
     (Update m (KeyMsg k)).2 = QuitCmd /\
     View (Update m (KeyMsg k)).1 (r, c) = ((r, c), Ret (ViewList (m_list m)))).
Proof.
  intros Hc Hch Hq. destruct (attempt_All r h c Hc) as (o & Ho).
  assert (Hview : forall m', choice m' = "" ->
            View m' (r, c) = ((r, c), Ret (if quitting m' then ViewBye "Not hungry? That’s cool."
                                           else ViewList (m_list m')))).
  { intros m' Hch'. unfold View. repo_iface. st_unfold. rewrite Ho.
    rewrite decide_False by (intros []; done). by destruct (quitting m'). }
  split; [done|]. split; [by rewrite Hview|].
  intros k Hk. assert (Hu : Update m (KeyMsg k) = (m, QuitCmd)).
  { cbn [Update]. rewrite !decide_False by (destruct Hk as [->| ->]; done).
    cbn [list_Update]. rewrite decide_True by done. by destruct m. }
  rewrite Hu. split; [done|]. simpl. rewrite Hview by done. by rewrite Hq.
Qed.

(** (C37) The screen with the server down. The errors of [All] and
    [ByName] are dropped: the root action starts the screen on an empty
    list, and a choice shows an empty text (the zero [Note]'s), where the
    spec says the chosen note's text is displayed. *)
Theorem screen_server_down r h c m :
  collection r = Some h -> available c = false ->
  root_model (r, c) =
    ((r, c), Ret (mkModel (configure (list_New [] defaultWidth listHeight)) "" false)) /\
  (choice m <> "" -> View m (r, c) = ((r, c), Ret (ViewNote ""))).
Proof.
  intros Hc Ha. destruct (All_down r h Hc c Ha) as (e & He).
  split.
  - unfold root_model. repo_iface. st_unfold. unfold st_attempt. by rewrite He.
  - intros Hch. unfold View. repo_iface. st_unfold. unfold st_attempt. rewrite He.
    cbn [fst snd]. rewrite decide_True by done.
    destruct (ByName_down r h Hc (choice m) c Ha) as (e' & Hb & _). by rewrite Hb.
Qed.

(** The root action lists the names of the decoded notes, in order. *)
Lemma root_model_items r h c ns :
  collection r = Some h -> available c = true -> decode_all (contents c) = Ret ns ->
  root_model (r, c) =
  ((r, c), Ret (mkModel (configure (list_New (map Name ns) defaultWidth listHeight)) "" false)).
Proof.
  intros Hc Ha Hd. unfold root_model. repo_iface. st_unfold.
  by rewrite (All_spec r h Hc c Ha), Hd.
Qed.
End ScreenProofs.

(** ** Rows *)

Definition is_selected (x : line) : bool :=
  match x with SelectedLine _ => true | ItemLine _ => false end.

Lemma Render_selected l i s :
  is_selected (Render l i s) = bool_decide (i = l_index l).
Proof. unfold Render. case_decide; case_bool_decide; done. Qed.

Lemma selected_count_from l (xs : list string) k :
  length (List.filter is_selected (imap (fun i => Render l (k + i)) xs)) =
  (if bool_decide (k <= l_index l < k + length xs)%nat then 1 else 0)%nat.
Proof.
  revert k. induction xs as [|x xs IH]; intros k.
  - simpl. rewrite bool_decide_false; [done|lia].
  - rewrite imap_cons. cbn [List.filter]. rewrite Render_selected.
    rewrite (imap_ext _ (fun i => Render l (S k + i)))
      by (intros; unfold compose; f_equal; lia).
    pose proof (IH (S k)) as IHk. cbn [length] in *.
    destruct (bool_decide (k + 0 = l_index l)%nat) eqn:E; cbn [length]; rewrite IHk;
      repeat case_bool_decide; lia.
Qed.

(** (C24) When the cursor is on an item, exactly one row is rendered as
    selected. It is the cursor's row, and it reads ["> n. name"] with [n]
    the 1-based position. *)
Theorem list_lines_selected l i :
  l_items l !! l_index l = Some i ->
  length (List.filter is_selected (list_lines l)) = 1%nat /\
  list_lines l !! l_index l =
    Some (SelectedLine ("> " ++ Itoa (Z.of_nat (l_index l) + 1) ++ ". " ++ i)).
Proof.
  intros Hi. split.
  - change (list_lines l) with (imap (fun i => Render l (0 + i)) (l_items l)).
    rewrite selected_count_from. apply lookup_lt_Some in Hi.
    by rewrite bool_decide_true by lia.
  - unfold list_lines. rewrite list_lookup_imap, Hi. simpl. unfold Render.
    by rewrite decide_True.
Qed.

(** ** Witnesses *)

Definition w_screen_pre : model :=
  mkModel (configure (list_New ["a"; "b"] defaultWidth listHeight)) "" false.

(** [down], [x] (no binding), [esc]: the program stops at [esc] and never
    reads the [enter] after it. *)
Lemma program_run_termination_witness :
  (program_run w_screen_pre [KeyMsg "down"; KeyMsg "x"; KeyMsg "esc"; KeyMsg "enter"]).2 = true /\
  program_run w_screen_pre [KeyMsg "down"; KeyMsg "x"; KeyMsg "esc"; KeyMsg "enter"] =
    program_run w_screen_pre [KeyMsg "down"; KeyMsg "x"; KeyMsg "esc"].
Proof.
  destruct (program_run_termination w_screen_pre
              [KeyMsg "down"; KeyMsg "x"; KeyMsg "esc"; KeyMsg "enter"]) as [H1 H2].
  split; [rewrite H1; reflexivity|].
  apply (H2 [KeyMsg "down"; KeyMsg "x"] (KeyMsg "esc") [KeyMsg "enter"]); reflexivity.
Defined.

Definition w_todo_first : Note := mkNote "todo" "first" "" "" 0 0.
Definition w_todo_second : Note := mkNote "todo" "second" "" "" 0 0.
Definition w_todo_doc1 : doc := ensure_id 0 (add_doc w_todo_first "alice" 0 0).
Definition w_todo_doc2 : doc := ensure_id 1 (add_doc w_todo_second "alice" 0 1).
(** Two notes with the same name, stored in this order. *)
Definition w_todo_db : MemColl := mkMemColl [w_todo_doc1; w_todo_doc2] 2 true.
Definition w_handle_ok : Handle := mkHandle "mongodb://localhost:27017/" "go-notes" "notes".
Definition w_repo_ok : NotesRepositoryImpl := mkRepo (Some w_handle_ok) 0.
Definition w_screen : model := mkModel (configure (list_New ["todo"; "todo"] defaultWidth listHeight)) "" false.

Definition w_three : list string := ["shopping"; "todo"; "work"].

Lemma every_row_can_be_chosen_witness :
  let m := (Update (mkModel (configure (list_New w_three defaultWidth listHeight)) "" false)
              (KeyMsg "down")).1 in
  program_run m ((KeyMsg "home" :: repeat (KeyMsg "down") 2) ++ [KeyMsg "enter"])%list =
    (mkModel (set_index (m_list m) 2) "work" (quitting m), true) /\
  leads_to (fun m' => choice m' = "work" /\ SelectedItem (m_list m') = Some "work") m.
Proof.
  apply (every_row_can_be_chosen w_three); [apply reach_update, reach_root|reflexivity].
Defined.

Lemma View_missing_choice_witness :
  View (mkModel (m_list w_screen) "shopping" false) (w_repo_ok, w_todo_db) =
    ((w_repo_ok, w_todo_db), Ret (ViewNote "")).
Proof. apply (View_missing_choice w_repo_ok w_handle_ok); [reflexivity|reflexivity|done|reflexivity]. Defined.

Lemma quit_views_witness :
  (Update w_screen (KeyMsg "ctrl+c")).2 = QuitCmd /\
  View (Update w_screen (KeyMsg "ctrl+c")).1 (w_repo_ok, w_todo_db) =
    ((w_repo_ok, w_todo_db), Ret (ViewBye "Not hungry? That’s cool.")) /\
  (forall k, k = "q" \/ k = "esc" ->
     (Update w_screen (KeyMsg k)).2 = QuitCmd /\
     View (Update w_screen (KeyMsg k)).1 (w_repo_ok, w_todo_db) =
       ((w_repo_ok, w_todo_db), Ret (ViewList (m_list w_screen)))).
Proof. apply (quit_views w_repo_ok w_handle_ok w_todo_db w_screen); reflexivity. Defined.

Definition w_todo_db_down : MemColl := mkMemColl [w_todo_doc1; w_todo_doc2] 2 false.

Lemma screen_server_down_witness :
  root_model (w_repo_ok, w_todo_db_down) =
    ((w_repo_ok, w_todo_db_down),
     Ret (mkModel (configure (list_New [] defaultWidth listHeight)) "" false)) /\
  (choice (mkModel (m_list w_screen) "todo" false) <> "" ->
   View (mkModel (m_list w_screen) "todo" false) (w_repo_ok, w_todo_db_down) =
     ((w_repo_ok, w_todo_db_down), Ret (ViewNote ""))).
Proof. apply (screen_server_down w_repo_ok w_handle_ok); reflexivity. Defined.

Lemma reachable_inv_witness :
  screen_inv ["todo"; "todo"] (Update (Update w_screen (KeyMsg "down")).1 (KeyMsg "enter")).1.
Proof.
  apply reachable_inv. apply reach_update. apply reach_update. apply reach_root.
Defined.

Lemma View_shows_first_match_witness :
  l_index (m_list (program_loop w_screen [KeyMsg "down"; KeyMsg "enter"]).1) = 1%nat /\
  View (program_loop w_screen [KeyMsg "down"; KeyMsg "enter"]).1 (w_repo_ok, w_todo_db) =
    ((w_repo_ok, w_todo_db), Ret (ViewNote "first")).
Proof.
  split; [reflexivity|].
  apply (View_shows_first_match w_repo_ok w_handle_ok w_todo_db _ w_todo_doc1
           (mkNote "todo" "first" "" "alice" zero_time 0)); try reflexivity.
  discriminate.
Defined.

Lemma empty_name_choice_shows_list_witness :
  (Update (mkModel (configure (list_New [""; "x"] defaultWidth listHeight)) "" false)
     (KeyMsg "enter")).2 = QuitCmd /\
  View (Update (mkModel (configure (list_New [""; "x"] defaultWidth listHeight)) "" false)
          (KeyMsg "enter")).1 (w_repo_ok, mc_empty) =
    ((w_repo_ok, mc_empty),
     Ret (ViewList (m_list (mkModel (configure (list_New [""; "x"] defaultWidth listHeight)) "" false)))).
Proof. apply (empty_name_choice_shows_list w_repo_ok w_handle_ok mc_empty); reflexivity. Defined.

Lemma list_lines_selected_witness :
  length (List.filter is_selected (list_lines (set_index (list_New ["a"; "b"; "c"] 20 14) 1))) = 1%nat /\
  list_lines (set_index (list_New ["a"; "b"; "c"] 20 14) 1) !! 1%nat =
    Some (SelectedLine ("> " ++ Itoa (Z.of_nat 1 + 1) ++ ". " ++ "b")).
Proof. apply (list_lines_selected (set_index (list_New ["a"; "b"; "c"] 20 14) 1) "b"). reflexivity. Defined.

(** The screen over the two "todo" notes: the list shows both rows, the
    user moves to the second and presses enter, and the final view is the
    first note's text. *)
Example tui_duplicate_names_scenario :
  let '(s1, o1) := root_model (w_repo_ok, w_todo_db) in
  match o1 with
  | Ret m0 =>
      let '(m1, quit) := program_loop m0 [KeyMsg "down"; KeyMsg "enter"] in
      list_lines (m_list m0) = [SelectedLine "> 1. todo"; ItemLine "2. todo"] /\
      quit = true /\ (View m1 s1).2 = Ret (ViewNote "first")
  | _ => False
  end.
Proof. vm_compute. repeat split. Qed.
