(* ===== verification/App.v ===== *)
(** The whole program of [cmd/main.go]: a run of [notes] with its
    arguments and, for the list screen, the key presses the user makes.
    [main_run] (file [Cli]) runs a command. With no command the app runs
    its root action (lines 49-74): it builds the model from [All]
    ([root_model]), hands it to [tea.NewProgram(m).Run()] ([program_run]),
    and returns nil. What the user sees at the end is the [View] of the
    final model.

    The theorems compose the components: the screen reads only, so no run
    of it changes the database, which the spec states for this surface;
    and a note added by one process is shown by the screen of the next. *)
From S2P Require Import Prelude GoLib Note Bson Collection Repository Mongo Cli Tui.

Local Open Scope string_scope.

Section App.
Context {C : Type} `{!Collection C}.

(** The root action as a process: the database after the run, the last
    frame ([None] when the run panicked before drawing one) and the exit
    status. A panic in [root_model] (a nil collection) ends the process
    before the program starts. *)
Definition root_run (me : MongoEnv) (msgs : list Msg) (db : C)
  : C * option view * exit_status :=
  match root_model (main_notesRepo me, db) with
  | (s1, Ret m0) =>
      let m1 := (program_run m0 msgs).1 in
      match View m1 s1 with
      | (s2, Ret v) => (s2.2, Some v, ExitOk)
      | (s2, Throw e) => (s2.2, None, ExitFatal e)
      | (s2, Panic p) => (s2.2, None, ExitPanic p)
      end
  | (s1, Throw e) => (s1.2, None, ExitFatal e)
  | (s1, Panic p) => (s1.2, None, ExitPanic p)
  end.

(** [main()]: a command runs as in [main_run]; no command runs the screen. *)
Definition main_process (me : MongoEnv) (env : Env) (osargs : list string)
    (msgs : list Msg) (db : C) : C * list string * option view * exit_status :=
  match app_dispatch osargs with
  | RunRoot _ => let '(db', v, st) := root_run me msgs db in (db', [], v, st)
  | RunCommand _ _ => let '(db', out, st) := main_run me env osargs db in (db', out, None, st)
  end.
End App.

(** ** Lemmas *)

Section AppProofs.
Context {C : Type} `{!Collection C} `{!CollectionLaws C}.

(** The screen's reads change nothing. *)
Lemma root_model_state (s : @RS C) : (root_model s).1 = s.
Proof.
  unfold root_model. repo_iface. st_unfold.
  pose proof (All_state s) as Hs. destruct (All s) as [s' []]; simpl in *; congruence.
Qed.

Lemma View_state m (s : @RS C) : (View m s).1 = s.
Proof.
  unfold View. repo_iface. st_unfold.
  pose proof (All_state s) as Hs. destruct (All s) as [s1 []]; simpl in *; subst s1;
    try done; (case_decide; [|by destruct (quitting m)]);
    pose proof (ByName_state (choice m) s) as Hb;
    destruct (ByName (choice m) s) as [s2 []]; simpl in *; congruence.
Qed.

(** With a handle, [ByName] never panics: its errors are returned. *)
Lemma attempt_ByName r h c nm :
  collection r = Some h -> exists o, st_attempt (ByName nm) (r, c) = ((r, c), Ret o).
Proof.
  intros Hc. unfold st_attempt. destruct (available c) eqn:Ha.
  - rewrite (ByName_spec r h Hc nm c Ha). unfold lookup_result.
    destruct (find_first _ _) as [d|]; [|eauto].
    destruct (decode_note d) eqn:E; eauto. by apply decode_note_not_panic in E.
  - destruct (ByName_down r h Hc nm c Ha) as (e & -> & _). eauto.
Qed.

(** With a handle, every frame is drawn. *)
Lemma View_ret r h c m :
  collection r = Some h -> exists v, View m (r, c) = ((r, c), Ret v).
Proof.
  intros Hc. destruct (attempt_All r h c Hc) as (o & Ho).
  unfold View. repo_iface. st_unfold. rewrite Ho. cbn [fst snd].
  case_decide; [|destruct (quitting m); eauto].
  destruct (attempt_ByName r h c (choice m) Hc) as (o' & Ho'). unfold st_attempt in Ho'.
  rewrite Ho'. eauto.
Qed.

(** With a nil collection the root action panics in [All]. *)
Lemma root_model_nil r c :
  collection r = None -> root_model (r, c) = ((r, c), Panic nil_deref).
Proof. intros Hc. unfold root_model. repo_iface. run_repo. by rewrite Hc. Qed.

(** (C21) The list screen never writes. Whatever keys the user presses,
    the run of [notes] with no command leaves the database as it was, as
    the spec says of this surface ("no write operations are available").
    It exits 0 when the connection at startup succeeded, with a last
    frame, and panics in [All] before drawing anything otherwise. *)
Theorem screen_read_only me msgs (db : C) :
  (root_run me msgs db).1.1 = db /\
  (root_run me msgs db).2 = match main_collection me with
                            | Some _ => ExitOk
                            | None => ExitPanic nil_deref
                            end.
Proof.
  unfold root_run. destruct (main_collection me) as [h|] eqn:Hc.
  - pose proof (root_model_state (main_notesRepo me, db)) as Hs.
    destruct (attempt_All (main_notesRepo me) h db Hc) as (o & Ho).
    unfold root_model in *. repo_iface. st_unfold. rewrite Ho in *. cbn [fst snd].
    destruct (View_ret (main_notesRepo me) h db
                (program_run (mkModel (configure (list_New (map Name (with_zero [] o))
                                         defaultWidth listHeight)) "" false) msgs).1 Hc)
      as (v & ->).
    done.
  - by rewrite root_model_nil.
Qed.

Lemma decode_all_snoc ds d ns x :
  decode_all ds = Ret ns -> decode_note d = Ret x -> decode_all (ds ++ [d])%list = Ret (ns ++ [x])%list.
Proof.
  revert ns. induction ds as [|d0 ds IH]; intros ns Hds Hd; simpl in *.
  - injection Hds as <-. by rewrite Hd.
  - destruct (decode_note d0) as [n0| |]; try discriminate.
    destruct (decode_all ds) as [ns'| |] eqn:E; try discriminate. injection Hds as <-.
    by rewrite (IH ns' eq_refl Hd).
Qed.

Lemma snoc_last {A} (l : list A) x : (l ++ [x])%list !! pred (length (l ++ [x])%list) = Some x.
Proof.
  rewrite length_app, Nat.add_1_r. cbn [pred]. rewrite lookup_app_r by lia.
  by rewrite Nat.sub_diag.
Qed.

Lemma Update_end m :
  Update m (KeyMsg "end") =
  (mkModel (set_index (m_list m) (last_index (m_list m))) (choice m) (quitting m), NoCmd).
Proof. reflexivity. Qed.

(** After [end] and [enter] on the root model of a list, the choice is its
    last item. *)
Lemma program_run_end_enter items x :
  program_run (mkModel (configure (list_New (items ++ [x])%list defaultWidth listHeight)) "" false)
    [KeyMsg "end"; KeyMsg "enter"] =
  (mkModel (set_index (configure (list_New (items ++ [x])%list defaultWidth listHeight))
              (length items)) x false, true).
Proof.
  unfold program_run, Init. cbn [program_loop]. rewrite Update_end. cbn [fst snd].
  rewrite Update_enter. unfold SelectedItem, last_index. cbn. rewrite snoc_last. cbn.
  by rewrite length_app, Nat.add_1_r.
Qed.

(** (C40) A note added by one process is shown by the screen of the next.
    After [notes add n t], from a store whose documents decode and hold no
    note named [n], running [notes] with no command and pressing [end]
    (the last row, the newest note) and [enter] shows [t] and exits 0,
    and the database stays as the add left it. The name must not be
    empty: an empty choice shows the list (C23). *)
Theorem add_then_screen_shows me env n t db h u :
  main_collection me = Some h -> env_user env = Some u -> available db = true ->
  decodable (contents db) -> find_first (name_filter n) (contents db) = None -> n <> "" ->
  exists db', main_run me env ["notes"; "add"; n; t] db = (db', [], ExitOk) /\
    root_run me [KeyMsg "end"; KeyMsg "enter"] db' = (db', Some (ViewNote t), ExitOk).
Proof.
  intros Hc Hu Ha Hdec Hfree Hn.
  destruct (main_run_add me env n t db u h Hc Hu Ha) as (db' & oid & Hr & Ha' & Hdb).
  exists db'. split; [exact Hr|].
  set (d := ensure_id oid (add_doc (mkNote n t "" "" (env_now env) 0) u (env_now env) 0)) in *.
  assert (Hd : decode_note d = Ret (mkNote n t "" u zero_time 0)) by apply decode_add_doc.
  destruct (decodable_decode_all _ Hdec) as (ns & Hns & _).
  assert (Hall : decode_all (contents db') = Ret (ns ++ [mkNote n t "" u zero_time 0])%list)
    by (rewrite Hdb; by apply decode_all_snoc).
  unfold root_run. rewrite (root_model_items (main_notesRepo me) h db' _ Hc Ha' Hall).
  rewrite map_app. cbn [map Name]. rewrite program_run_end_enter. cbn [fst].
  rewrite (View_first_match (main_notesRepo me) h db' _ d (mkNote n t "" u zero_time 0));
    cbn [choice]; try done.
  pose proof (matches_name_add_doc oid (mkNote n t "" "" (env_now env) 0) u (env_now env) 0)
    as Hm. cbn [Name] in Hm. fold d in Hm.
  by rewrite Hdb, find_first_app_single, Hfree, Hm.
Qed.
End AppProofs.

(** ** Witnesses *)

Local Open Scope Z_scope.

Lemma add_then_screen_shows_witness :
  exists db', main_run w_me w_alice ["notes"; "add"; "shopping"; "milk, eggs"] mc_empty =
    (db', [], ExitOk) /\
    root_run w_me [KeyMsg "end"; KeyMsg "enter"] db' = (db', Some (ViewNote "milk, eggs"), ExitOk).
Proof.
  apply (add_then_screen_shows w_me w_alice "shopping" "milk, eggs" mc_empty
           (mkHandle mongo_uri "go-notes" "notes") "alice"); try reflexivity.
  - constructor.
  - discriminate.
Defined.

(** A whole session, evaluated: add two notes in two processes, open the
    screen, move down to the second and choose it. *)
Example app_session_scenario :
  let '(db1, _, _) := main_run w_me w_alice ["notes"; "add"; "shopping"; "milk, eggs"] mc_empty in
  let '(db2, _, _) := main_run w_me w_bob ["notes"; "add"; "todo"; "call mom"] db1 in
  let '(db3, out, v, st) :=
    main_process w_me w_alice ["notes"] [KeyMsg "down"; KeyMsg "enter"] db2 in
  db3 = db2 /\ v = Some (ViewNote "call mom") /\ st = ExitOk /\ out = [].
Proof. vm_compute. repeat split. Qed.
